(** * Video_Toolkit: mix planning, execution and the batch mixing script

    A shallow embedding of

    - [video_audio_mixer_gui/models/media.py]
    - [video_audio_mixer_gui/services/mix_planner.py]
    - [video_audio_mixer_gui/services/task_executor.py]
    - [video_audio_mixer_gui/services/preview_controller.py]
    - [video_audio_mixer_gui/services/media_repository.py]
    - [video_audio_mixer_gui/core/ffmpeg_adapter.py]
    - [a3_MultiAudioAuto_MixWithOriginal_dePrefix.py]

    Python [float] values are kept behind the interface [PyFloat], which has
    two instances: [binary64] (IEEE 754 double precision, what CPython
    computes with) and [exact] (rational arithmetic, the idealisation in which
    the ordering and field laws hold).  The statements on the black
    extension and on the music offset are proved for [binary64], from laws
    of comparison and subtraction that are themselves proved from the
    specification of binary64; [exact] serves for the idealised statements
    next to them.  Everything the Python code takes from its interpreter and
    operating system (entropy, the Mersenne Twister, [uuid4], [pathlib],
    float formatting, [subprocess], and whether [unlink], [mkdir] and
    [write_text] raise OSError) is an interface too. *)

From Stdlib Require Import ZArith QArith Floats String Ascii List Bool.
From Stdlib Require Import DecimalString DecimalZ DecimalPos Lia Lqa.
Import ListNotations.

Set Implicit Arguments.
Local Open Scope string_scope.

(** ** Python floats *)

Class PyFloat (F : Type) : Type := {
  fadd : F -> F -> F;
  fsub : F -> F -> F;
  fmul : F -> F -> F;
  fdiv : F -> F -> F;
  (** [flt a b] is Python's [a < b], [fle a b] is [a <= b]; both answer
      [false] as soon as one side is NaN. *)
  flt : F -> F -> bool;
  fle : F -> F -> bool;
  (** [float(n)] for a Python int, correctly rounded.  (CPython raises
      OverflowError from 2^1024 on; frame counts stay far below.) *)
  of_int : Z -> F;
  (** [int(x)]: truncation towards zero; [None] where CPython raises
      (infinities and NaN). *)
  to_int : F -> option Z
}.

Declare Scope pyfloat_scope.
Delimit Scope pyfloat_scope with py.
Notation "a + b" := (fadd a b) : pyfloat_scope.
Notation "a - b" := (fsub a b) : pyfloat_scope.
Notation "a * b" := (fmul a b) : pyfloat_scope.
Notation "a / b" := (fdiv a b) : pyfloat_scope.
Notation "a <? b" := (flt a b) : pyfloat_scope.
Notation "a <=? b" := (fle a b) : pyfloat_scope.
Notation "a >? b" := (flt b a) : pyfloat_scope.

Section PyFloatDerived.
Context {F : Type} `{PyFloat F}.

(** The literal [0.0] (and the int [0] next to a float). *)
Definition f0 : F := of_int 0.
(** The literal [1.0]. *)
Definition f1 : F := of_int 1.

(** Python's builtin [max(a, b)]: the first argument unless the second is
    strictly greater. *)
Definition py_max (a b : F) : F := if (a <? b)%py then b else a.
End PyFloatDerived.

(** *** IEEE 754 binary64, as CPython uses it *)

Definition float_of_Z (z : Z) : float :=
  SF2Prim (binary_normalize prec emax z 0 false).

Definition float_to_Z (x : float) : option Z :=
  match Prim2SF x with
  | S754_zero _ => Some 0%Z
  | S754_finite s m e =>
      let mag := if (0 <=? e)%Z then (Z.pos m * 2 ^ e)%Z
                 else (Z.pos m / 2 ^ (- e))%Z in
      Some (if s then (- mag)%Z else mag)
  | S754_infinity _ => None
  | S754_nan => None
  end.

#[export] Instance binary64 : PyFloat float := {
  fadd := PrimFloat.add;
  fsub := PrimFloat.sub;
  fmul := PrimFloat.mul;
  fdiv := PrimFloat.div;
  flt := PrimFloat.ltb;
  fle := PrimFloat.leb;
  of_int := float_of_Z;
  to_int := float_to_Z
}.

(** *** Exact rational arithmetic *)

Definition Qltb (a b : Q) : bool := negb (Qle_bool b a).

Definition Qtrunc (q : Q) : Z := Z.quot (Qnum q) (Z.pos (Qden q)).

#[export] Instance exact : PyFloat Q := {
  fadd := Qplus;
  fsub := Qminus;
  fmul := Qmult;
  fdiv := Qdiv;
  flt := Qltb;
  fle := Qle_bool;
  of_int := inject_Z;
  to_int := fun q => Some (Qtrunc q)
}.

(** ** Strings *)

(** [str(n)] / [f"{n}"] for a Python int. *)
Definition str_int (z : Z) : string := NilZero.string_of_int (Z.to_int z).

(** List concatenation ([list.extend], [list.append] of one element), next
    to [++] on strings. *)
Notation "l +++ r" := (List.app l r) (at level 60, right associativity).

(** The truth value of a Python list: non-empty. *)
Definition truthy {A : Type} (l : list A) : bool :=
  match l with
  | [] => false
  | _ :: _ => true
  end.

(** [sep.join(parts)]. *)
Definition join (sep : string) (parts : list string) : string :=
  String.concat sep parts.

(** [pathlib.Path], kept as its text. *)
Definition Path : Type := string.

(** ** What the interpreter and the operating system provide *)

Class PyRuntime (F : Type) : Type := {
  (** The hidden state behind [os.urandom]: what an unseeded generator and
      [uuid4] draw from. *)
  World : Type;
  (** The state of one [random.Random] object. *)
  Rng : Type;
  (** [random.Random(seed)] with an int seed. *)
  Random_seeded : Z -> Rng;
  (** [random.Random(None)]: seeded from the entropy pool. *)
  Random_unseeded : World -> Rng * World;
  (** [rng.uniform(a, b)]. *)
  rng_uniform : Rng -> F -> F -> F * Rng;
  (** [uuid4().hex]. *)
  uuid4_hex : World -> string * World;
  (** [f"{x}"] for a float. *)
  float_str : F -> string;
  (** [f"{x:.3f}"]. *)
  float_fixed3 : F -> string;
  (** [path.parent], [path.stem], [path / name]. *)
  path_parent : Path -> Path;
  path_stem : Path -> string;
  path_join : Path -> string -> Path
}.

(** A computation that may raise and that may consume entropy:
    [None] is a raised exception. *)
Definition M {F : Type} `{PyRuntime F} (A : Type) : Type :=
  World -> option A * World.

Definition ret {F : Type} `{PyRuntime F} {A : Type} (a : A) : M A :=
  fun w => (Some a, w).

Definition bind {F : Type} `{PyRuntime F} {A B : Type}
    (m : M A) (k : A -> M B) : M B :=
  fun w => match m w with
           | (Some a, w') => k a w'
           | (None, w') => (None, w')
           end.

Definition lift_option {F : Type} `{PyRuntime F} {A : Type}
    (o : option A) : M A :=
  fun w => (o, w).

Definition lift_world {F : Type} `{PyRuntime F} {A : Type}
    (f : World -> A * World) : M A :=
  fun w => let (a, w') := f w in (Some a, w').

Declare Scope py_monad_scope.
Delimit Scope py_monad_scope with pym.
Notation "x <- m ;; k" := (bind m (fun x => k))
  (at level 100, m at next level, right associativity) : py_monad_scope.
Notation "' pat <- m ;; k" := (bind m (fun x => match x with pat => k end))
  (at level 100, pat pattern, m at next level, right associativity)
  : py_monad_scope.

(** ** models/media.py *)

Inductive AudioCategory : Type := SE | VO | MUSIC.

Inductive LengthMode : Type := MATCH_VIDEO | FIXED_SECONDS | FIXED_FRAMES.

Definition AudioCategory_eqb (a b : AudioCategory) : bool :=
  match a, b with
  | SE, SE | VO, VO | MUSIC, MUSIC => true
  | _, _ => false
  end.

Definition LengthMode_eqb (a b : LengthMode) : bool :=
  match a, b with
  | MATCH_VIDEO, MATCH_VIDEO
  | FIXED_SECONDS, FIXED_SECONDS
  | FIXED_FRAMES, FIXED_FRAMES => true
  | _, _ => false
  end.

Module VideoClip.
Record t (F : Type) : Type := mk {
  file_path : Path;
  display_name : string;
  duration_seconds : F;
  fps : F;
  resolution : Z * Z;
  has_audio : bool;
  clip_id : string
}.
End VideoClip.

Module AudioClip.
Record t (F : Type) : Type := mk {
  file_path : Path;
  category : AudioCategory;
  duration_seconds : F;
  sample_rate : Z;
  display_name : string;
  start_frame : option Z;
  source_start_seconds : F;
  clip_id : string
}.

Section Methods.
Context {F : Type} `{PyFloat F}.

(** [self.start_frame or 0]: [None] and [0] both give [0]. *)
Definition start_frame_or_0 (self : t F) : Z :=
  match start_frame self with
  | Some n => n
  | None => 0%Z
  end.

Definition start_seconds (self : t F) (fps : F) : F :=
  let start_frame := start_frame_or_0 self in
  if (fps <=? f0)%py then f0
  else (of_int start_frame / fps)%py.
End Methods.
End AudioClip.

Module TrackConfig.
Record t (F : Type) : Type := mk {
  video_id : string;
  override_original : bool;
  enable_limiter : bool;
  music_random_seed : option Z;
  music_retry_limit : Z;
  music_random_enabled : bool;
  music_length_mode : LengthMode;
  music_length_value : option F;
  music_start_offset : F;
  video_audio_lead : F
}.
End TrackConfig.

Module MixSession.
Record t (F : Type) : Type := mk {
  video_clip : VideoClip.t F;
  audio_clips : list (AudioClip.t F);
  config : TrackConfig.t F;
  target_output : Path;
  session_id : string
}.

Section Methods.
Context {F : Type} `{PyFloat F}.

(** One turn of the loop of [black_extension_duration]. *)
Definition se_vo_step (fps : F) (se_vo_end : F) (clip : AudioClip.t F) : F :=
  if negb (existsb (AudioCategory_eqb (AudioClip.category clip)) [SE; VO])
  then se_vo_end
  else
    let start_seconds := AudioClip.start_seconds clip fps in
    let end_time := (start_seconds + AudioClip.duration_seconds clip)%py in
    py_max se_vo_end end_time.

Definition black_extension_duration (self : t F) : F :=
  let video_duration := VideoClip.duration_seconds (video_clip self) in
  let se_vo_end :=
    fold_left (se_vo_step (VideoClip.fps (video_clip self)))
              (audio_clips self) video_duration in
  py_max f0 (se_vo_end - video_duration)%py.

Definition requires_black_extension (self : t F) : bool :=
  (black_extension_duration self >? f0)%py.
End Methods.
End MixSession.

(** ** services/mix_planner.py *)

Module MixPlan.
Record t (F : Type) : Type := mk {
  video_input : Path;
  audio_inputs : list Path;
  audio_filters : list string;
  output_args : list string;
  needs_black_extension : bool;
  black_extension_duration : F;
  video_resolution : Z * Z;
  video_fps : F;
  black_clip_path : option Path;
  concat_list_path : option Path;
  extended_video_path : option Path;
  audio_output_label : string;
  include_original_audio : bool;
  amix_normalize : Z
}.
End MixPlan.

Module MixPlanner.
Section Planner.
Context {F : Type} `{PyFloat F} `{PyRuntime F}.
Local Open Scope py_monad_scope.

(** The local state of [_build_clip_filters]: the list under
    construction and the two [nonlocal] variables of its closures. *)
Record chain : Type := mk_chain {
  filters : list string;
  current_ref : string;
  label_counter : Z
}.

Definition next_label (output_label suffix : string) (st : chain)
  : string * chain :=
  let counter := (label_counter st + 1)%Z in
  (output_label ++ "_" ++ suffix ++ "_" ++ str_int counter,
   mk_chain (filters st) (current_ref st) counter).

Definition apply_filter (output_label filter_expr : string) (st : chain)
  : chain :=
  let (new_label, st1) := next_label output_label "flt" st in
  mk_chain
    (filters st1 +++ [current_ref st1 ++ filter_expr ++ "[" ++ new_label ++ "]"])
    ("[" ++ new_label ++ "]")
    (label_counter st1).

(** The body of [for _ in range(attempts)]: every turn draws and
    overwrites [best_value]. *)
Fixpoint retry_loop (attempts : nat) (rng : Rng) (max_start best_value : F)
  : F * Rng :=
  match attempts with
  | O => (best_value, rng)
  | S k =>
      let (candidate, rng') := rng_uniform rng f0 max_start in
      retry_loop k rng' max_start candidate
  end.

(** [random.Random(seed)], [seed] possibly [None]. *)
Definition make_rng (seed : option Z) : M Rng :=
  match seed with
  | Some s => ret (Random_seeded s)
  | None => lift_world Random_unseeded
  end.

Definition _random_music_offset
    (clip : AudioClip.t F) (session : MixSession.t F) : M F :=
  let video_duration :=
    VideoClip.duration_seconds (MixSession.video_clip session) in
  let total_duration := py_max (AudioClip.duration_seconds clip) f0 in
  if (video_duration <=? f0)%py || (total_duration <=? f0)%py then ret f0
  else
    let max_start := py_max (total_duration - video_duration)%py f0 in
    if (max_start <=? f0)%py then ret f0
    else
      rng <- make_rng
               (TrackConfig.music_random_seed (MixSession.config session)) ;;
      let best_value := f0 in
      let attempts :=
        Z.max (TrackConfig.music_retry_limit (MixSession.config session)) 1 in
      ret (fst (retry_loop (Z.to_nat attempts) rng max_start best_value)).

Definition _music_length_trim (session : MixSession.t F) : option string :=
  let mode := TrackConfig.music_length_mode (MixSession.config session) in
  match TrackConfig.music_length_value (MixSession.config session) with
  | None => None
  | Some value =>
      if LengthMode_eqb mode MATCH_VIDEO then None
      else if LengthMode_eqb mode FIXED_SECONDS then
        Some ("atrim=0:" ++ float_str value)
      else if LengthMode_eqb mode FIXED_FRAMES then
        let seconds :=
          (value / py_max (VideoClip.fps (MixSession.video_clip session)) f1)%py in
        Some ("atrim=0:" ++ float_str seconds)
      else None
  end.

(** The label of the chain of the clip at position [index]. *)
Definition clip_label (index : Z) : string := "a" ++ str_int index.

Definition _build_clip_filters
    (index : Z) (clip : AudioClip.t F) (session : MixSession.t F)
  : M (string * list string) :=
  let cfg := MixSession.config session in
  let st0 := mk_chain [] ("[" ++ str_int (index + 1) ++ ":a]") 0 in
  let output_label := clip_label index in
  (* source start offset *)
  source_offset <-
    (let source_offset := AudioClip.source_start_seconds clip in
     if AudioCategory_eqb (AudioClip.category clip) MUSIC then
       let source_offset :=
         (source_offset + py_max f0 (TrackConfig.music_start_offset cfg))%py in
       if TrackConfig.music_random_enabled cfg then
         random_offset <- _random_music_offset clip session ;;
         ret (source_offset + random_offset)%py
       else ret source_offset
     else ret source_offset) ;;
  let st1 :=
    if (source_offset >? f0)%py then
      apply_filter output_label
        ("atrim=start=" ++ float_str source_offset ++ ",asetpts=PTS-STARTPTS")
        st0
    else st0 in
  (* music length limit *)
  let st2 :=
    if AudioCategory_eqb (AudioClip.category clip) MUSIC then
      match _music_length_trim session with
      | Some trim_expr =>
          if (trim_expr =? "")%string then st1
          else apply_filter output_label
                 (trim_expr ++ ",asetpts=PTS-STARTPTS") st1
      | None => st1
      end
    else st1 in
  (* timeline delay: global lead plus the clip's own start frame *)
  let delay_seconds :=
    py_max f0
      (AudioClip.start_seconds clip
         (VideoClip.fps (MixSession.video_clip session))
       + py_max f0 (TrackConfig.video_audio_lead cfg))%py in
  st3 <-
    (if (delay_seconds >? f0)%py then
       delay_ms <- lift_option (to_int (delay_seconds * of_int 1000)%py) ;;
       ret (apply_filter output_label
              ("adelay=" ++ str_int delay_ms ++ "|" ++ str_int delay_ms) st2)
     else ret st2) ;;
  let filters :=
    if negb (current_ref st3 =? "[" ++ output_label ++ "]")%string then
      filters st3 +++ [current_ref st3 ++ "anull[" ++ output_label ++ "]"]
    else filters st3 in
  ret (output_label, filters).

Definition _build_original_filters (session : MixSession.t F)
  : M (string * list string) :=
  let filters : list string := [] in
  let current_ref := "[0:a]" in
  let output_label := "orig_audio" in
  let delay_seconds :=
    py_max f0 (TrackConfig.video_audio_lead (MixSession.config session)) in
  '(filters, current_ref) <-
    (if (delay_seconds >? f0)%py then
       delay_ms <- lift_option (to_int (delay_seconds * of_int 1000)%py) ;;
       ret (filters +++
               [current_ref ++ "adelay=" ++ str_int delay_ms ++ "|"
                  ++ str_int delay_ms ++ "[" ++ output_label ++ "_delay]"],
            "[" ++ output_label ++ "_delay]")
     else ret (filters, current_ref)) ;;
  let filters :=
    if negb (current_ref =? "[" ++ output_label ++ "]")%string then
      filters +++ [current_ref ++ "anull[" ++ output_label ++ "]"]
    else filters in
  ret (output_label, filters).

(** The three lists the loop over [enumerate(session.audio_clips)]
    appends to. *)
Record tracks : Type := mk_tracks {
  t_inputs : list Path;
  t_filters : list string;
  t_outputs : list string
}.

Fixpoint clip_loop (session : MixSession.t F) (index : Z)
    (clips : list (AudioClip.t F)) (acc : tracks) : M tracks :=
  match clips with
  | [] => ret acc
  | audio_clip :: rest =>
      let inputs := t_inputs acc +++ [AudioClip.file_path audio_clip] in
      '(final_label, filters) <-
        _build_clip_filters index audio_clip session ;;
      clip_loop session (index + 1) rest
        (mk_tracks inputs (t_filters acc +++ filters)
                   (t_outputs acc +++ [final_label]))
  end.

Definition build_plan (session : MixSession.t F) : M (MixPlan.t F) :=
  let video := MixSession.video_clip session in
  let cfg := MixSession.config session in
  let audio_output_label := "aout" in
  let include_original_audio :=
    negb (TrackConfig.override_original cfg) && VideoClip.has_audio video in
  let amix_normalize := if TrackConfig.enable_limiter cfg then 1%Z else 0%Z in
  acc <- clip_loop session 0 (MixSession.audio_clips session)
           (mk_tracks [] [] []) ;;
  acc <-
    (if include_original_audio then
       '(final_label, filters) <- _build_original_filters session ;;
       ret (mk_tracks (t_inputs acc) (t_filters acc +++ filters)
                      (t_outputs acc +++ [final_label]))
     else ret acc) ;;
  let audio_outputs := t_outputs acc in
  let audio_filters :=
    if truthy audio_outputs then
      let mix_inputs :=
        join "" (map (fun label => "[" ++ label ++ "]") audio_outputs) in
      t_filters acc +++
        [mix_inputs ++ "amix=inputs="
           ++ str_int (Z.of_nat (List.length audio_outputs))
           ++ ":normalize=" ++ str_int amix_normalize
           ++ "[" ++ audio_output_label ++ "]"]
    else t_filters acc in
  let output_args := ["-c:v"; "copy"; "-c:a"; "aac"; "-b:a"; "192k"] in
  let black_extension_duration := MixSession.black_extension_duration session in
  let needs_black_extension := (black_extension_duration >? f0)%py in
  '(black, concat, extended) <-
    (if needs_black_extension then
       unique_token <- lift_world uuid4_hex ;;
       let base_dir := path_parent (VideoClip.file_path video) in
       let stem := path_stem (VideoClip.file_path video) in
       ret (Some (path_join base_dir (stem ++ "_black_" ++ unique_token ++ ".mp4")),
            Some (path_join base_dir (stem ++ "_concat_" ++ unique_token ++ ".txt")),
            Some (path_join base_dir (stem ++ "_extended_" ++ unique_token ++ ".mp4")))
     else ret (None, None, None)) ;;
  ret (MixPlan.mk (VideoClip.file_path video) (t_inputs acc) audio_filters
         output_args needs_black_extension black_extension_duration
         (VideoClip.resolution video) (VideoClip.fps video)
         black concat extended audio_output_label
         include_original_audio amix_normalize).
End Planner.
End MixPlanner.

(** ** The file system, as far as the executor touches it *)

(** The paths that currently exist. *)
Definition FS : Type := list Path.

Definition exists_file (fs : FS) (p : Path) : bool :=
  existsb (String.eqb p) fs.

(** [path.write_text(...)] where the operating system lets it happen: the
    file exists afterwards. *)
Definition write_text (p : Path) (fs : FS) : FS := p :: fs.

(** Whether [path.write_text(...)] succeeds in the state [fs]; where it
    does not, it raises OSError (a full disk, a missing permission). *)
Definition Writable : Type := Path -> FS -> bool.

(** What [path.unlink(missing_ok=True)] does where the operating system
    lets it happen: the path is gone, and a missing path is no error. *)
Definition remove_path (p : Path) (fs : FS) : FS :=
  filter (fun q => negb (String.eqb p q)) fs.

(** Whether the operating system refuses to remove [p] in the state [fs]:
    [unlink] raises OSError (a directory, a missing permission, a file that
    is in use). *)
Definition Refusal : Type := Path -> FS -> bool.

(** Whether [path.mkdir(parents=True, exist_ok=True)] succeeds on the
    path; where it does not, it raises OSError (a file in the way, a missing
    permission, a read-only volume). *)
Definition Mkdir : Type := Path -> bool.

(** [try: path.unlink(missing_ok=True)] / [except OSError: pass]: a refused
    removal is swallowed and leaves the file. *)
Definition unlink (refused : Refusal) (p : Path) (fs : FS) : FS :=
  if refused p fs then fs else remove_path p fs.

(** ** core/ffmpeg_adapter.py *)

Module FFmpegAdapter.
Record FFmpegResult : Type := mk_result {
  return_code : Z;
  stdout : string;
  stderr : string
}.

(** [subprocess.Popen(full_command, ...)] followed by [communicate()]: the
    child process may create files; [None] is an exception raised by
    [Popen] (the executable is missing, for one). *)
Definition Popen : Type := list string -> FS -> option FFmpegResult * FS.

Definition _base_command : list string :=
  ["ffmpeg"; "-hide_banner"; "-loglevel"; "warning"; "-y"].

Section Adapter.
Context {F : Type} `{PyRuntime F}.
Variable popen : Popen.

Definition run_command (command : list string) (fs : FS)
  : option FFmpegResult * FS :=
  let full_command := _base_command +++ command in
  popen full_command fs.

Definition concat_videos (list_file output_path : Path) (fs : FS)
  : option FFmpegResult * FS :=
  let command :=
    ["-f"; "concat"; "-safe"; "0"; "-i"; list_file; "-c"; "copy";
     output_path] in
  run_command command fs.

Definition generate_black_clip (output_path : Path) (resolution : Z * Z)
    (duration fps : F) (fs : FS) : option FFmpegResult * FS :=
  let (width, height) := resolution in
  let command :=
    ["-f"; "lavfi"; "-i";
     "color=c=black:s=" ++ str_int width ++ "x" ++ str_int height
       ++ ":d=" ++ float_fixed3 duration;
     "-r"; float_fixed3 fps; "-pix_fmt"; "yuv420p"; output_path] in
  run_command command fs.
End Adapter.
End FFmpegAdapter.

(** ** services/task_executor.py *)

Module TaskExecutor.
Import FFmpegAdapter.

Inductive log_entry : Type :=
| log_error (message : string)
| log_success (message : string).

(** How [_run_plan] ends: it returns [None], or an exception of the
    invocation layer or of [write_text] escapes from it. *)
Inductive ending : Type := Returned | Escaped.

Record outcome : Type := mk_outcome {
  how : ending;
  files : FS;
  logged : list log_entry
}.

Section Executor.
Context {F : Type} `{PyRuntime F}.
Variable popen : Popen.
Variable writable : Writable.
Variable refused : Refusal.

(** The three extension artifacts, when the plan asks for the extension
    and names all of them. *)
Definition extension_paths (plan : MixPlan.t F)
  : option (Path * Path * Path) :=
  if MixPlan.needs_black_extension plan then
    match MixPlan.black_clip_path plan, MixPlan.concat_list_path plan,
          MixPlan.extended_video_path plan with
    | Some black, Some concat, Some extended =>
        Some (black, concat, extended)
    | _, _, _ => None
    end
  else None.

(** [command] as it stands before [run_command]. *)
Definition final_command (plan : MixPlan.t F) (video_input output_path : Path)
  : list string :=
  let command := ["-i"; video_input] in
  let command :=
    fold_left (fun command audio_path => command +++ ["-i"; audio_path])
              (MixPlan.audio_inputs plan) command in
  let command :=
    if truthy (MixPlan.audio_filters plan) then
      (command +++ ["-filter_complex"; join ";" (MixPlan.audio_filters plan)])
        +++ ["-map"; "0:v:0"; "-map";
             "[" ++ MixPlan.audio_output_label plan ++ "]"]
    else if truthy (MixPlan.audio_inputs plan) then
      command +++ ["-map"; "0:v:0"; "-map"; "1:a:0"]
    else command +++ ["-map"; "0:v:0"] in
  let command := command +++ MixPlan.output_args plan in
  command +++ [output_path].

(** From [command: list[str] = ...] to the end of [_run_plan]. *)
Definition mux_and_cleanup (plan : MixPlan.t F) (output_path : Path)
    (temp_paths : list Path) (video_input : Path) (fs : FS) : outcome :=
  let command := final_command plan video_input output_path in
  match run_command popen command fs with
  | (None, fs) => mk_outcome Escaped fs []
  | (Some result, fs) =>
      let entry :=
        if (return_code result =? 0)%Z then
          log_success ("完成混流: " ++ output_path)
        else
          log_error ("混流失败: " ++ output_path
                       ++ String "010" (stderr result)) in
      let fs := fold_left (fun fs temp => unlink refused temp fs) temp_paths fs in
      mk_outcome Returned fs [entry]
  end.

Definition _run_plan (plan : MixPlan.t F) (output_path : Path) (fs : FS)
  : outcome :=
  let temp_paths : list Path := [] in
  let video_input := MixPlan.video_input plan in
  match extension_paths plan with
  | Some (black_clip_path, concat_list_path, extended_video_path) =>
      match generate_black_clip popen black_clip_path
              (MixPlan.video_resolution plan)
              (MixPlan.black_extension_duration plan)
              (MixPlan.video_fps plan) fs with
      | (None, fs) => mk_outcome Escaped fs []
      | (Some black_result, fs) =>
          if negb (return_code black_result =? 0)%Z then
            mk_outcome Returned fs
              [log_error ("黑屏生成失败: " ++ stderr black_result)]
          else if negb (writable concat_list_path fs) then
            mk_outcome Escaped fs []
          else
            let fs := write_text concat_list_path fs in
            match concat_videos popen concat_list_path
                    extended_video_path fs with
            | (None, fs) => mk_outcome Escaped fs []
            | (Some concat_result, fs) =>
                if negb (return_code concat_result =? 0)%Z then
                  mk_outcome Returned fs
                    [log_error ("视频拼接失败: " ++ stderr concat_result)]
                else
                  let temp_paths :=
                    temp_paths +++
                      [black_clip_path; concat_list_path; extended_video_path] in
                  let video_input := extended_video_path in
                  mux_and_cleanup plan output_path temp_paths video_input fs
            end
      end
  | None => mux_and_cleanup plan output_path temp_paths video_input fs
  end.
End Executor.
End TaskExecutor.

(** ** services/preview_controller.py *)

Module PreviewController.
Record PreviewSection (F : Type) : Type := mk_section {
  start : F;
  duration : F
}.

Section Preview.
Context {F : Type} `{PyFloat F} `{PyRuntime F}.

Definition _build_preview_command (plan : MixPlan.t F)
    (video_input output_path : Path) (section : PreviewSection F)
  : list string :=
  let command : list string := [] in
  let command := command +++ ["-ss"; float_fixed3 (py_max (start section) f0)] in
  let command := command +++ ["-t"; float_fixed3 (py_max (duration section) f1)] in
  let command := command +++ ["-i"; video_input] in
  let command :=
    fold_left (fun command audio_path => command +++ ["-i"; audio_path])
              (MixPlan.audio_inputs plan) command in
  let command :=
    if truthy (MixPlan.audio_filters plan) then
      (command +++ ["-filter_complex"; join ";" (MixPlan.audio_filters plan)])
        +++ ["-map"; "0:v:0"; "-map";
             "[" ++ MixPlan.audio_output_label plan ++ "]"]
    else if truthy (MixPlan.audio_inputs plan) then
      command +++ ["-map"; "0:v:0"; "-map"; "1:a:0"]
    else command +++ ["-map"; "0:v:0"] in
  let command :=
    command +++ ["-c:v"; "libx264"; "-preset"; "veryfast"; "-crf"; "30"] in
  let command := command +++ ["-c:a"; "aac"; "-b:a"; "128k"] in
  command +++ [output_path].

Definition _cleanup_files (refused : Refusal) (paths : list Path) (fs : FS)
  : FS :=
  fold_left (fun fs path => unlink refused path fs) paths fs.

(** How [preview] ends, the files left behind and the entropy left. *)
Record preview_outcome : Type := mk_preview_outcome {
  preview_how : TaskExecutor.ending;
  preview_files : FS;
  preview_world : World;
  preview_logged : list TaskExecutor.log_entry
}.

(** [popen] runs ffmpeg, [player] is [subprocess.Popen(ffplay_command)]
    with [process.wait()], [writable] says whether the manifest can be
    written, [refused] which removals raise, and [mkdir] whether
    [preview_dir.mkdir] succeeds (it leaves the files alone). *)
Definition preview (popen : FFmpegAdapter.Popen)
    (player : list string -> FS -> option unit * FS)
    (writable : Writable) (refused : Refusal) (mkdir : Mkdir)
    (session : MixSession.t F) (section : PreviewSection F)
    (w : World) (fs : FS) : preview_outcome :=
  let video := MixSession.video_clip session in
  let preview_dir := path_parent (VideoClip.file_path video) in
  let temp_output :=
    path_join preview_dir
      ("preview_" ++ MixSession.session_id session ++ ".mp4") in
  if negb (mkdir preview_dir) then
    mk_preview_outcome TaskExecutor.Escaped fs w []
  else
  match MixPlanner.build_plan session w with
  | (None, w) => mk_preview_outcome TaskExecutor.Escaped fs w []
  | (Some plan, w) =>
      let temp_intermediate : list Path := [] in
      let video_input := MixPlan.video_input plan in
      let '(width, height) := MixPlan.video_resolution plan in
      let '(width, height) :=
        if (width <=? 0)%Z || (height <=? 0)%Z
        then VideoClip.resolution video else (width, height) in
      let width := if (width <=? 0)%Z then 1920%Z else width in
      let height := if (height <=? 0)%Z then 1080%Z else height in
      let fps :=
        if (MixPlan.video_fps plan >? f0)%py then MixPlan.video_fps plan
        else VideoClip.fps video in
      let fps := if (fps <=? f0)%py then of_int 25 else fps in
      let finish (temp_intermediate : list Path) (video_input : Path)
                 (fs : FS) : preview_outcome :=
        let command :=
          _build_preview_command plan video_input temp_output section in
        match FFmpegAdapter.run_command popen command fs with
        | (None, fs) => mk_preview_outcome TaskExecutor.Escaped fs w []
        | (Some result, fs) =>
            let fs := _cleanup_files refused temp_intermediate fs in
            if negb (FFmpegAdapter.return_code result =? 0)%Z then
              mk_preview_outcome TaskExecutor.Returned fs w
                [TaskExecutor.log_error
                   ("预览混流失败: " ++ FFmpegAdapter.stderr result)]
            else
              let ffplay_command :=
                ["ffplay"; "-autoexit"; "-window_title";
                 "预览 - " ++ VideoClip.display_name video; temp_output] in
              match player ffplay_command fs with
              | (None, fs) => mk_preview_outcome TaskExecutor.Escaped fs w []
              | (Some _, fs) =>
                  mk_preview_outcome TaskExecutor.Returned
                    (unlink refused temp_output fs) w []
              end
        end in
      match TaskExecutor.extension_paths plan with
      | Some (black_clip_path, concat_list_path, extended_video_path) =>
          let temp_intermediate :=
            temp_intermediate +++
              [black_clip_path; concat_list_path; extended_video_path] in
          match FFmpegAdapter.generate_black_clip popen black_clip_path
                  (width, height) (MixPlan.black_extension_duration plan)
                  fps fs with
          | (None, fs) => mk_preview_outcome TaskExecutor.Escaped fs w []
          | (Some result_black, fs) =>
              if negb (FFmpegAdapter.return_code result_black =? 0)%Z then
                mk_preview_outcome TaskExecutor.Returned
                  (_cleanup_files refused temp_intermediate fs) w
                  [TaskExecutor.log_error
                     ("预览黑屏生成失败: " ++ FFmpegAdapter.stderr result_black)]
              else if negb (writable concat_list_path fs) then
                mk_preview_outcome TaskExecutor.Escaped fs w []
              else
                let fs := write_text concat_list_path fs in
                match FFmpegAdapter.concat_videos popen concat_list_path
                        extended_video_path fs with
                | (None, fs) =>
                    mk_preview_outcome TaskExecutor.Escaped fs w []
                | (Some result_concat, fs) =>
                    if negb (FFmpegAdapter.return_code result_concat =? 0)%Z
                    then
                      mk_preview_outcome TaskExecutor.Returned
                        (_cleanup_files refused temp_intermediate fs) w
                        [TaskExecutor.log_error
                           ("预览拼接失败: "
                              ++ FFmpegAdapter.stderr result_concat)]
                    else finish temp_intermediate extended_video_path fs
                end
          end
      | None => finish temp_intermediate video_input fs
      end
  end.
End Preview.
End PreviewController.

(** ** services/media_repository.py *)

Module MediaRepository.
Section Repository.
Context {F : Type} `{PyFloat F}.

(** An [AudioClip] is an object: it is known by its address, and every list
    that holds it sees an assignment to its attributes.  [objects] are the
    clip objects that exist, the one with address [a] at position [a];
    [self._audios_by_video] is a dict from video ids to lists of
    addresses, kept as an association list in which the first binding of a
    key counts.  One object may sit in several lists, as it does after
    [replace_audio_list(v2, get_audio_clips(v1))]. *)
Record t : Type := mk {
  objects : list (AudioClip.t F);
  _audios_by_video : list (string * list nat)
}.

(** [d.get(key, default)]. *)
Fixpoint dict_get {V : Type} (d : list (string * V)) (key : string)
    (default : V) : V :=
  match d with
  | [] => default
  | (k, v) :: rest => if (k =? key)%string then v else dict_get rest key default
  end.

(** The object at an address. *)
Definition deref (objects : list (AudioClip.t F)) (address : nat)
  : option (AudioClip.t F) :=
  nth_error objects address.

(** The object at [address] replaced by its new state; the other objects
    are not touched. *)
Fixpoint assign (objects : list (AudioClip.t F)) (address : nat)
    (clip : AudioClip.t F) : list (AudioClip.t F) :=
  match objects, address with
  | [], _ => []
  | _ :: rest, O => clip :: rest
  | first :: rest, S address' => first :: assign rest address' clip
  end.

(** The loop of [update_audio_parameters] up to its [break]: the first
    entry of the list whose object has the id [audio_id], with its address.
    (An address without an object does not occur in Python; it is passed
    over.) *)
Fixpoint first_with_id (objects : list (AudioClip.t F)) (audio_id : string)
    (clips : list nat) : option (nat * AudioClip.t F) :=
  match clips with
  | [] => None
  | address :: rest =>
      match deref objects address with
      | Some clip =>
          if (AudioClip.clip_id clip =? audio_id)%string
          then Some (address, clip)
          else first_with_id objects audio_id rest
      | None => first_with_id objects audio_id rest
      end
  end.

(** [None]: [int(...)] raised, before anything was assigned. *)
Definition update_audio_parameters (self : t) (video_id audio_id : string)
    (start_seconds source_offset fps : F) : option t :=
  let clips := dict_get (_audios_by_video self) video_id [] in
  match first_with_id (objects self) audio_id clips with
  | None => Some self
  | Some (address, clip) =>
      match (if (fps >? f0)%py
             then option_map Some (to_int (start_seconds * fps)%py)
             else Some None) with
      | None => None
      | Some start_frame =>
          Some (mk (assign (objects self) address
                      (AudioClip.mk (AudioClip.file_path clip)
                         (AudioClip.category clip)
                         (AudioClip.duration_seconds clip)
                         (AudioClip.sample_rate clip)
                         (AudioClip.display_name clip)
                         start_frame
                         (py_max f0 source_offset)
                         (AudioClip.clip_id clip)))
                   (_audios_by_video self))
      end
  end.

(** [list(self._audios_by_video.get(video_id, []))], each clip as it is
    now. *)
Definition get_audio_clips (self : t) (video_id : string)
  : list (AudioClip.t F) :=
  flat_map (fun address => match deref (objects self) address with
                           | Some clip => [clip]
                           | None => []
                           end)
           (dict_get (_audios_by_video self) video_id []).
End Repository.
End MediaRepository.

(** ** a3_MultiAudioAuto_MixWithOriginal_dePrefix.py *)

Module A3.
(** The three strings [process_video_task] returns. *)
Inductive status : Type := success | skipped | failed.

(** What [run_command] gets from [subprocess]: the exit code with the two
    captured streams, or nothing when [Popen] raised (the function then
    returns [(None, None, None)]). *)
Inductive process_result : Type :=
| Exited (return_code : Z) (stdout stderr : string)
| NotStarted.

(** Every external command line, in the order it was run. *)
Definition trace : Type := list (list string).

Definition INPUT_AUDIO_DIR : string := "~audio".
Definition OUTPUT_MIX_DIR : string := "~mix".

Section Script.
Context {F : Type} `{PyFloat F}.

(** The host the script runs on. *)
Record Host : Type := mk_host {
  (** [subprocess.Popen(cmd, ...)], [communicate()], [poll()]. *)
  popen : list string -> process_result;
  (** The [try] block of [find_and_mix_audio]: the absolute paths of the
      files of the audio directory whose lower-cased name ends with the
      lower-cased suffix; [None] when the directory is missing or
      listing it raised. *)
  matching_files : string -> string -> option (list string);
  abspath : string -> string;
  basename : string -> string;
  splitext_root : string -> string;
  os_path_join : string -> string -> string;
  (** [int(time.time())]. *)
  now : Z;
  strip : string -> string;
  (** [float(s)], [int(s)]: [None] is ValueError. *)
  parse_float : string -> option F;
  parse_int : string -> option Z;
  (** The frame rate read from ["num/den"] or from a plain number. *)
  parse_frame_rate : string -> option F;
  fmt_fixed6 : F -> string;
  fmt_float : F -> string;
  (** Whether writing the concat list file succeeds (else IOError). *)
  list_file_writable : bool
}.

Variable host : Host.

Definition run_command (cmd : list string) (tr : trace)
  : process_result * trace :=
  (popen host cmd, tr +++ [cmd]).

Definition run_ffprobe (input_file show_entries stream_type : string)
    (stream_index : Z) (format_option : string) (tr : trace)
  : option string * trace :=
  let cmd :=
    ["ffprobe"; "-v"; "error"; "-select_streams";
     stream_type ++ ":" ++ str_int stream_index;
     "-show_entries"; show_entries; "-of"; format_option; input_file] in
  match run_command cmd tr with
  | (Exited return_code stdout _, tr) =>
      if (return_code =? 0)%Z then (Some (strip host stdout), tr)
      else (None, tr)
  | (NotStarted, tr) => (None, tr)
  end.

Definition default_format : string := "default=noprint_wrappers=1:nokey=1".

Definition ffmpeg_command_line (command_list : list string) : list string :=
  ["ffmpeg"; "-hide_banner"; "-loglevel"; "warning"; "-y"] +++ command_list.

Definition run_ffmpeg_command (command_list : list string) (tr : trace)
  : bool * trace :=
  let cmd := ffmpeg_command_line command_list in
  match run_command cmd tr with
  | (Exited return_code _ _, tr) => ((return_code =? 0)%Z, tr)
  | (NotStarted, tr) => (false, tr)
  end.

(** The pre-mix command of [find_and_mix_audio]. *)
Definition mix_command (matching_audios : list string)
    (temp_combined_audio_file : string) : list string :=
  let map_output := "[a_mix]" in
  let mix_cmd :=
    fold_left (fun cmd audio_path => cmd +++ ["-i"; audio_path])
              matching_audios [] in
  let filter_complex_parts :=
    map (fun i => "[" ++ str_int (Z.of_nat i) ++ ":a]")
        (seq 0 (List.length matching_audios)) in
  let filter_complex_str :=
    join "" filter_complex_parts ++ "amix=inputs="
      ++ str_int (Z.of_nat (List.length matching_audios))
      ++ ":duration=longest:normalize=0" ++ map_output in
  let mix_cmd := mix_cmd +++ ["-filter_complex"; filter_complex_str] in
  let mix_cmd := mix_cmd +++ ["-map"; map_output] in
  mix_cmd +++ ["-c:a"; "pcm_s16le"; temp_combined_audio_file].

Definition temp_combined_path (video_name temp_dir : string) : string :=
  abspath host
    (os_path_join host temp_dir
       ("temp_combined_" ++ video_name ++ "_" ++ str_int (now host) ++ ".wav")).

(** Returns [(combined path, temp file to clean)]. *)
Definition find_and_mix_audio (video_name audio_dir temp_dir : string)
    (tr : trace) : (option string * option string) * trace :=
  let suffix_to_match := video_name ++ ".wav" in
  let abs_audio_dir := abspath host audio_dir in
  match matching_files host abs_audio_dir suffix_to_match with
  | None => ((None, None), tr)
  | Some matching_audios =>
      match matching_audios with
      | [] => ((None, None), tr)
      | [only] => ((Some only, None), tr)
      | _ :: _ :: _ =>
          let temp_combined_audio_file :=
            temp_combined_path video_name temp_dir in
          let mix_cmd := mix_command matching_audios temp_combined_audio_file in
          match run_ffmpeg_command mix_cmd tr with
          | (true, tr) =>
              ((Some temp_combined_audio_file, Some temp_combined_audio_file), tr)
          | (false, tr) => ((None, None), tr)
          end
      end
  end.

(** The literal [0.1]. *)
Definition duration_tolerance : F := (of_int 1 / of_int 10)%py.

(** Step 4 of [process_video_task]: the final merge. *)
Definition final_merge (abs_video_file combined_external_audio_path
    output_file : string) (temp_concat_video : option string)
    (original_audio_exists : bool) (tr : trace) : status * trace :=
  let codec := ["-c:v"; "copy"; "-c:a"; "aac"; "-b:a"; "192k"; output_file] in
  let final_merge_cmd :=
    if original_audio_exists then
      match temp_concat_video with
      | Some extended =>
          ["-i"; extended; "-i"; combined_external_audio_path;
           "-i"; abs_video_file;
           "-filter_complex"; "[2:a][1:a]amix=inputs=2:duration=longest[a_out]";
           "-map"; "0:v:0"; "-map"; "[a_out]"] +++ codec
      | None =>
          ["-i"; abs_video_file; "-i"; combined_external_audio_path;
           "-filter_complex"; "[0:a][1:a]amix=inputs=2:duration=longest[a_out]";
           "-map"; "0:v:0"; "-map"; "[a_out]"] +++ codec
      end
    else
      ["-i"; match temp_concat_video with
             | Some extended => extended
             | None => abs_video_file
             end;
       "-i"; combined_external_audio_path;
       "-map"; "0:v:0"; "-map"; "1:a:0"] +++ codec in
  match run_ffmpeg_command final_merge_cmd tr with
  | (true, tr) =>
      let (final_duration_str, tr) :=
        run_ffprobe output_file "format=duration" "v" 0 default_format tr in
      (success, tr)
  | (false, tr) => (failed, tr)
  end.

(** Step 3: the video is extended by a black clip. *)
Definition extend_and_merge (video_name abs_mix_dir abs_video_file
    combined_external_audio_path output_file : string)
    (duration_diff : F) (original_audio_exists : bool) (tr : trace)
  : status * trace :=
  let status_to_return := failed in
  let (video_width_str, tr) :=
    run_ffprobe abs_video_file "stream=width" "v" 0 "csv=p=0" tr in
  let (video_height_str, tr) :=
    run_ffprobe abs_video_file "stream=height" "v" 0 "csv=p=0" tr in
  let (video_fps_str, tr) :=
    run_ffprobe abs_video_file "stream=r_frame_rate" "v" 0 default_format tr in
  match video_width_str, video_height_str, video_fps_str with
  | Some video_width_str, Some video_height_str, Some video_fps_str =>
      match parse_int host video_width_str, parse_int host video_height_str with
      | Some video_width, Some video_height =>
          if (video_width <=? 0)%Z || (video_height <=? 0)%Z
          then (status_to_return, tr)
          else
            match parse_frame_rate host video_fps_str with
            | None => (status_to_return, tr)
            | Some video_fps =>
                if (video_fps <=? f0)%py then (status_to_return, tr)
                else
                  let stamp := str_int (now host) in
                  let temp_black_video :=
                    os_path_join host abs_mix_dir
                      ("temp_black_" ++ video_name ++ "_" ++ stamp ++ ".mp4") in
                  let temp_concat_video :=
                    os_path_join host abs_mix_dir
                      ("temp_concat_" ++ video_name ++ "_" ++ stamp ++ ".mp4") in
                  let list_file_path :=
                    os_path_join host abs_mix_dir
                      ("temp_list_" ++ video_name ++ "_" ++ stamp ++ ".txt") in
                  let black_cmd :=
                    ["-f"; "lavfi"; "-i";
                     "color=c=black:s=" ++ str_int video_width ++ "x"
                       ++ str_int video_height ++ ":d="
                       ++ fmt_fixed6 host duration_diff;
                     "-r"; fmt_float host video_fps; "-pix_fmt"; "yuv420p";
                     temp_black_video] in
                  match run_ffmpeg_command black_cmd tr with
                  | (false, tr) => (status_to_return, tr)
                  | (true, tr) =>
                      if negb (list_file_writable host)
                      then (status_to_return, tr)
                      else
                        let concat_cmd :=
                          ["-f"; "concat"; "-safe"; "0"; "-i"; list_file_path;
                           "-c"; "copy"; temp_concat_video] in
                        match run_ffmpeg_command concat_cmd tr with
                        | (false, tr) => (status_to_return, tr)
                        | (true, tr) =>
                            final_merge abs_video_file
                              combined_external_audio_path output_file
                              (Some temp_concat_video)
                              original_audio_exists tr
                        end
                  end
            end
      | _, _ => (status_to_return, tr)
      end
  | _, _, _ => (status_to_return, tr)
  end.

(** Steps 2 and 3 of [process_video_task], once the external audio is
    ready: probe the durations, then extend the video if the audio is
    longer, then merge. *)
Definition probe_and_merge (video_name abs_mix_dir abs_video_file
    combined_external_audio_path output_file : string) (tr : trace)
  : status * trace :=
  let status_to_return := failed in
  let (video_duration_str, tr) :=
    run_ffprobe abs_video_file "format=duration" "v" 0 default_format tr in
  let (original_audio_probe, tr) :=
    run_ffprobe abs_video_file "format=duration" "a" 0 default_format tr in
  let original_audio_exists :=
    match original_audio_probe with Some _ => true | None => false end in
  let (external_audio_duration_str, tr) :=
    run_ffprobe combined_external_audio_path "format=duration" "a" 0
      default_format tr in
  match video_duration_str, external_audio_duration_str with
  | Some video_duration_str, Some external_audio_duration_str =>
      match parse_float host video_duration_str,
            parse_float host external_audio_duration_str with
      | Some video_duration, Some external_audio_duration =>
          if (external_audio_duration
                >? video_duration + duration_tolerance)%py then
            let duration_diff :=
              (external_audio_duration - video_duration)%py in
            extend_and_merge video_name abs_mix_dir abs_video_file
              combined_external_audio_path output_file duration_diff
              original_audio_exists tr
          else
            final_merge abs_video_file combined_external_audio_path
              output_file None original_audio_exists tr
      | _, _ => (status_to_return, tr)
      end
  | _, _ => (status_to_return, tr)
  end.

Definition process_video_task (video_file : string) : status * trace :=
  let task_id := basename host video_file in
  let video_name := splitext_root host task_id in
  let abs_audio_dir := abspath host INPUT_AUDIO_DIR in
  let abs_mix_dir := abspath host OUTPUT_MIX_DIR in
  let output_file := os_path_join host abs_mix_dir task_id in
  let abs_video_file := abspath host video_file in
  (* 1. find and pre-mix the external audio *)
  let '((combined_external_audio_path, temp_external_audio_to_clean), tr) :=
    find_and_mix_audio video_name abs_audio_dir abs_mix_dir [] in
  match combined_external_audio_path with
  | None =>
      (* no external audio found, or the pre-mix went wrong: skip *)
      (skipped, tr)
  | Some combined_external_audio_path =>
      probe_and_merge video_name abs_mix_dir abs_video_file
        combined_external_audio_path output_file tr
  end.
End Script.
End A3.


(** ** More of Python's strings and dicts *)

(** [s[n:]]. *)
Fixpoint drop (n : nat) (s : string) : string :=
  match n, s with
  | O, _ => s
  | S _, EmptyString => EmptyString
  | S n', String _ rest => drop n' rest
  end.

(** [s[:n]] for [0 <= n]. *)
Fixpoint take (n : nat) (s : string) : string :=
  match n, s with
  | O, _ => EmptyString
  | S _, EmptyString => EmptyString
  | S n', String c rest => String c (take n' rest)
  end.

(** [s.startswith(prefix)]. *)
Definition startswith (s prefix : string) : bool := String.prefix prefix s.

(** [s.endswith(suffix)]. *)
Definition endswith (s suffix : string) : bool :=
  (String.length suffix <=? String.length s)%nat
  && (drop (String.length s - String.length suffix) s =? suffix)%string.

(** [s[: -n]] for [0 < n]. *)
Definition drop_last (n : nat) (s : string) : string :=
  take (String.length s - n) s.

(** [key in d]. *)
Definition dict_mem {V : Type} (d : list (string * V)) (key : string) : bool :=
  existsb (fun kv => (fst kv =? key)%string) d.

(** [d[key]]: [None] is [KeyError]. *)
Fixpoint dict_item {V : Type} (d : list (string * V)) (key : string)
  : option V :=
  match d with
  | [] => None
  | (k, v) :: rest => if (k =? key)%string then Some v else dict_item rest key
  end.

(** [d[key] = value]: a known key keeps its place, a new one goes last. *)
Fixpoint dict_set {V : Type} (d : list (string * V)) (key : string)
    (value : V) : list (string * V) :=
  match d with
  | [] => [(key, value)]
  | (k, v) :: rest =>
      if (k =? key)%string then (k, value) :: rest
      else (k, v) :: dict_set rest key value
  end.

(** [d.pop(key, None)]. *)
Definition dict_pop {V : Type} (d : list (string * V)) (key : string)
  : list (string * V) :=
  filter (fun kv => negb (fst kv =? key)%string) d.

(** [d[key].extend(items)] on a [defaultdict(list)]: a missing key is
    created with the empty list first. *)
Fixpoint dict_extend {V : Type} (d : list (string * list V)) (key : string)
    (items : list V) : list (string * list V) :=
  match d with
  | [] => [(key, items)]
  | (k, v) :: rest =>
      if (k =? key)%string then (k, v +++ items) :: rest
      else (k, v) :: dict_extend rest key items
  end.

(** [d.keys()] and [d.values()], in insertion order. *)
Definition dict_keys {V : Type} (d : list (string * V)) : list string :=
  map fst d.

Definition dict_values {V : Type} (d : list (string * V)) : list V :=
  map snd d.

(** ** More of models/media.py *)

Module ImportResult.
Record t (F : Type) : Type := mk {
  videos : list (VideoClip.t F);
  audios : list (AudioClip.t F);
  warnings : list string;
  errors : list string
}.

Definition extend {F : Type} (self other : t F) : t F :=
  mk (videos self +++ videos other) (audios self +++ audios other)
     (warnings self +++ warnings other) (errors self +++ errors other).
End ImportResult.

(** [dataclasses.replace(config, override_original=value)] and
    [replace(config, enable_limiter=value)]. *)
Definition replace_override_original {F : Type} (config : TrackConfig.t F)
    (value : bool) : TrackConfig.t F :=
  TrackConfig.mk (TrackConfig.video_id config) value
    (TrackConfig.enable_limiter config) (TrackConfig.music_random_seed config)
    (TrackConfig.music_retry_limit config)
    (TrackConfig.music_random_enabled config)
    (TrackConfig.music_length_mode config)
    (TrackConfig.music_length_value config)
    (TrackConfig.music_start_offset config)
    (TrackConfig.video_audio_lead config).

Definition replace_enable_limiter {F : Type} (config : TrackConfig.t F)
    (value : bool) : TrackConfig.t F :=
  TrackConfig.mk (TrackConfig.video_id config)
    (TrackConfig.override_original config) value
    (TrackConfig.music_random_seed config)
    (TrackConfig.music_retry_limit config)
    (TrackConfig.music_random_enabled config)
    (TrackConfig.music_length_mode config)
    (TrackConfig.music_length_value config)
    (TrackConfig.music_start_offset config)
    (TrackConfig.video_audio_lead config).

(** ** services/media_repository.py, the whole object *)

(** [MediaRepository] above is the part of the object that assigns to the
    attributes of clip objects ([update_audio_parameters]), with the objects
    it assigns to.  This is the object with all its fields and its other
    methods.  None of them assigns to a clip: they read the clips of a list
    and build new lists, so the lists are kept here with the clips they
    hold, as values.  The lock is left out: the model is sequential. *)
Module MediaStore.
Section Store.
Context {F : Type} `{PyFloat F} `{PyRuntime F}.

(** [str.lower], [path.name], [path.is_absolute()], [path.resolve()] and
    [path.expanduser()]. *)
Variable lower : string -> string.
Variable path_name : Path -> string.
Variable is_absolute : Path -> bool.
Variable resolve : Path -> Path.
Variable expanduser : Path -> Path.
(** Whether [target_dir.mkdir(parents=True, exist_ok=True)] succeeds. *)
Variable mkdir : Mkdir.

Record t : Type := mk {
  _videos : list (string * VideoClip.t F);
  _audios_by_video : list (string * list (AudioClip.t F));
  _configs : list (string * TrackConfig.t F);
  _output_paths : list (string * Path);
  _last_unmatched_warning : option string;
  _enable_limiter_default : bool;
  _default_output_dir : option Path
}.

(** [MediaRepository(enable_limiter_default, default_output_dir)]. *)
Definition __init__ (enable_limiter_default : bool)
    (default_output_dir : option Path) : t :=
  mk [] [] [] [] None enable_limiter_default
     (option_map expanduser default_output_dir).

(** Assignments to one attribute. *)
Definition set_videos (self : t) (videos : list (string * VideoClip.t F)) : t :=
  mk videos (_audios_by_video self) (_configs self) (_output_paths self)
     (_last_unmatched_warning self) (_enable_limiter_default self)
     (_default_output_dir self).

Definition set_audios (self : t)
    (audios : list (string * list (AudioClip.t F))) : t :=
  mk (_videos self) audios (_configs self)
     (_output_paths self) (_last_unmatched_warning self)
     (_enable_limiter_default self) (_default_output_dir self).

Definition set_configs (self : t)
    (configs : list (string * TrackConfig.t F)) : t :=
  mk (_videos self) (_audios_by_video self) configs (_output_paths self)
     (_last_unmatched_warning self) (_enable_limiter_default self)
     (_default_output_dir self).

Definition set_output_paths (self : t) (paths : list (string * Path)) : t :=
  mk (_videos self) (_audios_by_video self) (_configs self) paths
     (_last_unmatched_warning self) (_enable_limiter_default self)
     (_default_output_dir self).

Definition set_warning (self : t) (warning : option string) : t :=
  mk (_videos self) (_audios_by_video self) (_configs self) (_output_paths self)
     warning (_enable_limiter_default self) (_default_output_dir self).

(** *** Names *)

Definition _normalize_name (path : Path) : string :=
  let stem := lower (path_stem path) in
  fold_left
    (fun stem prefix =>
       if startswith stem prefix then drop (String.length prefix) stem
       else stem)
    ["a1_"; "a2_"; "a3_"; "a4_"] stem.

(** One turn of the loop over the suffixes; the set is a list, [add] puts
    an element in front. *)
Definition add_without_suffix (stem normalized : string)
    (variants : list string) (suffix : string) : list string :=
  let variants :=
    if endswith stem suffix
    then drop_last (String.length suffix) stem :: variants
    else variants in
  if endswith normalized suffix
  then drop_last (String.length suffix) normalized :: variants
  else variants.

Definition _collect_name_variants (path : Path) : list string :=
  let variants : list string := [] in
  let stem := lower (path_stem path) in
  let variants := stem :: variants in
  let normalized := _normalize_name path in
  let variants := normalized :: variants in
  let variants :=
    fold_left (add_without_suffix stem normalized)
      ["-mix"; "_mix"; "-audio"; "_audio"] variants in
  filter (fun name => negb (name =? "")%string) variants.

(** The truth value of [a.intersection(b)]. *)
Definition intersects (a b : list string) : bool :=
  existsb (fun name => existsb (String.eqb name) b) a.

(** *** Pairing *)

(** The dict comprehension [video_stems]. *)
Definition video_stems (videos : list (VideoClip.t F))
  : list (string * list string) :=
  fold_left
    (fun stems video =>
       dict_set stems (VideoClip.clip_id video)
         (_collect_name_variants (VideoClip.file_path video)))
    videos [].

(** The inner loop: the first video whose names meet the clip's. *)
Fixpoint first_match (stems : list (string * list string))
    (audio_names : list string) (videos : list (VideoClip.t F))
  : option (VideoClip.t F) :=
  match videos with
  | [] => None
  | video :: rest =>
      let video_names :=
        MediaRepository.dict_get stems (VideoClip.clip_id video) [] in
      if intersects video_names audio_names then Some video
      else first_match stems audio_names rest
  end.

(** One turn of the outer loop, on [mapping] and [unmatched]. *)
Definition pair_step (videos : list (VideoClip.t F))
    (stems : list (string * list string))
    (state : list (string * list (AudioClip.t F)) * list (AudioClip.t F))
    (audio_clip : AudioClip.t F)
  : list (string * list (AudioClip.t F)) * list (AudioClip.t F) :=
  let (mapping, unmatched) := state in
  let audio_names := _collect_name_variants (AudioClip.file_path audio_clip) in
  match first_match stems audio_names videos with
  | Some video =>
      (dict_extend mapping (VideoClip.clip_id video) [audio_clip], unmatched)
  | None => (mapping, unmatched +++ [audio_clip])
  end.

(** The mapping returned and the object with its warning set. *)
Definition pair_audio_with_video (self : t)
    (audio_clips : list (AudioClip.t F))
  : list (string * list (AudioClip.t F)) * t :=
  let videos := dict_values (_videos self) in
  let stems := video_stems videos in
  let (mapping, unmatched) :=
    fold_left (pair_step videos stems) audio_clips ([], []) in
  let warning :=
    if truthy unmatched then
      let names := join ", " (map (@AudioClip.display_name F) unmatched) in
      Some ("未匹配的音频: " ++ names)
    else None in
  (mapping, set_warning self warning).

(** *** Registration *)

Definition default_config (self : t) (video : VideoClip.t F)
  : TrackConfig.t F :=
  TrackConfig.mk (VideoClip.clip_id video) false
    (_enable_limiter_default self) None 3 false MATCH_VIDEO None f0 f0.

(** The directory the output of [video] goes to. *)
Definition target_dir_for (self : t) (video : VideoClip.t F) : Path :=
  match _default_output_dir self with
  | Some dir =>
      if is_absolute dir then dir
      else resolve (path_join (path_parent (VideoClip.file_path video)) dir)
  | None => path_parent (VideoClip.file_path video)
  end.

(** The path written to [_output_paths]. *)
Definition output_path_for (self : t) (video : VideoClip.t F) : Path :=
  let output_name := path_name (VideoClip.file_path video) in
  path_join (target_dir_for self video) output_name.

(** One turn of the loop over [result.videos].  [Escaped]: [target_dir.mkdir]
    raised OSError, after the video and its configuration were stored and
    before its output path is. *)
Definition register_video (self : t) (video : VideoClip.t F)
  : TaskExecutor.ending * t :=
  let self :=
    set_videos self (dict_set (_videos self) (VideoClip.clip_id video) video) in
  if negb (dict_mem (_configs self) (VideoClip.clip_id video)) then
    let self :=
      set_configs self
        (dict_set (_configs self) (VideoClip.clip_id video)
           (default_config self video)) in
    if mkdir (target_dir_for self video) then
      (TaskExecutor.Returned,
       set_output_paths self
         (dict_set (_output_paths self) (VideoClip.clip_id video)
            (output_path_for self video)))
    else (TaskExecutor.Escaped, self)
  else (TaskExecutor.Returned, self).

(** The loop over [result.videos]: an exception ends it. *)
Fixpoint register_videos (self : t) (videos : list (VideoClip.t F))
  : TaskExecutor.ending * t :=
  match videos with
  | [] => (TaskExecutor.Returned, self)
  | video :: rest =>
      match register_video self video with
      | (TaskExecutor.Returned, self) => register_videos self rest
      | (TaskExecutor.Escaped, self) => (TaskExecutor.Escaped, self)
      end
  end.

(** [Escaped]: the exception of [mkdir] leaves [register_import] with the
    object as the interrupted loop left it; the audio files are not
    paired. *)
Definition register_import (self : t) (result : ImportResult.t F)
  : TaskExecutor.ending * t :=
  match register_videos self (ImportResult.videos result) with
  | (TaskExecutor.Escaped, self) => (TaskExecutor.Escaped, self)
  | (TaskExecutor.Returned, self) =>
      let (audio_mapping, self) :=
        pair_audio_with_video self (ImportResult.audios result) in
      (TaskExecutor.Returned,
       fold_left
         (fun self item =>
            set_audios self
              (dict_extend (_audios_by_video self) (fst item) (snd item)))
         audio_mapping self)
  end.

(** *** Sessions *)

Definition replace_audio_list (self : t) (video_id : string)
    (clips : list (AudioClip.t F)) : t :=
  set_audios self (dict_set (_audios_by_video self) video_id clips).

(** [None]: [KeyError].  The session gets a fresh [session_id]. *)
Definition get_session (self : t) (video_id : string) : M (MixSession.t F) :=
  (video_clip <- lift_option (dict_item (_videos self) video_id) ;;
   let audios := MediaRepository.dict_get (_audios_by_video self) video_id [] in
   config <- lift_option (dict_item (_configs self) video_id) ;;
   output_path <- lift_option (dict_item (_output_paths self) video_id) ;;
   session_id <- lift_world uuid4_hex ;;
   ret (MixSession.mk video_clip audios config output_path session_id))%pym.

Definition update_session_config (self : t) (video_id : string)
    (config : TrackConfig.t F) : t :=
  set_configs self (dict_set (_configs self) video_id config).

(** The list comprehension of [list_sessions]. *)
Fixpoint sessions_of (self : t) (video_ids : list string)
  : M (list (MixSession.t F)) :=
  match video_ids with
  | [] => ret []
  | video_id :: rest =>
      (session <- get_session self video_id ;;
       sessions <- sessions_of self rest ;;
       ret (session :: sessions))%pym
  end.

Definition list_sessions (self : t) : M (list (MixSession.t F)) :=
  sessions_of self (dict_keys (_videos self)).

Definition remove_video (self : t) (video_id : string) : t :=
  let self := set_videos self (dict_pop (_videos self) video_id) in
  let self := set_audios self (dict_pop (_audios_by_video self) video_id) in
  let self := set_configs self (dict_pop (_configs self) video_id) in
  set_output_paths self (dict_pop (_output_paths self) video_id).

Definition remove_audio (self : t) (video_id audio_id : string) : t :=
  let clips := MediaRepository.dict_get (_audios_by_video self) video_id [] in
  set_audios self
    (dict_set (_audios_by_video self) video_id
       (filter
          (fun clip => negb (AudioClip.clip_id clip =? audio_id)%string)
          clips)).

Definition last_unmatched_warning (self : t) : option string :=
  _last_unmatched_warning self.

Definition get_audio_clips (self : t) (video_id : string)
  : list (AudioClip.t F) :=
  MediaRepository.dict_get (_audios_by_video self) video_id [].

(** [replace(audio_clip, category=category)] makes a new object, whose
    [clip_id] (a field with [init=False]) is generated anew. *)
Definition add_audio_to_video (self : t) (video_id : string)
    (audio_clip : AudioClip.t F) (category : AudioCategory) : M t :=
  (clip_id <- lift_world uuid4_hex ;;
   let new_clip :=
     AudioClip.mk (AudioClip.file_path audio_clip) category
       (AudioClip.duration_seconds audio_clip)
       (AudioClip.sample_rate audio_clip)
       (AudioClip.display_name audio_clip)
       (AudioClip.start_frame audio_clip)
       (AudioClip.source_start_seconds audio_clip) clip_id in
   ret (set_audios self
          (dict_extend (_audios_by_video self) video_id [new_clip])))%pym.

Definition set_default_enable_limiter (self : t) (value : bool) : t :=
  let self :=
    mk (_videos self) (_audios_by_video self) (_configs self) (_output_paths self)
       (_last_unmatched_warning self) value (_default_output_dir self) in
  set_configs self
    (map (fun item => (fst item, replace_enable_limiter (snd item) value))
       (_configs self)).

Definition set_default_output_dir (self : t) (path : Path) : t :=
  mk (_videos self) (_audios_by_video self) (_configs self) (_output_paths self)
     (_last_unmatched_warning self) (_enable_limiter_default self)
     (Some (expanduser path)).

Definition set_override_original (self : t) (value : bool) : t :=
  set_configs self
    (map (fun item => (fst item, replace_override_original (snd item) value))
       (_configs self)).
End Store.
End MediaStore.

(** ** utils/path_utils.py *)

Definition VIDEO_EXTENSIONS : list string := [".mp4"; ".mov"; ".mkv"; ".avi"].
Definition AUDIO_EXTENSIONS : list string :=
  [".wav"; ".mp3"; ".flac"; ".ogg"; ".aac"].

(** [x in t] for a tuple of strings. *)
Definition str_in (x : string) (t : list string) : bool :=
  existsb (String.eqb x) t.

(** [sub in s] for strings. *)
Fixpoint contains (s sub : string) : bool :=
  startswith s sub
  || match s with
     | EmptyString => false
     | String _ rest => contains rest sub
     end.

(** ** utils/ffmpeg_probe.py *)

Module FFmpegProbe.
Record VideoMetadata (F : Type) : Type := mk_video {
  duration_seconds : F;
  fps : F;
  width : Z;
  height : Z;
  has_audio : bool
}.

Record AudioMetadata (F : Type) : Type := mk_audio {
  audio_duration_seconds : F;
  sample_rate : Z
}.

Section Probe.
Context {F : Type} `{PyFloat F}.

(** What the probes take from [subprocess] and [json]; [None] is a raised
    exception throughout. *)
Record Host : Type := mk_host {
  (** A parsed JSON document. *)
  Json : Type;
  (** [Popen(command, ...)], [communicate()]: the return code and the
      standard output. *)
  popen : list string -> option (Z * string);
  (** [json.loads(stdout)]. *)
  loads : string -> option Json;
  (** [float(payload["format"].get("duration", 0.0))]. *)
  format_duration_or_zero : Json -> option F;
  (** [float(payload["format"]["duration"])]. *)
  format_duration : Json -> option F;
  (** [payload.get("streams", [])], as the list the generators run over. *)
  streams : Json -> option (list Json);
  (** [s.get("codec_type")], when it is a string. *)
  codec_type : Json -> option (option string);
  (** [int(payload["streams"][0]["sample_rate"])]. *)
  first_sample_rate : Json -> option Z
}.

Variable host : Host.

(** [next((s for s in streams if s.get("codec_type") == kind), None)]. *)
Fixpoint first_stream (kind : string) (candidates : list (Json host))
  : option (option (Json host)) :=
  match candidates with
  | [] => Some None
  | s :: rest =>
      match codec_type host s with
      | None => None
      | Some found =>
          if match found with
             | Some text => (text =? kind)%string
             | None => false
             end
          then Some (Some s)
          else first_stream kind rest
      end
  end.

(** Outer [None]: an exception; inner [None]: the function returned
    [None].  Past [if video_stream is None] the function reads the name
    [stream], which is bound nowhere in it nor in the module: NameError, so
    the statements after it are never reached. *)
Definition _run_video_probe (command : list string)
  : option (option (VideoMetadata F)) :=
  match popen host command with
  | None => None
  | Some (returncode, stdout) =>
      if negb (returncode =? 0)%Z then Some None
      else
        match loads host stdout with
        | None => None
        | Some payload =>
            match format_duration_or_zero host payload with
            | None => None
            | Some duration =>
                match streams host payload with
                | None => None
                | Some found =>
                    match first_stream "video" found with
                    | None => None
                    | Some video_stream =>
                        match first_stream "audio" found with
                        | None => None
                        | Some audio_stream =>
                            match video_stream with
                            | None => Some None
                            | Some _ => None
                            end
                        end
                    end
                end
            end
        end
  end.

Definition _run_audio_probe (command : list string)
  : option (option (AudioMetadata F)) :=
  match popen host command with
  | None => None
  | Some (returncode, stdout) =>
      if negb (returncode =? 0)%Z then Some None
      else
        match loads host stdout with
        | None => None
        | Some payload =>
            match format_duration host payload with
            | None => None
            | Some duration =>
                match first_sample_rate host payload with
                | None => None
                | Some rate => Some (Some (mk_audio duration rate))
                end
            end
        end
  end.

Definition probe_video (path : Path) : option (option (VideoMetadata F)) :=
  let command :=
    ["ffprobe"; "-v"; "error"; "-select_streams"; "v:0";
     "-show_entries"; "stream=r_frame_rate,width,height";
     "-show_entries"; "format=duration"; "-of"; "json"; path] in
  _run_video_probe command.

Definition probe_audio (path : Path) : option (option (AudioMetadata F)) :=
  let command :=
    ["ffprobe"; "-v"; "error"; "-select_streams"; "a:0";
     "-show_entries"; "stream=sample_rate";
     "-show_entries"; "format=duration"; "-of"; "json"; path] in
  _run_audio_probe command.
End Probe.
End FFmpegProbe.

(** ** dragdrop/file_collector.py *)

Module FileCollector.
Section Collector.
Context {F : Type} `{PyFloat F} `{PyRuntime F}.
Variable probe : FFmpegProbe.Host (F := F).

(** [str.lower], [path.suffix], [path.name], [path.is_dir()],
    [path.is_file()] and [list(path.iterdir())] ([None]: it raised). *)
Variable lower : string -> string.
Variable path_suffix : Path -> string.
Variable path_name : Path -> string.
Variable is_dir : Path -> bool.
Variable is_file : Path -> bool.
Variable iterdir : Path -> option (list Path).

Definition add_warning (result : ImportResult.t F) (text : string)
  : ImportResult.t F :=
  ImportResult.mk (ImportResult.videos result) (ImportResult.audios result)
    (ImportResult.warnings result +++ [text]) (ImportResult.errors result).

Definition add_error (result : ImportResult.t F) (text : string)
  : ImportResult.t F :=
  ImportResult.mk (ImportResult.videos result) (ImportResult.audios result)
    (ImportResult.warnings result) (ImportResult.errors result +++ [text]).

Definition add_video (result : ImportResult.t F) (video : VideoClip.t F)
  : ImportResult.t F :=
  ImportResult.mk (ImportResult.videos result +++ [video])
    (ImportResult.audios result) (ImportResult.warnings result)
    (ImportResult.errors result).

Definition add_audio (result : ImportResult.t F) (audio : AudioClip.t F)
  : ImportResult.t F :=
  ImportResult.mk (ImportResult.videos result)
    (ImportResult.audios result +++ [audio]) (ImportResult.warnings result)
    (ImportResult.errors result).

Definition _categorize_audio (file_path : Path) : AudioCategory :=
  let lower_name := lower (path_name file_path) in
  if contains lower_name "vo" then VO
  else if contains lower_name "music" || contains lower_name "bgm" then MUSIC
  else SE.

Definition _collect_single_file (file_path : Path) (result : ImportResult.t F)
  : M (ImportResult.t F) :=
  let suffix := lower (path_suffix file_path) in
  if str_in suffix VIDEO_EXTENSIONS then
    (metadata <- lift_option (FFmpegProbe.probe_video probe file_path) ;;
     let '(result, duration_seconds, fps, resolution, has_audio) :=
       match metadata with
       | None =>
           (add_warning result ("无法读取视频信息: " ++ file_path),
            f0, f0, (0%Z, 0%Z), false)
       | Some metadata =>
           (result, FFmpegProbe.duration_seconds metadata,
            FFmpegProbe.fps metadata,
            (FFmpegProbe.width metadata, FFmpegProbe.height metadata),
            FFmpegProbe.has_audio metadata)
       end in
     clip_id <- lift_world uuid4_hex ;;
     let video :=
       VideoClip.mk file_path (path_name file_path) duration_seconds fps
         resolution has_audio clip_id in
     ret (add_video result video))%pym
  else if str_in suffix AUDIO_EXTENSIONS then
    let category := _categorize_audio file_path in
    (metadata <- lift_option (FFmpegProbe.probe_audio probe file_path) ;;
     let '(result, duration_seconds, sample_rate) :=
       match metadata with
       | None =>
           (add_warning result ("无法读取音频信息: " ++ file_path), f0, 0%Z)
       | Some metadata =>
           (result, FFmpegProbe.audio_duration_seconds metadata,
            FFmpegProbe.sample_rate metadata)
       end in
     clip_id <- lift_world uuid4_hex ;;
     let audio :=
       AudioClip.mk file_path category duration_seconds sample_rate
         (path_name file_path) None f0 clip_id in
     ret (add_audio result audio))%pym
  else ret (add_warning result ("不支持的文件类型: " ++ file_path)).

(** The loop of [_collect_from_directory], on [result] and [found]. *)
Fixpoint collect_children (children : list Path)
    (state : ImportResult.t F * bool) : M (ImportResult.t F * bool) :=
  match children with
  | [] => ret state
  | child :: rest =>
      if is_file child then
        (result <- _collect_single_file child (fst state) ;;
         collect_children rest (result, true))%pym
      else collect_children rest state
  end.

Definition _collect_from_directory (directory_path : Path)
    (result : ImportResult.t F) : M (ImportResult.t F) :=
  (children <- lift_option (iterdir directory_path) ;;
   state <- collect_children children (result, false) ;;
   if negb (snd state)
   then ret (add_warning (fst state) ("目录为空: " ++ directory_path))
   else ret (fst state))%pym.

(** The loop of [collect_media_from_paths]. *)
Fixpoint collect_paths (paths : list Path) (result : ImportResult.t F)
  : M (ImportResult.t F) :=
  match paths with
  | [] => ret result
  | path :: rest =>
      (result <-
         (if is_dir path then _collect_from_directory path result
          else if is_file path then _collect_single_file path result
          else ret (add_error result ("路径不存在或无效: " ++ path))) ;;
       collect_paths rest result)%pym
  end.

Definition collect_media_from_paths (paths : list Path)
  : M (ImportResult.t F) :=
  collect_paths paths (ImportResult.mk [] [] [] []).
End Collector.
End FileCollector.
(** ** A small runtime and a scripted ffmpeg, to run the model on examples *)

Module Toy.
(** Text of a rational: numerator, a slash, denominator. *)
Definition show_Q (q : Q) : string :=
  str_int (Qnum q) ++ "/" ++ str_int (Z.pos (Qden q)).

(** A generator whose state is a counter: draw number [rng] lands on one
    of the quarter points of [[a, b]]. *)
Definition uniform (rng : Z) (a b : Q) : Q * Z :=
  (a + (b - a) * ((rng mod 4) # 4), (rng + 1)%Z).

(** Entropy is a counter as well. *)
#[export] Instance runtime : PyRuntime Q := {
  World := Z;
  Rng := Z;
  Random_seeded := fun seed => seed;
  Random_unseeded := fun w => (w, (w + 1)%Z);
  rng_uniform := uniform;
  uuid4_hex := fun w => (str_int w, (w + 1)%Z);
  float_str := show_Q;
  float_fixed3 := show_Q;
  path_parent := fun _ => ".";
  path_stem := fun p => p;
  path_join := fun dir name => dir ++ "/" ++ name
}.

(** Text of a binary64 value: sign, mantissa and binary exponent. *)
Definition show_float (x : float) : string :=
  match Prim2SF x with
  | S754_zero s => if s then "-0" else "0"
  | S754_infinity s => if s then "-inf" else "inf"
  | S754_nan => "nan"
  | S754_finite s m e =>
      (if s then "-" else "") ++ str_int (Z.pos m) ++ "p" ++ str_int e
  end.

(** The counter generator in binary64: the quarter point
    [a + (b - a) * k / 4], as [random.uniform] computes
    [a + (b - a) * random()]; between ordered bounds it answers [a] where
    rounding would take the quarter point out of [[a, b]]. *)
Definition uniform64 (rng : Z) (a b : float) : float * Z :=
  let x := (a + (b - a) * (of_int (rng mod 4) / of_int 4))%py in
  (if (a <=? x)%py && (x <=? b)%py then x
   else if (a <=? b)%py then a else x,
   (rng + 1)%Z).

#[export] Instance runtime64 : PyRuntime float := {
  World := Z;
  Rng := Z;
  Random_seeded := fun seed => seed;
  Random_unseeded := fun w => (w, (w + 1)%Z);
  rng_uniform := uniform64;
  uuid4_hex := fun w => (str_int w, (w + 1)%Z);
  float_str := show_float;
  float_fixed3 := show_float;
  path_parent := fun _ => ".";
  path_stem := fun p => p;
  path_join := fun dir name => dir ++ "/" ++ name
}.

(** An operating system that refuses no removal, one that refuses every
    removal, one on which every [mkdir] succeeds, a disk that takes every
    write and one that takes none. *)
Definition willing : Refusal := fun _ _ => false.
Definition stubborn : Refusal := fun _ _ => true.
Definition mkdir_ok : Mkdir := fun _ => true.
Definition disk : Writable := fun _ _ => true.
Definition full_disk : Writable := fun _ _ => false.

(** An ffmpeg that fails with exit code 1 on every command line that
    contains [fail_on] and otherwise writes its last argument, the output
    file, and exits with 0. *)
Definition ffmpeg (fail_on : string) : FFmpegAdapter.Popen :=
  fun full_command fs =>
    if existsb (String.eqb fail_on) full_command then
      (Some (FFmpegAdapter.mk_result 1 "" "error"), fs)
    else
      (Some (FFmpegAdapter.mk_result 0 "" ""),
       last full_command "" :: fs).

(** An ffmpeg that cannot be started ([Popen] raises) for a command line
    that contains [raise_on], and that otherwise writes its output file. *)
Definition ffmpeg_raising (raise_on : string) : FFmpegAdapter.Popen :=
  fun full_command fs =>
    if existsb (String.eqb raise_on) full_command then (None, fs)
    else
      (Some (FFmpegAdapter.mk_result 0 "" ""),
       last full_command "" :: fs).

Section Sessions.
Context {F : Type} `{PyFloat F}.

Definition video (duration fps : F) : VideoClip.t F :=
  VideoClip.mk "demo" "demo.mp4" duration fps (1920, 1080)%Z true "v1".

Definition clip (name : string) (category : AudioCategory) (duration : F)
    (start_frame : option Z) : AudioClip.t F :=
  AudioClip.mk name category duration 48000 name start_frame f0 name.

Definition config (seed : option Z) (retry_limit : Z) (random : bool)
  : TrackConfig.t F :=
  TrackConfig.mk "v1" false true seed retry_limit random MATCH_VIDEO None
    f0 f0.

Definition session (v : VideoClip.t F) (clips : list (AudioClip.t F))
    (cfg : TrackConfig.t F) : MixSession.t F :=
  MixSession.mk v clips cfg "out.mp4" "s1".

(** [n / d] seconds. *)
Definition seconds (n d : Z) : F := (of_int n / of_int d)%py.

(** Scenario A of the specification: a 5 s video at 25 fps and one
    effect clip of 6 s placed at frame 0. *)
Definition scenario_a : MixSession.t F :=
  session (video (of_int 5) (of_int 25))
    [clip "se.wav" SE (of_int 6) (Some 0%Z)] (config None 3 false).

(** Scenario D: two effect clips that end 1.2 s and 3.4 s after the
    video; the second one starts at frame 125, that is at 5 s. *)
Definition se1 : AudioClip.t F := clip "se1.wav" SE (seconds 62 10) (Some 0%Z).
Definition se2 : AudioClip.t F := clip "se2.wav" SE (seconds 34 10) (Some 125%Z).
Definition scenario_d : MixSession.t F :=
  session (video (of_int 5) (of_int 25)) [se1; se2] (config None 3 false).

(** A 0.3 s video at 25 fps and one effect clip of 0.26 s placed at
    frame 1, that is at 0.04 s. *)
Definition short_video : VideoClip.t F := video (seconds 3 10) (of_int 25).
Definition late_effect : AudioClip.t F :=
  clip "se.wav" SE (seconds 26 100) (Some 1%Z).
Definition scenario_rounding : MixSession.t F :=
  session short_video [late_effect] (config None 3 false).

(** A 10 s piece of music over a 5 s video, random start, seed 1. *)
Definition music : AudioClip.t F := clip "music.wav" MUSIC (of_int 10) None.
Definition music_session (retry_limit : Z) : MixSession.t F :=
  session (video (of_int 5) (of_int 25)) [music]
    (config (Some 1%Z) retry_limit true).
End Sessions.

(** The plan of a session, entropy counter at 0. *)
Definition plan_of (s : MixSession.t Q) : option (MixPlan.t Q) :=
  fst (MixPlanner.build_plan s 0%Z).

(** A host for the batch script on which two audio files match the video
    and every external command exits with code 1. *)
Definition failing_host : A3.Host (F := Q) :=
  A3.mk_host
    (fun _ => A3.Exited 1 "" "boom")
    (fun _ _ => Some ["~audio/a1_demo.wav"; "~audio/a2_demo.wav"])
    (fun path => path) (fun path => path) (fun _ => "demo")
    (fun dir name => dir ++ "/" ++ name)
    0 (fun text => text)
    (fun _ => None) (fun _ => None) (fun _ => None)
    show_Q show_Q true.

(** The same host with no matching audio file. *)
Definition silent_host : A3.Host (F := Q) :=
  A3.mk_host
    (fun _ => A3.Exited 1 "" "boom")
    (fun _ _ => Some [])
    (fun path => path) (fun path => path) (fun _ => "demo")
    (fun dir name => dir ++ "/" ++ name)
    0 (fun text => text)
    (fun _ => None) (fun _ => None) (fun _ => None)
    show_Q show_Q true.
End Toy.

(** ** More examples *)

Module Examples.
Section Sessions.
Context {F : Type} `{PyFloat F}.

(** A video with no clip attached, the original soundtrack switched off. *)
Definition muted : MixSession.t F :=
  MixSession.mk (Toy.video (of_int 5) (of_int 25)) []
    (TrackConfig.mk "v1" true true None 3 false MATCH_VIDEO None f0 f0)
    "out.mp4" "s1".

(** Scenario A with a global lead of [lead] seconds. *)
Definition with_global_lead (lead : F) : MixSession.t F :=
  MixSession.mk (Toy.video (of_int 5) (of_int 25))
    [Toy.clip "se.wav" SE (of_int 6) (Some 0%Z)]
    (TrackConfig.mk "v1" false true None 3 false MATCH_VIDEO None f0 lead)
    "out.mp4" "s1".

(** The first two seconds. *)
Definition opening : PreviewController.PreviewSection F :=
  PreviewController.mk_section f0 (of_int 2).
End Sessions.

(** A player that shows the file and touches nothing. *)
Definition ffplay : list string -> FS -> option unit * FS :=
  fun _ fs => (Some tt, fs).
End Examples.

Module Hosts.
(** A host for the batch script on which one audio file matches the video,
    every command exits with 0 and every probe answers 5. *)
Definition willing_host : A3.Host (F := Q) :=
  A3.mk_host
    (fun _ => A3.Exited 0 "5" "")
    (fun _ _ => Some ["~audio/demo.wav"])
    (fun path => path) (fun path => path) (fun _ => "demo")
    (fun dir name => dir ++ "/" ++ name)
    0 (fun text => text)
    (fun _ => Some (5 # 1)) (fun _ => Some 5%Z) (fun _ => Some (25 # 1))
    Toy.show_Q Toy.show_Q true.
End Hosts.

Module Library.
(** [str.lower] on ASCII letters. *)
Definition lower_ascii (c : ascii) : ascii :=
  let n := nat_of_ascii c in
  if (65 <=? n)%nat && (n <=? 90)%nat then ascii_of_nat (n + 32) else c.

Fixpoint lower (s : string) : string :=
  match s with
  | EmptyString => EmptyString
  | String c rest => String (lower_ascii c) (lower rest)
  end.

(** Paths that are their own name, and absolute. *)
Definition path_name (path : Path) : string := path.
Definition is_absolute (path : Path) : bool := true.
Definition resolve (path : Path) : Path := path.
Definition expanduser (path : Path) : Path := path.

Section Store.
Context {F : Type} `{PyFloat F} `{PyRuntime F}.

Definition empty : MediaStore.t (F := F) :=
  MediaStore.__init__ expanduser true None.

(** The video ["demo"], an effect named after it and a stray clip. *)
Definition effect : AudioClip.t F :=
  Toy.clip "A1_Demo" SE (of_int 6) (Some 0%Z).
Definition stray : AudioClip.t F :=
  Toy.clip "other" SE (of_int 1) None.
Definition drop_in : ImportResult.t F :=
  ImportResult.mk [Toy.video (of_int 5) (of_int 25)] [effect; stray] [] [].

Definition shelf : MediaStore.t (F := F) :=
  snd (MediaStore.register_import lower path_name is_absolute resolve
         Toy.mkdir_ok empty drop_in).

(** A volume on which no directory can be made. *)
Definition read_only : Mkdir := fun _ => false.
End Store.
End Library.

Module Desk.
(** An ffprobe that exits with 0 and whose answer names no stream type. *)
Definition ffprobe : FFmpegProbe.Host (F := Q) :=
  FFmpegProbe.mk_host (Json := unit)
    (fun _ => Some (0%Z, "{}"))
    (fun _ => Some tt)
    (fun _ => Some (5 # 1))
    (fun _ => Some (6 # 1))
    (fun _ => Some [tt])
    (fun _ => Some None)
    (fun _ => Some 48000%Z).

(** Paths with a suffix of four characters; every path is a file. *)
Definition path_suffix (path : Path) : string :=
  drop (String.length path - 4) path.
Definition is_dir (path : Path) : bool := false.
Definition is_file (path : Path) : bool := true.
Definition iterdir (path : Path) : option (list Path) := Some [].
End Desk.
(** * The vocabulary of the statements *)

Section MonadVocabulary.
Context {F : Type} `{PyRuntime F}.

(** [m] never raises. *)
Definition succeeds {A : Type} (m : M A) : Prop :=
  forall w, exists a w', m w = (Some a, w').

(** [m] neither reads nor consumes entropy. *)
Definition world_free {A : Type} (m : M A) : Prop :=
  exists r, forall w, m w = (r, w).

End MonadVocabulary.

(** The categories that drive the extension. *)
Definition drives_extension {F : Type} (clip : AudioClip.t F) : Prop :=
  AudioClip.category clip = SE \/ AudioClip.category clip = VO.

(** Where a clip ends on the timeline of a video with frame rate [fps]. *)
Definition end_time {F : Type} `{PyFloat F} (fps : F) (clip : AudioClip.t F) : F :=
  (AudioClip.start_seconds clip fps + AudioClip.duration_seconds clip)%py.

(** The session without its music clips. *)
Definition without_music {F : Type} (s : MixSession.t F) : MixSession.t F :=
  MixSession.mk (MixSession.video_clip s)
    (filter (fun clip => negb (AudioCategory_eqb (AudioClip.category clip) MUSIC))
            (MixSession.audio_clips s))
    (MixSession.config s) (MixSession.target_output s) (MixSession.session_id s).

Section PlannerVocabulary.
Context {F : Type} `{PyFloat F}.

(** The mixing fragment that closes the filter list, if any chain exists. *)
Definition mix_fragment (audio_outputs : list string) (amix_normalize : Z)
  : list string :=
  if truthy audio_outputs then
    [join "" (map (fun label => "[" ++ label ++ "]") audio_outputs)
       ++ "amix=inputs=" ++ str_int (Z.of_nat (List.length audio_outputs))
       ++ ":normalize=" ++ str_int amix_normalize ++ "[aout]"]
  else [].

(** [int(x)] is defined on every value of the float type. *)
Definition int_total : Prop := forall x : F, exists z, to_int x = Some z.

End PlannerVocabulary.

(** ** Frames to seconds and back *)

Section RoundTripVocabulary.
Context {F : Type} `{PyFloat F}.

(** A repository with one video, ["v1"], and one voice clip placed at
    frame [n]: one clip object, at address 0, in the list of the video. *)
Definition voice_at (n : Z) : AudioClip.t F :=
  AudioClip.mk "vo.wav" VO (of_int 6) 48000 "vo.wav" (Some n) f0 "vo".

Definition repository_at (n : Z) : MediaRepository.t :=
  MediaRepository.mk [voice_at n] [("v1", [0%nat])].

(** The start frame of that clip after its own start time, read with
    [AudioClip.start_seconds], went through [update_audio_parameters]
    (outer [None]: [int] raised). *)
Definition frames_round_trip (n : Z) (fps : F) : option (list (option Z)) :=
  option_map
    (fun repo => map (@AudioClip.start_frame F)
                     (MediaRepository.get_audio_clips repo "v1"))
    (MediaRepository.update_audio_parameters (repository_at n) "v1" "vo"
       (AudioClip.start_seconds (voice_at n) fps) f0 fps).

End RoundTripVocabulary.

(** ** Temporary artifacts of a job *)

(** The files a plan names for the extension stage. *)
Definition temp_artifacts {F : Type} (plan : MixPlan.t F) : list Path :=
  let named (p : option Path) := match p with Some p => [p] | None => [] end in
  (named (MixPlan.black_clip_path plan)
     +++ named (MixPlan.concat_list_path plan))
    +++ named (MixPlan.extended_video_path plan).

(** The temporary artifacts of [plan] that exist in [fs]. *)
Definition leftovers {F : Type} (plan : MixPlan.t F) (fs : FS) : list Path :=
  filter (exists_file fs) (temp_artifacts plan).

(** The operating system never refuses to remove [p]; it always does. *)
Definition removable (refused : Refusal) (p : Path) : Prop :=
  forall fs, refused p fs = false.
Definition irremovable (refused : Refusal) (p : Path) : Prop :=
  forall fs, refused p fs = true.

(** ** The stream mapping of the final invocation *)

Section MappingVocabulary.
Context {F : Type}.

(** One [-i] pair per audio input. *)
Definition input_arguments (plan : MixPlan.t F) : list string :=
  flat_map (fun audio_path => ["-i"; audio_path]) (MixPlan.audio_inputs plan).

(** The filter graph, when the plan has audio chains. *)
Definition filter_arguments (plan : MixPlan.t F) : list string :=
  match MixPlan.audio_filters plan with
  | [] => []
  | _ :: _ => ["-filter_complex"; join ";" (MixPlan.audio_filters plan)]
  end.

Definition map_video_and_mix (plan : MixPlan.t F) : list string :=
  ["-map"; "0:v:0"; "-map"; "[" ++ MixPlan.audio_output_label plan ++ "]"].
Definition map_video_and_first_audio : list string :=
  ["-map"; "0:v:0"; "-map"; "1:a:0"].
Definition map_video_only : list string := ["-map"; "0:v:0"].

(** The rule in the words of the specification: the direct mapping asks for
    exactly one audio input. *)
Definition mapping_as_specified (plan : MixPlan.t F) : list string :=
  match MixPlan.audio_filters plan with
  | _ :: _ => map_video_and_mix plan
  | [] =>
      match MixPlan.audio_inputs plan with
      | [_] => map_video_and_first_audio
      | _ => map_video_only
      end
  end.

(** The rule with the direct mapping for one or more audio inputs. *)
Definition mapping_with_any_input (plan : MixPlan.t F) : list string :=
  match MixPlan.audio_filters plan with
  | _ :: _ => map_video_and_mix plan
  | [] =>
      match MixPlan.audio_inputs plan with
      | _ :: _ => map_video_and_first_audio
      | [] => map_video_only
      end
  end.

(** The executor's command line around a given mapping. *)
Definition command_around (mapping : MixPlan.t F -> list string)
    (plan : MixPlan.t F) (video_input output_path : Path) : list string :=
  ((((["-i"; video_input] +++ input_arguments plan) +++ filter_arguments plan)
      +++ mapping plan) +++ MixPlan.output_args plan) +++ [output_path].

(** A plan with two audio inputs and no filter chain. *)
Definition two_inputs_no_chain (zero : F) : MixPlan.t F :=
  MixPlan.mk "demo.mp4" ["a.wav"; "b.wav"] []
    ["-c:v"; "copy"; "-c:a"; "aac"; "-b:a"; "192k"]
    false zero (1920, 1080)%Z zero None None None "aout" false 0.
End MappingVocabulary.

(** ** Filter chains *)

(** The reference a chain reads next still differs from the chain's output
    reference. *)
Definition ref_open (index : Z) (st : MixPlanner.chain) : Prop :=
  (MixPlanner.current_ref st
     =? "[" ++ MixPlanner.clip_label index ++ "]")%string = false.

Section OriginalChainVocabulary.
Context {F : Type} `{PyFloat F}.

(** The global lead of a session in milliseconds, when it is positive
    (inner [None]: [int] raised). *)
Definition lead_delay_ms (s : MixSession.t F) : option (option Z) :=
  let lead := py_max f0 (TrackConfig.video_audio_lead (MixSession.config s)) in
  if (lead >? f0)%py then Some (to_int (lead * of_int 1000)%py) else None.

(** The chain of the original soundtrack in the words of the specification:
    the delay by the global lead, if there is one, and the output reference
    [orig_audio]. *)
Definition original_chain (delay_ms : option Z) : list string :=
  match delay_ms with
  | Some ms =>
      ["[0:a]adelay=" ++ str_int ms ++ "|" ++ str_int ms ++ "[orig_audio_delay]";
       "[orig_audio_delay]anull[orig_audio]"]
  | None => ["[0:a]anull[orig_audio]"]
  end.
End OriginalChainVocabulary.

(** ** The random start of the music *)

Section DrawVocabulary.
Context {F : Type} `{PyFloat F} `{PyRuntime F}.

(** The first [k] draws of [rng.uniform(0.0, max_start)], in order. *)
Fixpoint draws (k : nat) (rng : Rng) (max_start : F) : list F :=
  match k with
  | O => []
  | S k' =>
      let (candidate, rng') := rng_uniform rng f0 max_start in
      candidate :: draws k' rng' max_start
  end.

(** [uniform(a, b)] answers within [[a, b]], in the order of [PyFloat]. *)
Definition uniform_in_range : Prop :=
  forall rng a b, (a <=? b)%py = true ->
    (a <=? fst (rng_uniform rng a b))%py = true
    /\ (fst (rng_uniform rng a b) <=? b)%py = true.
End DrawVocabulary.

(** ** Outcomes of the batch script *)

Section ScriptVocabulary.
Context {F : Type} `{PyFloat F}.

(** The external command [cmd] does not end with exit code 0 on [host]: it
    exits with another code or cannot be started. *)
Definition run_failed (host : @A3.Host F) (cmd : list string) : bool :=
  match A3.popen host cmd with
  | A3.Exited return_code _ _ => negb (return_code =? 0)%Z
  | A3.NotStarted => true
  end.

(** An invocation of ffmpeg (and not of ffprobe). *)
Definition is_ffmpeg (cmd : list string) : Prop := hd "" cmd = "ffmpeg".

(** What [find_and_mix_audio] finds for [video_file]. *)
Definition matched_audio (host : @A3.Host F) (video_file : string)
  : option (list string) :=
  let video_name := A3.splitext_root host (A3.basename host video_file) in
  A3.matching_files host
    (A3.abspath host (A3.abspath host A3.INPUT_AUDIO_DIR))
    (video_name ++ ".wav").

(** The pre-mix command line for [video_file] and the matched files. *)
Definition premix_command_line (host : @A3.Host F) (video_file : string)
    (matching_audios : list string) : list string :=
  let video_name := A3.splitext_root host (A3.basename host video_file) in
  A3.ffmpeg_command_line
    (A3.mix_command matching_audios
       (A3.temp_combined_path host video_name
          (A3.abspath host A3.OUTPUT_MIX_DIR))).
End ScriptVocabulary.

Section BlameVocabulary.
Context {F : Type} `{PyFloat F}.

(** Every failed ffmpeg invocation among [commands] made the job [failed]. *)
Definition blames (host : @A3.Host F) (st : A3.status) (commands : A3.trace)
  : Prop :=
  forall cmd, In cmd commands -> is_ffmpeg cmd -> run_failed host cmd = true ->
              st = A3.failed.

(** What a stage that starts from trace [tr] may answer: it only appends
    commands, never answers [skipped], and answers [failed] when one of its
    ffmpeg invocations failed. *)
Definition stage_ok (host : @A3.Host F) (tr : A3.trace)
    (result : A3.status * A3.trace) : Prop :=
  exists commands,
    snd result = tr +++ commands
    /\ blames host (fst result) commands
    /\ fst result <> A3.skipped.
End BlameVocabulary.


(** ** The arithmetic the statements rely on *)

Section FloatLawVocabulary.
Context {F : Type} `{PyFloat F}.

(** [x] is a number: [x <= x] fails for NaN and for nothing else. *)
Definition is_number (x : F) : Prop := (x <=? x)%py = true.

(** Laws of comparison and subtraction.  They hold in [binary64], NaN,
    the infinities and the signed zeros included, and in [exact]. *)
Record float_laws : Prop := mk_float_laws {
  lt_irreflexive : forall a : F, (a <? a)%py = false;
  lt_transitive : forall a b c : F,
    (a <? b)%py = true -> (b <? c)%py = true -> (a <? c)%py = true;
  (** what is not above [a] is not above a larger [b] *)
  lt_carried : forall a b c : F,
    (a <? b)%py = true -> (a <? c)%py = false -> (b <? c)%py = false;
  lt_is_le : forall a b : F, (a <? b)%py = true -> (a <=? b)%py = true;
  le_is_number : forall a b : F,
    (a <=? b)%py = true -> is_number a /\ is_number b;
  numbers_compare : forall a b : F,
    is_number a -> is_number b -> (a <=? b)%py = false -> (b <? a)%py = true;
  zero_is_number : is_number (@f0 F _);
  (** [a < b] gives [0 < b - a]: a difference of distinct numbers does not
      round to zero *)
  sub_positive : forall a b : F,
    (a <? b)%py = true -> (f0 <? b - a)%py = true;
  sub_self_not_positive : forall a : F, (f0 <? a - a)%py = false;
  (** [a <= b] gives [a - b <= 0], unless [a - b] is NaN (both infinite) *)
  sub_not_positive : forall a b : F,
    (a <=? b)%py = true -> is_number (a - b)%py -> (a - b <=? f0)%py = true
}.
End FloatLawVocabulary.

(** The rational number a finite binary64 value stands for (0 for the
    infinities and NaN). *)
Definition float_value (x : float) : Q :=
  match Prim2SF x with
  | S754_finite s m e =>
      (inject_Z (if s then Z.neg m else Z.pos m) * (2 # 1) ^ e)%Q
  | _ => 0%Q
  end.

(** ** Where [build_plan] returns *)

Section ReturnVocabulary.
Context {F : Type} `{PyFloat F}.

(** The delay of a clip on the timeline, in milliseconds, as
    [_build_clip_filters] hands it to [int]. *)
Definition clip_delay (s : MixSession.t F) (clip : AudioClip.t F) : F :=
  (py_max f0
     (AudioClip.start_seconds clip (VideoClip.fps (MixSession.video_clip s))
      + py_max f0 (TrackConfig.video_audio_lead (MixSession.config s)))
   * of_int 1000)%py.

(** The same for the original soundtrack. *)
Definition lead_delay (s : MixSession.t F) : F :=
  (py_max f0 (TrackConfig.video_audio_lead (MixSession.config s))
   * of_int 1000)%py.

(** [int(x)] does not raise. *)
Definition converts (x : F) : bool :=
  match to_int x with
  | Some _ => true
  | None => false
  end.

(** [int] raises on none of the delays of the session. *)
Definition delays_convert (s : MixSession.t F) : bool :=
  forallb (fun clip => converts (clip_delay s clip)) (MixSession.audio_clips s)
  && converts (lead_delay s).
End ReturnVocabulary.

(** * More vocabulary: plans *)

(** The labels of [n] clip chains from position [index] on. *)
Fixpoint labels_from (index : Z) (n : nat) : list string :=
  match n with
  | O => []
  | S n' => MixPlanner.clip_label index :: labels_from (index + 1) n'
  end.

(** The fragments lead from the reference [ref] to the reference [out]:
    each one reads what the one before it wrote. *)
Fixpoint linked (ref : string) (fragments : list string) (out : string) : Prop :=
  match fragments with
  | [] => ref = out
  | fragment :: rest =>
      exists expr label,
        fragment = ref ++ expr ++ "[" ++ label ++ "]"
        /\ linked ("[" ++ label ++ "]") rest out
  end.

(** The session with another global lead. *)
Definition with_lead {F : Type} (s : MixSession.t F) (lead : F) : MixSession.t F :=
  let cfg := MixSession.config s in
  MixSession.mk (MixSession.video_clip s) (MixSession.audio_clips s)
    (TrackConfig.mk (TrackConfig.video_id cfg) (TrackConfig.override_original cfg)
       (TrackConfig.enable_limiter cfg) (TrackConfig.music_random_seed cfg)
       (TrackConfig.music_retry_limit cfg) (TrackConfig.music_random_enabled cfg)
       (TrackConfig.music_length_mode cfg) (TrackConfig.music_length_value cfg)
       (TrackConfig.music_start_offset cfg) lead)
    (MixSession.target_output s) (MixSession.session_id s).

(** What holds of the state of the chain of the clip at [index] after each
    step: the fragments written so far lead from the input reference to the
    reference the chain reads next, there are at most [bound] of them, and
    the next reference is not yet the output reference. *)
Definition chain_ok (index : Z) (bound : nat) (st : MixPlanner.chain) : Prop :=
  linked ("[" ++ str_int (index + 1) ++ ":a]") (MixPlanner.filters st)
         (MixPlanner.current_ref st)
  /\ (List.length (MixPlanner.filters st) <= bound)%nat
  /\ ref_open index st.

(** Zero is not positive and a value minus itself is never positive: laws of
    exact arithmetic and of binary64 (where the difference is zero or NaN). *)
Definition zero_laws {F : Type} `{PyFloat F} : Prop :=
  (@f0 F _ <? f0)%py = false /\ forall v : F, (f0 <? (v - v))%py = false.

(** * More vocabulary: executor and preview *)

(** The external player creates no file. *)
Definition creates_nothing (player : list string -> FS -> option unit * FS) : Prop :=
  forall command fs p,
    exists_file (snd (player command fs)) p = true -> exists_file fs p = true.

(** * More vocabulary: the repository *)

Section StoreVocabulary.
Context {F : Type} `{PyFloat F} `{PyRuntime F}.
Variable lower : string -> string.

(** The two files share a name variant. *)
Definition names_meet (video_path audio_path : Path) : bool :=
  MediaStore.intersects (MediaStore._collect_name_variants lower video_path)
    (MediaStore._collect_name_variants lower audio_path).

(** The id of the video an audio clip belongs to: the first video of the
    list whose names meet the clip's. *)
Definition home (videos : list (VideoClip.t F)) (clip : AudioClip.t F)
  : option string :=
  option_map (@VideoClip.clip_id F)
    (find (fun video =>
             names_meet (VideoClip.file_path video) (AudioClip.file_path clip))
          videos).

Definition goes_to (videos : list (VideoClip.t F)) (video_id : string)
    (clip : AudioClip.t F) : bool :=
  match home videos clip with
  | Some id => (id =? video_id)%string
  | None => false
  end.

Definition homeless (videos : list (VideoClip.t F)) (clip : AudioClip.t F)
  : bool :=
  match home videos clip with
  | Some _ => false
  | None => true
  end.

(** Every video is stored under its own id, and under one key only. *)
Definition well_keyed (self : MediaStore.t (F := F)) : Prop :=
  NoDup (dict_keys (MediaStore._videos self))
  /\ forall key video, In (key, video) (MediaStore._videos self) ->
       VideoClip.clip_id video = key.

(** Every video has a configuration, every configuration an output path. *)
Definition complete (self : MediaStore.t (F := F)) : Prop :=
  (forall id, dict_mem (MediaStore._videos self) id = true ->
     dict_mem (MediaStore._configs self) id = true)
  /\ (forall id, dict_mem (MediaStore._configs self) id = true ->
        dict_mem (MediaStore._output_paths self) id = true).

(** Every output path belongs to a video that has a configuration. *)
Definition tidy (self : MediaStore.t (F := F)) : Prop :=
  forall id, dict_mem (MediaStore._output_paths self) id = true ->
             dict_mem (MediaStore._configs self) id = true.
End StoreVocabulary.

(** One turn of the loop of [_normalize_name], and the four turns. *)
Definition strip_prefix (prefix stem : string) : string :=
  if startswith stem prefix then drop (String.length prefix) stem else stem.

Definition strip_all (stem : string) : string :=
  strip_prefix "a4_"
    (strip_prefix "a3_" (strip_prefix "a2_" (strip_prefix "a1_" stem))).

Section RegistrationVocabulary.
Context {F : Type} `{PyFloat F} `{PyRuntime F}.
Variable lower : string -> string.
Variable path_name : Path -> string.
Variable is_absolute : Path -> bool.
Variable resolve : Path -> Path.

(** The repository after a turn of the registration loop in which [mkdir]
    did not raise. *)
Definition stored_video (self : MediaStore.t (F := F)) (video : VideoClip.t F)
  : MediaStore.t (F := F) :=
  let self :=
    MediaStore.set_videos self
      (dict_set (MediaStore._videos self) (VideoClip.clip_id video) video) in
  if negb (dict_mem (MediaStore._configs self) (VideoClip.clip_id video)) then
    let self :=
      MediaStore.set_configs self
        (dict_set (MediaStore._configs self) (VideoClip.clip_id video)
           (MediaStore.default_config self video)) in
    MediaStore.set_output_paths self
      (dict_set (MediaStore._output_paths self) (VideoClip.clip_id video)
         (MediaStore.output_path_for path_name is_absolute resolve self video))
  else self.

(** The repository after an import in which no [mkdir] raised. *)
Definition imported (self : MediaStore.t (F := F)) (result : ImportResult.t F)
  : MediaStore.t (F := F) :=
  let self := fold_left stored_video (ImportResult.videos result) self in
  let (audio_mapping, self) :=
    MediaStore.pair_audio_with_video lower self (ImportResult.audios result) in
  fold_left
    (fun self item =>
       MediaStore.set_audios self
         (dict_extend (MediaStore._audios_by_video self) (fst item) (snd item)))
    audio_mapping self.
End RegistrationVocabulary.

(** The same clip but for its start frame and its source offset. *)
Definition retimed_clip {F : Type} (clip clip' : AudioClip.t F) : Prop :=
  clip' = AudioClip.mk (AudioClip.file_path clip) (AudioClip.category clip)
            (AudioClip.duration_seconds clip) (AudioClip.sample_rate clip)
            (AudioClip.display_name clip) (AudioClip.start_frame clip')
            (AudioClip.source_start_seconds clip') (AudioClip.clip_id clip).

(** The same videos with the same clips in the same places, but for start
    frames and source offsets: what assignments to the two attributes of
    clip objects can make of the lists. *)
Definition retimed {F : Type}
    (audios audios' : list (string * list (AudioClip.t F))) : Prop :=
  Forall2 (fun item item' =>
             fst item' = fst item
             /\ Forall2 retimed_clip (snd item) (snd item'))
          audios audios'.

Section StoreHistory.
Context {F : Type} `{PyFloat F} `{PyRuntime F}.
Variable lower : string -> string.
Variable path_name : Path -> string.
Variable is_absolute : Path -> bool.
Variable resolve : Path -> Path.
Variable expanduser : Path -> Path.
Variable mkdir : Mkdir.

(** The repositories a program gets by calls of the methods of a new
    [MediaRepository] that returned normally, [update_session_config] being
    called for registered videos only.  A [register_import] that is left by
    the OSError of [mkdir] is not among them.  [update_audio_parameters]
    assigns to a clip object: it is there with all that such assignments can
    make of the lists. *)
Inductive reachable : MediaStore.t (F := F) -> Prop :=
| reach_init limiter dir :
    reachable (MediaStore.__init__ expanduser limiter dir)
| reach_register_import self result self' :
    reachable self ->
    MediaStore.register_import lower path_name is_absolute resolve mkdir
      self result = (TaskExecutor.Returned, self') ->
    reachable self'
| reach_pair_audio_with_video self clips :
    reachable self ->
    reachable (snd (MediaStore.pair_audio_with_video lower self clips))
| reach_replace_audio_list self video_id clips :
    reachable self ->
    reachable (MediaStore.replace_audio_list self video_id clips)
| reach_update_session_config self video_id config :
    reachable self ->
    dict_mem (MediaStore._videos self) video_id = true ->
    reachable (MediaStore.update_session_config self video_id config)
| reach_remove_video self video_id :
    reachable self -> reachable (MediaStore.remove_video self video_id)
| reach_remove_audio self video_id audio_id :
    reachable self ->
    reachable (MediaStore.remove_audio self video_id audio_id)
| reach_update_audio_parameters self audios :
    reachable self ->
    retimed (MediaStore._audios_by_video self) audios ->
    reachable (MediaStore.set_audios self audios)
| reach_add_audio_to_video self video_id clip category w self' w' :
    reachable self ->
    MediaStore.add_audio_to_video self video_id clip category w
    = (Some self', w') ->
    reachable self'
| reach_set_default_enable_limiter self value :
    reachable self ->
    reachable (MediaStore.set_default_enable_limiter self value)
| reach_set_default_output_dir self path :
    reachable self ->
    reachable (MediaStore.set_default_output_dir expanduser self path)
| reach_set_override_original self value :
    reachable self ->
    reachable (MediaStore.set_override_original self value).
End StoreHistory.

(** * More vocabulary: editing a clip *)

Section EditingVocabulary.
Context {F : Type} `{PyFloat F}.

(** What [update_audio_parameters] assigns to [start_frame]: [int] of the
    product for a positive frame rate, [None] otherwise.  (Outer [None]:
    [int] raised.) *)
Definition stored_frame (start_seconds fps : F) : option (option Z) :=
  if (fps >? f0)%py then option_map Some (to_int (start_seconds * fps)%py)
  else Some None.

(** The clip after the two assignments. *)
Definition edited (clip : AudioClip.t F) (start_frame : option Z)
    (source_offset : F) : AudioClip.t F :=
  AudioClip.mk (AudioClip.file_path clip) (AudioClip.category clip)
    (AudioClip.duration_seconds clip) (AudioClip.sample_rate clip)
    (AudioClip.display_name clip) start_frame (py_max f0 source_offset)
    (AudioClip.clip_id clip).

(** One clip object, the voice clip at frame 3, in the lists of two
    videos. *)
Definition shared_voice : MediaRepository.t :=
  MediaRepository.mk [voice_at 3] [("v1", [0%nat]); ("v2", [0%nat])].
End EditingVocabulary.

(** * More vocabulary: the batch script *)

(** A [success] comes with a trace that ends in a passed ffmpeg invocation
    writing [output_file], followed by one probe. *)
Definition ends_with_merge {F : Type} (host : @A3.Host F) (output_file : string)
    (result : A3.status * A3.trace) : Prop :=
  fst result = A3.success ->
  exists pre command probe,
    snd result = pre +++ [A3.ffmpeg_command_line command; probe]
    /\ run_failed host (A3.ffmpeg_command_line command) = false
    /\ last command "" = output_file
    /\ In "copy" command
    /\ ~ is_ffmpeg probe.

(** * More vocabulary: collected media *)

(** A video clip as the collector makes it when the probe gave nothing. *)
Definition unprobed {F : Type} `{PyFloat F} (video : VideoClip.t F) : Prop :=
  VideoClip.duration_seconds video = f0
  /\ VideoClip.fps video = f0
  /\ VideoClip.resolution video = (0%Z, 0%Z)
  /\ VideoClip.has_audio video = false.

(** An audio clip as the collector makes it: not placed, not cut. *)
Definition unplaced {F : Type} `{PyFloat F} (audio : AudioClip.t F) : Prop :=
  AudioClip.start_frame audio = None
  /\ AudioClip.source_start_seconds audio = f0.

(** What holds of the result while the collector runs. *)
Definition collected {F : Type} `{PyFloat F} (lower : string -> string)
    (path_suffix : Path -> string) (path_name : Path -> string)
    (result : ImportResult.t F) : Prop :=
  (forall video, In video (ImportResult.videos result) ->
     unprobed video
     /\ VideoClip.display_name video = path_name (VideoClip.file_path video)
     /\ str_in (lower (path_suffix (VideoClip.file_path video)))
          VIDEO_EXTENSIONS = true)
  /\ (forall audio, In audio (ImportResult.audios result) -> unplaced audio)
  /\ (List.length (ImportResult.videos result)
      <= List.length (ImportResult.warnings result))%nat.
(** * Properties *)

(** ** Reasoning in the monad *)

Section MonadFacts.
Context {F : Type} `{PyRuntime F}.

Lemma succeeds_ret {A : Type} (a : A) : succeeds (ret a).
Proof. intros w. exists a, w. reflexivity. Qed.

Lemma succeeds_bind {A B : Type} (m : M A) (k : A -> M B) :
  succeeds m -> (forall a, succeeds (k a)) -> succeeds (bind m k).
Proof.
  intros Hm Hk w. destruct (Hm w) as (a & w1 & E).
  destruct (Hk a w1) as (b & w2 & E2).
  exists b, w2. unfold bind. rewrite E. exact E2.
Qed.

Lemma succeeds_lift_world {A : Type} (f : World -> A * World) :
  succeeds (lift_world f).
Proof.
  intros w. unfold lift_world. destruct (f w) as [a w'].
  exists a, w'. reflexivity.
Qed.

Lemma succeeds_lift_some {A : Type} (a : A) : succeeds (lift_option (Some a)).
Proof. intros w. exists a, w. reflexivity. Qed.

Lemma world_free_ret {A : Type} (a : A) : world_free (ret a).
Proof. exists (Some a). reflexivity. Qed.

Lemma world_free_lift_option {A : Type} (o : option A) :
  world_free (lift_option o).
Proof. exists o. reflexivity. Qed.

Lemma world_free_bind {A B : Type} (m : M A) (k : A -> M B) :
  world_free m -> (forall a, world_free (k a)) -> world_free (bind m k).
Proof.
  intros [r Hr] Hk. destruct r as [a|].
  - destruct (Hk a) as [r' Hr']. exists r'. intros w.
    unfold bind. rewrite Hr. apply Hr'.
  - exists None. intros w. unfold bind. rewrite Hr. reflexivity.
Qed.

Lemma bind_some {A B : Type} (m : M A) (k : A -> M B) w b w' :
  bind m k w = (Some b, w') ->
  exists a w1, m w = (Some a, w1) /\ k a w1 = (Some b, w').
Proof.
  unfold bind. destruct (m w) as [[a|] w1]; intros E.
  - exists a, w1. split; [reflexivity | exact E].
  - discriminate E.
Qed.

Lemma ret_some {A : Type} (a b : A) w w' :
  ret a w = (Some b, w') -> a = b /\ w = w'.
Proof. unfold ret. intros E. inversion E. split; reflexivity. Qed.
End MonadFacts.

(** Split an equation between pairs into its two components, leaving the
    components as they are written. *)
Ltac pair_eq E El Er :=
  pose proof (f_equal fst E) as El;
  pose proof (f_equal snd E) as Er;
  cbn [fst snd] in El, Er; clear E.

(** ** Exact arithmetic *)

Section ExactFacts.
Local Open Scope Q_scope.

Lemma exact_lt_true (a b : Q) : (a <? b)%py = true <-> a < b.
Proof.
  cbn. unfold Qltb. rewrite negb_true_iff.
  split.
  - intros E. apply Qnot_le_lt. intros L.
    apply Qle_bool_iff in L. congruence.
  - intros L. destruct (Qle_bool b a) eqn:E; [|reflexivity].
    apply Qle_bool_iff in E. apply Qlt_not_le in L. contradiction.
Qed.

Lemma exact_lt_false (a b : Q) : (a <? b)%py = false <-> b <= a.
Proof.
  cbn. unfold Qltb. rewrite negb_false_iff. apply Qle_bool_iff.
Qed.

Lemma exact_le_true (a b : Q) : (a <=? b)%py = true <-> a <= b.
Proof. cbn. apply Qle_bool_iff. Qed.

Lemma exact_le_false (a b : Q) : (a <=? b)%py = false <-> b < a.
Proof.
  cbn. split.
  - intros E. apply Qnot_le_lt. intros L.
    apply Qle_bool_iff in L. congruence.
  - intros L. destruct (Qle_bool a b) eqn:E; [|reflexivity].
    apply Qle_bool_iff in E. apply Qlt_not_le in L. contradiction.
Qed.

Lemma exact_f0 : @f0 Q exact = 0.
Proof. reflexivity. Qed.

(** [max(a, b)] is one of its arguments and bounds both. *)
Lemma py_max_exact (a b : Q) :
  (a < b /\ py_max a b = b) \/ (b <= a /\ py_max a b = a).
Proof.
  unfold py_max. destruct (a <? b)%py eqn:E.
  - left. split; [apply exact_lt_true; exact E | reflexivity].
  - right. split; [apply exact_lt_false; exact E | reflexivity].
Qed.

Lemma py_max_exact_l (a b : Q) : a <= py_max a b.
Proof. destruct (py_max_exact a b) as [[L ->]|[L ->]]; lra. Qed.

Lemma py_max_exact_r (a b : Q) : b <= py_max a b.
Proof. destruct (py_max_exact a b) as [[L ->]|[L ->]]; lra. Qed.
End ExactFacts.

(** ** The black-frame extension *)

Section ExtensionFacts.
Context {F : Type} `{PyFloat F}.

Lemma se_vo_step_music (fps acc : F) (clip : AudioClip.t F) :
  AudioClip.category clip = MUSIC -> MixSession.se_vo_step fps acc clip = acc.
Proof. intros E. unfold MixSession.se_vo_step. rewrite E. reflexivity. Qed.

Lemma se_vo_step_drives (fps acc : F) (clip : AudioClip.t F) :
  drives_extension clip ->
  MixSession.se_vo_step fps acc clip = py_max acc (end_time fps clip).
Proof.
  intros [E|E]; unfold MixSession.se_vo_step; rewrite E; reflexivity.
Qed.

Lemma category_cases (clip : AudioClip.t F) :
  AudioClip.category clip = MUSIC \/ drives_extension clip.
Proof.
  unfold drives_extension.
  destruct (AudioClip.category clip); auto.
Qed.

(** Music clips do not take part in the loop. *)
Lemma se_vo_fold_without_music (fps : F) (clips : list (AudioClip.t F)) :
  forall acc,
    fold_left (MixSession.se_vo_step fps) clips acc =
    fold_left (MixSession.se_vo_step fps)
      (filter (fun clip => negb (AudioCategory_eqb (AudioClip.category clip) MUSIC))
              clips) acc.
Proof.
  induction clips as [|c clips IH]; intros acc; [reflexivity|].
  cbn [fold_left filter].
  destruct (category_cases c) as [E|D].
  - rewrite (se_vo_step_music _ _ _ E), E. cbn. apply IH.
  - assert (N : negb (AudioCategory_eqb (AudioClip.category c) MUSIC) = true)
      by (destruct D as [E|E]; rewrite E; reflexivity).
    rewrite N. cbn [fold_left]. apply IH.
Qed.

Lemma se_vo_fold_all_music (fps : F) (clips : list (AudioClip.t F)) :
  Forall (fun clip => AudioClip.category clip = MUSIC) clips ->
  forall acc, fold_left (MixSession.se_vo_step fps) clips acc = acc.
Proof.
  induction 1 as [|c clips E _ IH]; intros acc; [reflexivity|].
  cbn [fold_left]. rewrite (se_vo_step_music _ _ _ E). apply IH.
Qed.

Lemma black_extension_without_music (s : MixSession.t F) :
  MixSession.black_extension_duration (without_music s) =
  MixSession.black_extension_duration s.
Proof.
  unfold MixSession.black_extension_duration, without_music.
  cbn [MixSession.video_clip MixSession.audio_clips].
  rewrite <- se_vo_fold_without_music. reflexivity.
Qed.
End ExtensionFacts.

Section ExactExtension.
Local Open Scope Q_scope.

Lemma se_vo_fold_ge_acc (fps : Q) (clips : list (AudioClip.t Q)) :
  forall acc, acc <= fold_left (MixSession.se_vo_step fps) clips acc.
Proof.
  induction clips as [|c clips IH]; intros acc; cbn [fold_left]; [lra|].
  eapply Qle_trans; [|apply IH].
  destruct (category_cases c) as [E|D].
  - rewrite (se_vo_step_music _ _ _ E). lra.
  - rewrite (se_vo_step_drives _ _ D). apply py_max_exact_l.
Qed.

Lemma se_vo_fold_ge_clip (fps : Q) (clips : list (AudioClip.t Q)) :
  forall acc c, In c clips -> drives_extension c ->
    end_time fps c <= fold_left (MixSession.se_vo_step fps) clips acc.
Proof.
  induction clips as [|c0 clips IH]; intros acc c HIn D; [destruct HIn|].
  cbn [fold_left]. destruct HIn as [->|HIn].
  - eapply Qle_trans; [|apply se_vo_fold_ge_acc].
    rewrite (se_vo_step_drives _ _ D). apply py_max_exact_r.
  - apply IH; assumption.
Qed.

(** The loop ends on its start value or on the end of one of the clips
    that drive the extension. *)
Lemma se_vo_fold_attained (fps : Q) (clips : list (AudioClip.t Q)) :
  forall acc,
    fold_left (MixSession.se_vo_step fps) clips acc = acc \/
    exists c, In c clips /\ drives_extension c /\
              fold_left (MixSession.se_vo_step fps) clips acc = end_time fps c.
Proof.
  induction clips as [|c0 clips IH]; intros acc; [left; reflexivity|].
  cbn [fold_left].
  destruct (IH (MixSession.se_vo_step fps acc c0)) as [E|(c & HIn & D & E)].
  - rewrite E. destruct (category_cases c0) as [Em|D].
    + left. apply se_vo_step_music. exact Em.
    + rewrite (se_vo_step_drives _ _ D).
      destruct (py_max_exact acc (end_time fps c0)) as [[_ ->]|[_ ->]].
      * right. exists c0. repeat split; [left; reflexivity | exact D].
      * left. reflexivity.
  - right. exists c. repeat split; [right; exact HIn | exact D | exact E].
Qed.
End ExactExtension.
Section PlannerFacts.
Context {F : Type} `{PyFloat F} `{PyRuntime F}.

(** What a plan that [build_plan] returned is made of. *)
Lemma build_plan_inv (s : MixSession.t F) w p w' :
  MixPlanner.build_plan s w = (Some p, w') ->
  let video := MixSession.video_clip s in
  let cfg := MixSession.config s in
  MixPlan.include_original_audio p =
    negb (TrackConfig.override_original cfg) && VideoClip.has_audio video /\
  MixPlan.black_extension_duration p = MixSession.black_extension_duration s /\
  MixPlan.needs_black_extension p =
    (MixSession.black_extension_duration s >? f0)%py /\
  MixPlan.audio_output_label p = "aout" /\
  exists acc w1 original_filters original_label,
    MixPlanner.clip_loop s 0 (MixSession.audio_clips s)
      (MixPlanner.mk_tracks [] [] []) w = (Some acc, w1) /\
    (if MixPlan.include_original_audio p then
       exists label w2,
         MixPlanner._build_original_filters s w1
           = (Some (label, original_filters), w2) /\
         original_label = [label]
     else original_filters = [] /\ original_label = []) /\
    MixPlan.audio_inputs p = MixPlanner.t_inputs acc /\
    MixPlan.audio_filters p =
      (MixPlanner.t_filters acc +++ original_filters)
        +++ mix_fragment (MixPlanner.t_outputs acc +++ original_label)
              (MixPlan.amix_normalize p).
Proof.
  intros E video cfg. unfold MixPlanner.build_plan in E.
  fold video cfg in E.
  apply bind_some in E as (acc & w1 & Eloop & E).
  apply bind_some in E as (acc' & w2 & Eorig & E).
  apply bind_some in E as ([[black concat] extended] & w3 & Epaths & E).
  apply ret_some in E as [<- _].
  cbn [MixPlan.include_original_audio MixPlan.black_extension_duration
       MixPlan.needs_black_extension MixPlan.audio_output_label
       MixPlan.audio_inputs MixPlan.audio_filters MixPlan.amix_normalize].
  repeat (split; [reflexivity|]).
  exists acc, w1.
  destruct (negb (TrackConfig.override_original cfg) && VideoClip.has_audio video).
  - apply bind_some in Eorig as ([label filters] & w4 & Eorig & E).
    apply ret_some in E as [<- _].
    cbn [MixPlanner.t_inputs MixPlanner.t_filters MixPlanner.t_outputs].
    exists filters, [label]. split; [exact Eloop|].
    split; [exists label, w4; split; [exact Eorig|reflexivity]|].
    split; [reflexivity|].
    unfold mix_fragment.
    destruct (truthy (MixPlanner.t_outputs acc +++ [label]));
      [|rewrite app_nil_r]; reflexivity.
  - apply ret_some in Eorig as [<- _].
    exists [], []. split; [exact Eloop|].
    split; [split; reflexivity|]. split; [reflexivity|].
    rewrite !app_nil_r. unfold mix_fragment.
    destruct (truthy (MixPlanner.t_outputs acc));
      [|rewrite app_nil_r]; reflexivity.
Qed.

Lemma make_rng_succeeds (seed : option Z) : succeeds (MixPlanner.make_rng seed).
Proof.
  destruct seed; [apply succeeds_ret | apply succeeds_lift_world].
Qed.

Lemma random_music_offset_succeeds clip s :
  succeeds (MixPlanner._random_music_offset clip s).
Proof.
  unfold MixPlanner._random_music_offset.
  destruct (_ || _); [apply succeeds_ret|].
  destruct (_ <=? _)%py; [apply succeeds_ret|].
  apply succeeds_bind; [apply make_rng_succeeds|].
  intros rng. apply succeeds_ret.
Qed.

Lemma to_int_succeeds (x : F) : int_total -> succeeds (lift_option (to_int x)).
Proof. intros T. destruct (T x) as [z ->]. apply succeeds_lift_some. Qed.

Lemma build_clip_filters_succeeds index clip s :
  int_total -> succeeds (MixPlanner._build_clip_filters index clip s).
Proof.
  intros T. unfold MixPlanner._build_clip_filters.
  apply succeeds_bind.
  - destruct (AudioCategory_eqb _ _); [|apply succeeds_ret].
    destruct (TrackConfig.music_random_enabled _); [|apply succeeds_ret].
    apply succeeds_bind; [apply random_music_offset_succeeds|].
    intros r. apply succeeds_ret.
  - intros source_offset. apply succeeds_bind.
    + destruct (_ >? _)%py; [|apply succeeds_ret].
      apply succeeds_bind; [apply to_int_succeeds; exact T|].
      intros ms. apply succeeds_ret.
    + intros st3. apply succeeds_ret.
Qed.

Lemma build_original_filters_succeeds s :
  int_total -> succeeds (MixPlanner._build_original_filters s).
Proof.
  intros T. unfold MixPlanner._build_original_filters.
  apply succeeds_bind.
  - destruct (_ >? _)%py; [|apply succeeds_ret].
    apply succeeds_bind; [apply to_int_succeeds; exact T|].
    intros ms. apply succeeds_ret.
  - intros [filters current_ref]. apply succeeds_ret.
Qed.

Lemma clip_loop_succeeds s clips :
  int_total -> forall index acc, succeeds (MixPlanner.clip_loop s index clips acc).
Proof.
  intros T. induction clips as [|c clips IH]; intros index acc;
    cbn [MixPlanner.clip_loop]; [apply succeeds_ret|].
  apply succeeds_bind; [apply build_clip_filters_succeeds; exact T|].
  intros [label filters]. apply IH.
Qed.

Lemma build_plan_succeeds s : int_total -> succeeds (MixPlanner.build_plan s).
Proof.
  intros T. unfold MixPlanner.build_plan.
  apply succeeds_bind; [apply clip_loop_succeeds; exact T|].
  intros acc. apply succeeds_bind.
  - destruct (_ && _); [|apply succeeds_ret].
    apply succeeds_bind; [apply build_original_filters_succeeds; exact T|].
    intros [label filters]. apply succeeds_ret.
  - intros acc'. apply succeeds_bind.
    + destruct (_ >? _)%py; [|apply succeeds_ret].
      apply succeeds_bind; [apply succeeds_lift_world|].
      intros token. apply succeeds_ret.
    + intros [[black concat] extended]. apply succeeds_ret.
Qed.
End PlannerFacts.

Lemma exact_int_total : @int_total Q exact.
Proof. intros x. exists (Qtrunc x). reflexivity. Qed.


Section ExtensionClaims.
Context {R : PyRuntime Q}.
Local Open Scope Q_scope.

Lemma start_seconds_exact (c : AudioClip.t Q) (fps : Q) :
  0 < fps ->
  AudioClip.start_seconds c fps = inject_Z (AudioClip.start_frame_or_0 c) / fps.
Proof.
  intros P. unfold AudioClip.start_seconds.
  assert (E : (fps <=? f0)%py = false) by (apply exact_le_false; exact P).
  rewrite E. reflexivity.
Qed.

(** The idealisation: in exact arithmetic, when an EFFECT or VOICE clip
    that starts at [S] seconds (its start frame over the frame rate of the
    video) and lasts [D] seconds ends after the video, [S + D > V], the plan
    that [build_plan] returns has [needs_black_extension] set, and its
    [black_extension_duration] is the largest overrun [S' + D' - V] over
    the EFFECT and VOICE clips: it bounds every overrun, it is the overrun
    of one of the clips, and it equals [S + D - V] for a clip that ends
    last.  (Overruns are not added up.) *)
Lemma exact_extension_is_max_overrun
    (s : MixSession.t Q) (c : AudioClip.t Q) (w : World) :
  let V := VideoClip.duration_seconds (MixSession.video_clip s) in
  let fps := VideoClip.fps (MixSession.video_clip s) in
  In c (MixSession.audio_clips s) ->
  drives_extension c ->
  V < AudioClip.start_seconds c fps + AudioClip.duration_seconds c ->
  exists p w',
    MixPlanner.build_plan s w = (Some p, w') /\
    MixPlan.needs_black_extension p = true /\
    (forall c', In c' (MixSession.audio_clips s) -> drives_extension c' ->
       AudioClip.start_seconds c' fps + AudioClip.duration_seconds c' - V
         <= MixPlan.black_extension_duration p) /\
    (exists c', In c' (MixSession.audio_clips s) /\ drives_extension c' /\
       MixPlan.black_extension_duration p
         = AudioClip.start_seconds c' fps + AudioClip.duration_seconds c' - V) /\
    ((forall c', In c' (MixSession.audio_clips s) -> drives_extension c' ->
        AudioClip.start_seconds c' fps + AudioClip.duration_seconds c'
          <= AudioClip.start_seconds c fps + AudioClip.duration_seconds c) ->
     MixPlan.black_extension_duration p
       == AudioClip.start_seconds c fps + AudioClip.duration_seconds c - V) /\
    (0 < fps ->
     AudioClip.start_seconds c fps
       = inject_Z (AudioClip.start_frame_or_0 c) / fps).
Proof.
  intros V fps HIn D Over.
  destruct (build_plan_succeeds s exact_int_total w) as (p & w' & E).
  exists p, w'. split; [exact E|].
  destruct (build_plan_inv _ _ E) as (_ & Hd & Hn & _).
  rewrite Hn, Hd. clear Hn Hd E.
  unfold MixSession.black_extension_duration. fold V fps.
  set (top := fold_left (MixSession.se_vo_step fps) (MixSession.audio_clips s) V).
  assert (Hc : end_time fps c <= top)
    by (apply se_vo_fold_ge_clip; assumption).
  assert (Hall : forall c', In c' (MixSession.audio_clips s) ->
                   drives_extension c' -> end_time fps c' <= top)
    by (intros; apply se_vo_fold_ge_clip; assumption).
  unfold end_time in Hc, Hall. cbn [fadd exact] in Hc, Hall.
  assert (Pos : 0 < top - V) by lra.
  assert (Emax : py_max f0 (top - V)%py = top - V).
  { unfold py_max.
    assert (L : (f0 <? (top - V)%py)%py = true)
      by (apply exact_lt_true; exact Pos).
    rewrite L. reflexivity. }
  rewrite Emax.
  destruct (se_vo_fold_attained fps (MixSession.audio_clips s) V)
    as [Eq|(c' & HIn' & D' & Eq)];
    fold top in Eq.
  { exfalso. rewrite Eq in Pos. lra. }
  unfold end_time in Eq. cbn [fadd exact] in Eq.
  split; [apply exact_lt_true; exact Pos|].
  split; [intros c2 H2 D2; specialize (Hall c2 H2 D2); lra|].
  split; [exists c'; repeat split; try assumption; rewrite Eq; reflexivity|].
  split; [|apply start_seconds_exact].
  intros Last. specialize (Last c' HIn' D'). rewrite Eq in *. lra.
Qed.

(** C3. Music never asks for the extension: the extension that
    [build_plan] writes into the plan is the one of the session with its
    MUSIC clips removed, whatever their durations and start frames, and a
    plan for a session that holds MUSIC clips only has
    [needs_black_extension] false and an extension of zero seconds. *)
Theorem C3_music_never_drives_extension (s : MixSession.t Q) (w : World) :
  exists p w',
    MixPlanner.build_plan s w = (Some p, w') /\
    MixPlan.black_extension_duration p
      = MixSession.black_extension_duration (without_music s) /\
    MixPlan.needs_black_extension p
      = MixSession.requires_black_extension (without_music s) /\
    (Forall (fun clip => AudioClip.category clip = MUSIC)
            (MixSession.audio_clips s) ->
     MixPlan.needs_black_extension p = false /\
     MixPlan.black_extension_duration p = 0).
Proof.
  destruct (build_plan_succeeds s exact_int_total w) as (p & w' & E).
  exists p, w'. split; [exact E|].
  destruct (build_plan_inv _ _ E) as (_ & Hd & Hn & _).
  rewrite Hn, Hd. unfold MixSession.requires_black_extension.
  rewrite black_extension_without_music.
  split; [reflexivity|]. split; [reflexivity|].
  intros AllMusic.
  assert (Z0 : MixSession.black_extension_duration s = 0).
  { unfold MixSession.black_extension_duration.
    rewrite (se_vo_fold_all_music _ AllMusic).
    set (V := VideoClip.duration_seconds (MixSession.video_clip s)).
    unfold py_max.
    assert (L : (f0 <? (V - V)%py)%py = false)
      by (apply exact_lt_false; cbn [fsub exact]; rewrite exact_f0; lra).
    rewrite L. reflexivity. }
  rewrite Z0. split; reflexivity.
Qed.
End ExtensionClaims.

(** ** Music-only sessions in binary64 *)

Lemma SFsub_self_not_positive (x : spec_float) :
  SFltb (S754_zero false) (SFsub prec emax x x) = false.
Proof.
  destruct x as [s|s| |s m e]; cbn [SFsub].
  - destruct s; reflexivity.
  - destruct s; reflexivity.
  - reflexivity.
  - rewrite Z.sub_diag. reflexivity.
Qed.

Lemma binary64_sub_self_not_positive (v : float) :
  (@f0 float binary64 <? (v - v))%py = false.
Proof.
  cbn [flt fsub binary64]. rewrite ltb_spec, sub_spec.
  change (Prim2SF (@f0 float binary64)) with (S754_zero false).
  apply SFsub_self_not_positive.
Qed.

(** In binary64 as well, a session that holds music only asks for no
    extension, also when the duration of its video is infinite or NaN. *)
Lemma music_only_needs_no_extension_binary64 (s : MixSession.t float) :
  Forall (fun clip => AudioClip.category clip = MUSIC) (MixSession.audio_clips s) ->
  MixSession.black_extension_duration s = 0%float
  /\ MixSession.requires_black_extension s = false.
Proof.
  intros AllMusic.
  assert (E : MixSession.black_extension_duration s = 0%float).
  { unfold MixSession.black_extension_duration.
    rewrite (se_vo_fold_all_music _ AllMusic).
    unfold py_max. rewrite binary64_sub_self_not_positive. reflexivity. }
  split; [exact E|].
  unfold MixSession.requires_black_extension. rewrite E. reflexivity.
Qed.

(** Scenario D of the specification in exact arithmetic: the extension is
    the 3.4 s of the clip that ends last, not 1.2 s + 3.4 s. *)
Example scenario_d_exact :
  exists p,
    Toy.plan_of Toy.scenario_d = Some p /\
    MixPlan.needs_black_extension p = true /\
    (MixPlan.black_extension_duration p == 34 # 10)%Q.
Proof.
  destruct (@exact_extension_is_max_overrun Toy.runtime Toy.scenario_d Toy.se2 0%Z)
    as (p & w' & E & Hn & _ & _ & Hlast & _).
  - right. left. reflexivity.
  - left. reflexivity.
  - vm_compute. reflexivity.
  - exists p. split; [unfold Toy.plan_of; rewrite E; reflexivity|].
    split; [exact Hn|].
    rewrite Hlast; [vm_compute; reflexivity|].
    intros c' [<-|[<-|[]]] _; vm_compute; discriminate.
Qed.

(** The same scenario in binary64: the extension comes out as
    3.4000000000000004 s, within a millisecond of 3.4 s. *)
Example scenario_d_binary64 :
  let d := MixSession.black_extension_duration (@Toy.scenario_d float binary64) in
  let target := @Toy.seconds float binary64 34 10 in
  let eps := @Toy.seconds float binary64 1 1000 in
  PrimFloat.ltb (PrimFloat.abs (d - target)) eps = true.
Proof. vm_compute. reflexivity. Qed.

(** Scenario A in binary64: an extension of exactly one second. *)
Example scenario_a_binary64 :
  MixSession.black_extension_duration (@Toy.scenario_a float binary64) = 1%float
  /\ MixSession.requires_black_extension (@Toy.scenario_a float binary64) = true.
Proof. split; vm_compute; reflexivity. Qed.

(** ** Binary64 arithmetic

    The comparison of [binary64] is the one of [SFcompare]; the facts about
    subtraction follow its definition through [binary_normalize] and
    [binary_round]. *)

Ltac sf_cmp :=
  repeat match goal with
  | H : context [Z.compare ?x ?y] |- _ => destruct (Z.compare_spec x y)
  | |- context [Z.compare ?x ?y] => destruct (Z.compare_spec x y)
  | H : context [Pos.compare_cont Eq ?x ?y] |- _ =>
      change (Pos.compare_cont Eq x y) with (Pos.compare x y) in *;
      destruct (Pos.compare_spec x y)
  | |- context [Pos.compare_cont Eq ?x ?y] =>
      change (Pos.compare_cont Eq x y) with (Pos.compare x y) in *;
      destruct (Pos.compare_spec x y)
  end; cbn in *; try discriminate; try reflexivity; try lia.

Ltac sf_cases x := destruct x as [[]|[]| |[] ? ?].

Lemma SFltb_irrefl (a : spec_float) : SFltb a a = false.
Proof. unfold SFltb, SFcompare. sf_cases a; cbn; try reflexivity; sf_cmp. Qed.

Lemma SFltb_trans (a b c : spec_float) :
  SFltb a b = true -> SFltb b c = true -> SFltb a c = true.
Proof.
  unfold SFltb, SFcompare.
  sf_cases a; sf_cases b; cbn; try discriminate;
    sf_cases c; cbn; try discriminate; try reflexivity; intros; sf_cmp.
Qed.

Lemma SFltb_carried (a b c : spec_float) :
  SFltb a b = true -> SFltb a c = false -> SFltb b c = false.
Proof.
  unfold SFltb, SFcompare.
  sf_cases a; sf_cases b; cbn; try discriminate;
    sf_cases c; cbn; try discriminate; try reflexivity; intros; sf_cmp.
Qed.

Lemma SFltb_leb (a b : spec_float) : SFltb a b = true -> SFleb a b = true.
Proof. unfold SFleb, SFltb. destruct (SFcompare a b) as [[]|]; easy. Qed.

Lemma SFleb_numbers (a b : spec_float) :
  SFleb a b = true -> SFleb a a = true /\ SFleb b b = true.
Proof.
  unfold SFleb, SFcompare.
  sf_cases a; sf_cases b; cbn; try discriminate; intros _; split;
    try reflexivity; sf_cmp.
Qed.

Lemma SFleb_total (a b : spec_float) :
  SFleb a a = true -> SFleb b b = true -> SFleb a b = false -> SFltb b a = true.
Proof.
  unfold SFleb, SFltb, SFcompare.
  sf_cases a; sf_cases b; cbn; try discriminate; try reflexivity;
    intros; sf_cmp.
Qed.

Section Binary64Rounding.
Local Open Scope Z_scope.

Lemma digits2_pos_bounds (m : positive) :
  2 ^ (Z.pos (digits2_pos m) - 1) <= Z.pos m < 2 ^ Z.pos (digits2_pos m).
Proof.
  induction m as [m IH|m IH|]; cbn [digits2_pos].
  - rewrite Pos2Z.inj_succ.
    replace (Z.succ (Z.pos (digits2_pos m)) - 1)
      with (Z.succ (Z.pos (digits2_pos m) - 1)) by lia.
    rewrite !Z.pow_succ_r by lia. lia.
  - rewrite Pos2Z.inj_succ.
    replace (Z.succ (Z.pos (digits2_pos m)) - 1)
      with (Z.succ (Z.pos (digits2_pos m) - 1)) by lia.
    rewrite !Z.pow_succ_r by lia. lia.
  - cbn. lia.
Qed.

(** Aligning a mantissa to a smaller exponent multiplies it by a power of
    two. *)
Lemma shl_align_value (mx : positive) (ex ez : Z) :
  ez <= ex -> Z.pos (fst (shl_align mx ex ez)) = Z.pos mx * 2 ^ (ex - ez).
Proof.
  intros L. unfold shl_align.
  destruct (ez - ex) as [|d|d] eqn:E; cbn [fst]; try lia.
  - replace (ex - ez) with 0 by lia. lia.
  - replace (ex - ez) with (Z.pos d) by lia.
    change (Pos.iter xO mx d) with (shift_pos d mx).
    rewrite shift_pos_correct, Z.pow_pos_fold. lia.
Qed.

(** A valid binary64 number has at most 53 digits, an exponent of at least
    -1074, and 53 digits as soon as its exponent is larger. *)
Lemma bounded_facts (m : positive) (e : Z) :
  bounded prec emax m e = true ->
  -1074 <= e /\ Z.pos (digits2_pos m) <= 53
  /\ (-1074 < e -> Z.pos (digits2_pos m) = 53).
Proof.
  unfold bounded, canonical_mantissa, fexp, emin, prec, emax.
  intros H. apply andb_prop in H. destruct H as [H _].
  apply Z.eqb_eq in H. lia.
Qed.

(** The aligned mantissas of two valid numbers compare as the pairs of
    exponent and mantissa do. *)
Lemma aligned_lt (mx : positive) (ex : Z) (my : positive) (ey : Z) :
  bounded prec emax mx ex = true -> bounded prec emax my ey = true ->
  (ex < ey \/ (ex = ey /\ (mx < my)%positive)) ->
  Z.pos (fst (shl_align mx ex (Z.min ex ey)))
  < Z.pos (fst (shl_align my ey (Z.min ex ey))).
Proof.
  intros Bx By L.
  rewrite !shl_align_value by lia.
  destruct (@bounded_facts _ _ Bx) as (Ex & Dx & _).
  destruct (@bounded_facts _ _ By) as (Ey & Dy & Ny).
  destruct L as [L|[L M]].
  - rewrite Z.min_l by lia. replace (ex - ex) with 0 by lia.
    rewrite Z.pow_0_r, Z.mul_1_r.
    specialize (Ny ltac:(lia)).
    pose proof (digits2_pos_bounds mx) as [_ Ux].
    pose proof (digits2_pos_bounds my) as [Ly _].
    rewrite Ny in Ly.
    assert (2 ^ Z.pos (digits2_pos mx) <= 2 ^ 53)
      by (apply Z.pow_le_mono_r; lia).
    assert (2 ^ 1 <= 2 ^ (ey - ex)) by (apply Z.pow_le_mono_r; lia).
    change (2 ^ 1) with 2 in *. change (53 - 1) with 52 in Ly.
    change (2 ^ 53) with (2 * 2 ^ 52) in *. nia.
  - subst ey. rewrite Z.min_id. replace (ex - ex) with 0 by lia.
    rewrite Z.pow_0_r. lia.
Qed.

Lemma aligned_le (mx : positive) (ex : Z) (my : positive) (ey : Z) :
  bounded prec emax mx ex = true -> bounded prec emax my ey = true ->
  (ex < ey \/ (ex = ey /\ (mx <= my)%positive)) ->
  Z.pos (fst (shl_align mx ex (Z.min ex ey)))
  <= Z.pos (fst (shl_align my ey (Z.min ex ey))).
Proof.
  intros Bx By [L|[L M]].
  - apply Z.lt_le_incl, aligned_lt; auto.
  - subst ey. rewrite Z.min_id, !shl_align_value by lia.
    replace (ex - ex) with 0 by lia. rewrite Z.pow_0_r. lia.
Qed.

(** Shifting right halves. *)
Lemma shr_1_value (mrs : shr_record) :
  0 <= shr_m mrs -> shr_m (shr_1 mrs) = shr_m mrs / 2.
Proof.
  destruct mrs as [m r s]. cbn [shr_m]. intros P. unfold shr_1.
  destruct m as [|[p|p|]|p]; cbn [shr_m]; try lia; try reflexivity.
  - rewrite Pos2Z.inj_xI. apply Z.div_unique with 1; lia.
  - rewrite Pos2Z.inj_xO. apply Z.div_unique with 0; lia.
Qed.

Lemma iter_shr_1_value (p : positive) : forall mrs,
  0 <= shr_m mrs -> shr_m (iter_pos shr_1 p mrs) = shr_m mrs / 2 ^ Z.pos p.
Proof.
  induction p as [p IH|p IH|]; intros mrs P; cbn [iter_pos].
  - assert (P1 : 0 <= shr_m (shr_1 mrs))
      by (rewrite shr_1_value by lia; apply Z.div_pos; lia).
    assert (Q : 0 < 2 ^ Z.pos p) by (apply Z.pow_pos_nonneg; lia).
    assert (P2 : 0 <= shr_m (iter_pos shr_1 p (shr_1 mrs)))
      by (rewrite IH by lia; apply Z.div_pos; lia).
    rewrite IH, IH, shr_1_value by lia.
    rewrite !Z.div_div by lia.
    assert (X : 2 ^ Z.pos p~1 = 2 * (2 ^ Z.pos p * 2 ^ Z.pos p)).
    { replace (Z.pos p~1) with (1 + (Z.pos p + Z.pos p)) by lia.
      rewrite !Z.pow_add_r by lia. lia. }
    rewrite X. reflexivity.
  - assert (Q : 0 < 2 ^ Z.pos p) by (apply Z.pow_pos_nonneg; lia).
    assert (P2 : 0 <= shr_m (iter_pos shr_1 p mrs))
      by (rewrite IH by lia; apply Z.div_pos; lia).
    rewrite IH, IH by lia.
    rewrite !Z.div_div by lia.
    assert (X : 2 ^ Z.pos p~0 = 2 ^ Z.pos p * 2 ^ Z.pos p).
    { replace (Z.pos p~0) with (Z.pos p + Z.pos p) by lia.
      rewrite !Z.pow_add_r by lia. lia. }
    rewrite X. reflexivity.
  - rewrite shr_1_value by lia. reflexivity.
Qed.

Lemma shr_m_of_loc (m : Z) (l : location) : shr_m (shr_record_of_loc m l) = m.
Proof. destruct l as [|[]]; reflexivity. Qed.

Lemma Zdigits2_bounds (m : Z) : 0 < m -> 2 ^ (Zdigits2 m - 1) <= m.
Proof.
  destruct m as [|p|p]; try lia. intros _. cbn [Zdigits2].
  apply digits2_pos_bounds.
Qed.

(** Rounding a positive integer at an exponent the format has keeps it
    positive: the shift leaves its leading digits. *)
Lemma shr_fexp_positive (m e : Z) (l : location) :
  0 < m -> -1074 <= e ->
  0 < shr_m (fst (shr_fexp prec emax m e l))
  /\ -1074 <= snd (shr_fexp prec emax m e l).
Proof.
  intros P E. unfold shr_fexp, shr, fexp, emin, prec, emax.
  pose proof (@Zdigits2_bounds m P) as D.
  destruct (Z.max (Zdigits2 m + e - 53) (3 - 1024 - 53) - e) as [|n|n] eqn:N;
    cbn [fst snd]; rewrite ?shr_m_of_loc; try (split; lia).
  split; [|lia].
  rewrite iter_shr_1_value by (rewrite shr_m_of_loc; lia).
  rewrite shr_m_of_loc.
  apply Z.div_str_pos. split; [apply Z.pow_pos_nonneg; lia|].
  apply Z.le_trans with (2 ^ (Zdigits2 m - 1)); [|exact D].
  apply Z.pow_le_mono_r; lia.
Qed.

Lemma round_nearest_even_ge (m : Z) (l : location) :
  m <= round_nearest_even m l.
Proof. destruct l as [|[]]; cbn; try lia. destruct (Z.even m); lia. Qed.

Lemma binary_round_aux_positive (s : bool) (m e : Z) (l : location) :
  0 < m -> -1074 <= e ->
  (exists m' e', binary_round_aux prec emax s m e l = S754_finite s m' e')
  \/ binary_round_aux prec emax s m e l = S754_infinity s.
Proof.
  intros P E. unfold binary_round_aux.
  pose proof (@shr_fexp_positive m e l P E) as [P1 E1].
  destruct (shr_fexp prec emax m e l) as [mrs' e'] eqn:S1.
  cbn [fst snd] in P1, E1.
  pose proof (round_nearest_even_ge (shr_m mrs') (loc_of_shr_record mrs')) as R.
  pose proof (@shr_fexp_positive
                (round_nearest_even (shr_m mrs') (loc_of_shr_record mrs')) e'
                loc_Exact ltac:(lia) E1) as [P2 E2].
  destruct (shr_fexp prec emax
              (round_nearest_even (shr_m mrs') (loc_of_shr_record mrs')) e'
              loc_Exact) as [mrs'' e''] eqn:S2.
  cbn [fst snd] in P2, E2.
  destruct (shr_m mrs'') as [|q|q]; try lia.
  destruct (e'' <=? emax - prec); eauto.
Qed.

Lemma binary_round_positive (s : bool) (m : positive) (e : Z) :
  -1074 <= e ->
  (exists m' e', binary_round prec emax s m e = S754_finite s m' e')
  \/ binary_round prec emax s m e = S754_infinity s.
Proof.
  intros E. unfold binary_round.
  destruct (shl_align m e (fexp prec emax (Z.pos (digits2_pos m) + e)))
    as [mz ez] eqn:A.
  apply binary_round_aux_positive; [lia|].
  unfold shl_align, fexp, emin, prec, emax in A.
  destruct (Z.max (Z.pos (digits2_pos m) + e - 53) (3 - 1024 - 53) - e);
    inversion A; subst; lia.
Qed.
End Binary64Rounding.

(** *** The sign of a difference *)

Definition positive_float (x : spec_float) : Prop :=
  (exists m e, x = S754_finite false m e) \/ x = S754_infinity false.

Definition negative_float (x : spec_float) : Prop :=
  (exists m e, x = S754_finite true m e) \/ x = S754_infinity true.

Lemma binary_normalize_sign (m e : Z) :
  (-1074 <= e)%Z ->
  ((0 < m)%Z -> positive_float (binary_normalize prec emax m e false)) /\
  ((m < 0)%Z -> negative_float (binary_normalize prec emax m e false)) /\
  (m = 0%Z -> binary_normalize prec emax m e false = S754_zero false).
Proof.
  intros E. destruct m as [|p|p]; cbn [binary_normalize];
    repeat split; try lia; intros _.
  - apply binary_round_positive, E.
  - apply binary_round_positive, E.
Qed.

Lemma positive_float_gt (x : spec_float) :
  positive_float x -> SFltb (S754_zero false) x = true.
Proof. intros [(m & e & ->)| ->]; reflexivity. Qed.

Lemma negative_float_le (x : spec_float) :
  negative_float x -> SFleb x (S754_zero false) = true.
Proof. intros [(m & e & ->)| ->]; reflexivity. Qed.

(** [a < b] gives [0 < b - a]. *)
Lemma SFsub_positive (a b : spec_float) :
  valid_binary a = true -> valid_binary b = true ->
  SFltb a b = true -> SFltb (S754_zero false) (SFsub prec emax b a) = true.
Proof.
  unfold valid_binary. intros Va Vb L.
  destruct a as [sa|sa| |sa ma ea], b as [sb|sb| |sb mb eb];
    try (destruct sa); try (destruct sb); try discriminate L;
    try reflexivity;
    cbn [SpecFloat.valid_binary] in Va, Vb;
    cbn [SFsub];
    apply positive_float_gt;
    match goal with |- positive_float (binary_normalize _ _ ?m ?e false) =>
      destruct (@binary_normalize_sign m e) as (Hp & _)
    end;
    try (pose proof (@bounded_facts _ _ Va); pose proof (@bounded_facts _ _ Vb);
         lia);
    apply Hp; cbn [cond_Zopp]; unfold SFltb, SFcompare in L.
  - assert (Z.pos (fst (shl_align mb eb (Z.min eb ea)))
            < Z.pos (fst (shl_align ma ea (Z.min eb ea))))%Z.
    { apply aligned_lt; auto. sf_cmp. }
    lia.
  - lia.
  - assert (Z.pos (fst (shl_align ma ea (Z.min ea eb)))
            < Z.pos (fst (shl_align mb eb (Z.min ea eb))))%Z.
    { apply aligned_lt; auto. sf_cmp. }
    rewrite (Z.min_comm eb ea). lia.
Qed.

(** [a <= b] gives [a - b <= 0], unless the difference is NaN. *)
Lemma SFsub_not_positive (a b : spec_float) :
  valid_binary a = true -> valid_binary b = true ->
  SFleb a b = true ->
  SFleb (SFsub prec emax a b) (SFsub prec emax a b) = true ->
  SFleb (SFsub prec emax a b) (S754_zero false) = true.
Proof.
  unfold valid_binary. intros Va Vb L N.
  destruct a as [sa|sa| |sa ma ea], b as [sb|sb| |sb mb eb];
    try (destruct sa); try (destruct sb); try discriminate L;
    try discriminate N; try reflexivity;
    cbn [SpecFloat.valid_binary] in Va, Vb;
    cbn [SFsub] in *; clear N;
    match goal with |- SFleb (binary_normalize _ _ ?m ?e false) _ = true =>
      destruct (@binary_normalize_sign m e) as (_ & Hn & Hz);
      [pose proof (@bounded_facts _ _ Va); pose proof (@bounded_facts _ _ Vb);
       lia|];
      assert (Hm : (m <= 0)%Z)
    end;
    cbn [cond_Zopp] in *; unfold SFleb, SFcompare in L.
  - assert (Z.pos (fst (shl_align mb eb (Z.min eb ea)))
            <= Z.pos (fst (shl_align ma ea (Z.min eb ea))))%Z.
    { apply aligned_le; auto. sf_cmp. }
    rewrite (Z.min_comm ea eb). lia.
  - match goal with |- SFleb (binary_normalize _ _ ?m ?e false) _ = true =>
      destruct (Z.eq_dec m 0) as [E0|E0];
        [rewrite (Hz E0); reflexivity
        |apply negative_float_le, Hn; lia]
    end.
  - lia.
  - match goal with |- SFleb (binary_normalize _ _ ?m ?e false) _ = true =>
      destruct (Z.eq_dec m 0) as [E0|E0];
        [rewrite (Hz E0); reflexivity
        |apply negative_float_le, Hn; lia]
    end.
  - assert (Z.pos (fst (shl_align ma ea (Z.min ea eb)))
            <= Z.pos (fst (shl_align mb eb (Z.min ea eb))))%Z.
    { apply aligned_le; auto. sf_cmp. }
    lia.
  - match goal with |- SFleb (binary_normalize _ _ ?m ?e false) _ = true =>
      destruct (Z.eq_dec m 0) as [E0|E0];
        [rewrite (Hz E0); reflexivity
        |apply negative_float_le, Hn; lia]
    end.
Qed.

(** *** The laws, in binary64 and in exact arithmetic *)

Lemma binary64_f0 : Prim2SF (@f0 float binary64) = S754_zero false.
Proof. reflexivity. Qed.

Lemma binary64_laws : @float_laws float binary64.
Proof.
  constructor; unfold is_number; cbn [flt fle fsub binary64]; intros;
    rewrite ?ltb_spec, ?leb_spec, ?sub_spec, ?binary64_f0 in *.
  - apply SFltb_irrefl.
  - eapply SFltb_trans; eassumption.
  - eapply SFltb_carried; eassumption.
  - apply SFltb_leb; assumption.
  - eapply SFleb_numbers; eassumption.
  - apply SFleb_total; assumption.
  - reflexivity.
  - apply SFsub_positive; auto using Prim2SF_valid.
  - apply SFsub_self_not_positive.
  - apply SFsub_not_positive; auto using Prim2SF_valid.
Qed.

Lemma exact_laws : @float_laws Q exact.
Proof.
  constructor; unfold is_number; intros;
    repeat match goal with
    | H : (_ <? _)%py = true |- _ => apply exact_lt_true in H
    | H : (_ <? _)%py = false |- _ => apply exact_lt_false in H
    | H : (_ <=? _)%py = true |- _ => apply exact_le_true in H
    | H : (_ <=? _)%py = false |- _ => apply exact_le_false in H
    end;
    try split;
    match goal with
    | |- (_ <? _)%py = true => apply exact_lt_true
    | |- (_ <? _)%py = false => apply exact_lt_false
    | |- (_ <=? _)%py = true => apply exact_le_true
    | |- (_ <=? _)%py = false => apply exact_le_false
    end;
    cbn [fsub exact] in *; rewrite ?exact_f0 in *; lra.
Qed.

(** ** The extension, in any arithmetic with these laws *)

Section ExtensionLaws.
Context {F : Type} `{PyFloat F}.
Hypothesis laws : float_laws.

(** What the loop does not exceed at some point it does not exceed later. *)
Lemma se_vo_fold_keeps_bound (fps x : F) (clips : list (AudioClip.t F)) :
  forall acc, (acc <? x)%py = false ->
    (fold_left (MixSession.se_vo_step fps) clips acc <? x)%py = false.
Proof.
  induction clips as [|c clips IH]; intros acc B; cbn [fold_left]; [exact B|].
  apply IH. destruct (category_cases c) as [E|D].
  - rewrite (se_vo_step_music _ _ _ E). exact B.
  - rewrite (se_vo_step_drives _ _ D). unfold py_max.
    fold (end_time fps c).
    destruct (acc <? end_time fps c)%py eqn:L; [|exact B].
    exact (lt_carried laws _ _ _ L B).
Qed.

(** No EFFECT or VOICE clip ends after what the loop ends on. *)
Lemma se_vo_fold_bounds (fps : F) (clips : list (AudioClip.t F)) :
  forall acc c, In c clips -> drives_extension c ->
    (fold_left (MixSession.se_vo_step fps) clips acc <? end_time fps c)%py
    = false.
Proof.
  induction clips as [|c0 clips IH]; intros acc c HIn D; [destruct HIn|].
  cbn [fold_left]. destruct HIn as [->|HIn]; [|apply IH; assumption].
  apply se_vo_fold_keeps_bound.
  rewrite (se_vo_step_drives _ _ D). unfold py_max.
  fold (end_time fps c).
  destruct (acc <? end_time fps c)%py eqn:L; [|exact L].
  apply (lt_irreflexive laws).
Qed.

(** The loop ends on its start value or on the end of one of the clips that
    drive the extension. *)
Lemma se_vo_fold_reaches (fps : F) (clips : list (AudioClip.t F)) :
  forall acc,
    fold_left (MixSession.se_vo_step fps) clips acc = acc \/
    exists c, In c clips /\ drives_extension c /\
              fold_left (MixSession.se_vo_step fps) clips acc = end_time fps c.
Proof.
  induction clips as [|c0 clips IH]; intros acc; [left; reflexivity|].
  cbn [fold_left].
  destruct (IH (MixSession.se_vo_step fps acc c0)) as [E|(c & HIn & D & E)].
  - rewrite E. destruct (category_cases c0) as [Em|D].
    + left. apply se_vo_step_music. exact Em.
    + rewrite (se_vo_step_drives _ _ D). unfold py_max.
      fold (end_time fps c0).
      destruct (acc <? end_time fps c0)%py.
      * right. exists c0. repeat split; [left; reflexivity | exact D].
      * left. reflexivity.
  - right. exists c. repeat split; [right; exact HIn | exact D | exact E].
Qed.

(** The loop never falls back below the duration of the video. *)
Lemma se_vo_fold_from (fps V : F) (clips : list (AudioClip.t F)) :
  forall acc, acc = V \/ (V <? acc)%py = true ->
    fold_left (MixSession.se_vo_step fps) clips acc = V
    \/ (V <? fold_left (MixSession.se_vo_step fps) clips acc)%py = true.
Proof.
  induction clips as [|c clips IH]; intros acc A; cbn [fold_left]; [exact A|].
  apply IH. destruct (category_cases c) as [E|D].
  - rewrite (se_vo_step_music _ _ _ E). exact A.
  - rewrite (se_vo_step_drives _ _ D). unfold py_max.
    fold (end_time fps c).
    destruct (acc <? end_time fps c)%py eqn:L; [|exact A].
    right. destruct A as [->|A]; [exact L|].
    exact (lt_transitive laws _ _ _ A L).
Qed.

Lemma se_vo_fold_stays (fps V : F) (clips : list (AudioClip.t F)) :
  (forall c, In c clips -> drives_extension c ->
             (V <? end_time fps c)%py = false) ->
  fold_left (MixSession.se_vo_step fps) clips V = V.
Proof.
  induction clips as [|c clips IH]; intros B; cbn [fold_left]; [reflexivity|].
  assert (E : MixSession.se_vo_step fps V c = V).
  { destruct (category_cases c) as [E|D].
    - apply se_vo_step_music. exact E.
    - rewrite (se_vo_step_drives _ _ D). unfold py_max.
      fold (end_time fps c).
      rewrite (B c (or_introl eq_refl) D). reflexivity. }
  rewrite E. apply IH. intros c' HIn. apply B. right. exact HIn.
Qed.

(** An EFFECT or VOICE clip that ends after the video extends it, by the
    overrun of a clip that ends last. *)
Lemma extension_is_last_overrun (s : MixSession.t F) (c : AudioClip.t F) :
  let V := VideoClip.duration_seconds (MixSession.video_clip s) in
  let fps := VideoClip.fps (MixSession.video_clip s) in
  In c (MixSession.audio_clips s) ->
  drives_extension c ->
  (V <? end_time fps c)%py = true ->
  exists last,
    In last (MixSession.audio_clips s) /\ drives_extension last /\
    (V <? end_time fps last)%py = true /\
    (forall c', In c' (MixSession.audio_clips s) -> drives_extension c' ->
       (end_time fps last <? end_time fps c')%py = false) /\
    MixSession.black_extension_duration s = (end_time fps last - V)%py /\
    MixSession.requires_black_extension s = true.
Proof.
  intros V fps HIn D Over.
  unfold MixSession.requires_black_extension,
    MixSession.black_extension_duration.
  fold V fps.
  set (top := fold_left (MixSession.se_vo_step fps) (MixSession.audio_clips s) V).
  assert (Hall : forall c', In c' (MixSession.audio_clips s) ->
                   drives_extension c' -> (top <? end_time fps c')%py = false)
    by (intros; apply se_vo_fold_bounds; assumption).
  assert (Above : (V <? top)%py = true).
  { destruct (@se_vo_fold_from fps V (MixSession.audio_clips s) V
                (or_introl eq_refl)) as [E|A]; [|exact A].
    fold top in E. specialize (Hall c HIn D). rewrite E in Hall. congruence. }
  destruct (se_vo_fold_reaches fps (MixSession.audio_clips s) V)
    as [E|(last & HInl & Dl & E)]; fold top in E.
  { rewrite E, (lt_irreflexive laws) in Above. discriminate. }
  exists last. rewrite <- E.
  assert (P : (f0 <? top - V)%py = true) by (apply (sub_positive laws); exact Above).
  unfold py_max. rewrite P.
  repeat split; try assumption.
Qed.

(** Without such a clip there is no extension. *)
Lemma no_overrun_no_extension (s : MixSession.t F) :
  let V := VideoClip.duration_seconds (MixSession.video_clip s) in
  let fps := VideoClip.fps (MixSession.video_clip s) in
  (forall c, In c (MixSession.audio_clips s) -> drives_extension c ->
             (V <? end_time fps c)%py = false) ->
  MixSession.black_extension_duration s = f0
  /\ MixSession.requires_black_extension s = false.
Proof.
  intros V fps B.
  assert (E : MixSession.black_extension_duration s = f0).
  { unfold MixSession.black_extension_duration. fold V fps.
    rewrite (se_vo_fold_stays _ _ _ B).
    unfold py_max. rewrite (sub_self_not_positive laws). reflexivity. }
  split; [exact E|].
  unfold MixSession.requires_black_extension. rewrite E.
  apply (lt_irreflexive laws).
Qed.
End ExtensionLaws.

(** ** Where [build_plan] returns *)

Section PlannerReturns.
Context {F : Type} `{PyFloat F} `{PyRuntime F}.

Lemma converts_succeeds (x : F) :
  converts x = true -> succeeds (lift_option (to_int x)).
Proof.
  unfold converts. destruct (to_int x); [intros _|discriminate].
  apply succeeds_lift_some.
Qed.

Lemma build_clip_filters_returns index clip s :
  converts (clip_delay s clip) = true ->
  succeeds (MixPlanner._build_clip_filters index clip s).
Proof.
  intros T. unfold MixPlanner._build_clip_filters.
  apply succeeds_bind.
  - destruct (AudioCategory_eqb _ _); [|apply succeeds_ret].
    destruct (TrackConfig.music_random_enabled _); [|apply succeeds_ret].
    apply succeeds_bind; [apply random_music_offset_succeeds|].
    intros r. apply succeeds_ret.
  - intros source_offset. apply succeeds_bind.
    + destruct (_ >? _)%py; [|apply succeeds_ret].
      apply succeeds_bind; [apply converts_succeeds; exact T|].
      intros ms. apply succeeds_ret.
    + intros st3. apply succeeds_ret.
Qed.

Lemma build_original_filters_returns s :
  converts (lead_delay s) = true ->
  succeeds (MixPlanner._build_original_filters s).
Proof.
  intros T. unfold MixPlanner._build_original_filters.
  apply succeeds_bind.
  - destruct (_ >? _)%py; [|apply succeeds_ret].
    apply succeeds_bind; [apply converts_succeeds; exact T|].
    intros ms. apply succeeds_ret.
  - intros [filters current_ref]. apply succeeds_ret.
Qed.

Lemma clip_loop_returns s clips :
  forallb (fun clip => converts (clip_delay s clip)) clips = true ->
  forall index acc, succeeds (MixPlanner.clip_loop s index clips acc).
Proof.
  induction clips as [|c clips IH]; intros T index acc;
    cbn [MixPlanner.clip_loop]; [apply succeeds_ret|].
  cbn [forallb] in T. apply andb_prop in T as [Tc T].
  apply succeeds_bind; [apply build_clip_filters_returns; exact Tc|].
  intros [label filters]. apply IH. exact T.
Qed.

(** [build_plan] returns a plan as soon as [int] accepts the delays. *)
Lemma build_plan_returns s :
  delays_convert s = true -> succeeds (MixPlanner.build_plan s).
Proof.
  intros T. apply andb_prop in T as [Tc Tl].
  unfold MixPlanner.build_plan.
  apply succeeds_bind; [apply clip_loop_returns; exact Tc|].
  intros acc. apply succeeds_bind.
  - destruct (_ && _); [|apply succeeds_ret].
    apply succeeds_bind; [apply build_original_filters_returns; exact Tl|].
    intros [label filters]. apply succeeds_ret.
  - intros acc'. apply succeeds_bind.
    + destruct (_ >? _)%py; [|apply succeeds_ret].
      apply succeeds_bind; [apply succeeds_lift_world|].
      intros token. apply succeeds_ret.
    + intros [[black concat] extended]. apply succeeds_ret.
Qed.
End PlannerReturns.

(** ** The extension in binary64 *)

Section Binary64Extension.
Context {R : PyRuntime float}.

(** C2, amended. In binary64, the arithmetic of the code: when an EFFECT or
    VOICE clip [c] ends after the video, its end [S + D] being the float sum
    of [start_seconds] at the frame rate of the video and of its duration
    and [V < S + D] the float comparison, then some EFFECT or VOICE clip
    [last] ends after the video and no EFFECT or VOICE clip ends after
    [last]; the session asks for the extension, and the extension lasts the
    float difference between the end of [last] and [V] (the largest
    overrun, nothing is added up).  Every plan that [build_plan] returns
    carries these two values, and [build_plan] returns a plan as soon as
    [int] accepts the delays of the session. *)
Theorem C2_extension_is_max_overrun
    (s : MixSession.t float) (c : AudioClip.t float) (w : World) :
  let V := VideoClip.duration_seconds (MixSession.video_clip s) in
  let fps := VideoClip.fps (MixSession.video_clip s) in
  In c (MixSession.audio_clips s) ->
  drives_extension c ->
  (V <? AudioClip.start_seconds c fps + AudioClip.duration_seconds c)%py = true ->
  exists last,
    In last (MixSession.audio_clips s) /\ drives_extension last /\
    (V <? end_time fps last)%py = true /\
    (forall c', In c' (MixSession.audio_clips s) -> drives_extension c' ->
       (end_time fps last <? end_time fps c')%py = false) /\
    MixSession.requires_black_extension s = true /\
    MixSession.black_extension_duration s = (end_time fps last - V)%py /\
    (forall p w', MixPlanner.build_plan s w = (Some p, w') ->
       MixPlan.needs_black_extension p = true /\
       MixPlan.black_extension_duration p = (end_time fps last - V)%py) /\
    (delays_convert s = true ->
     exists p w', MixPlanner.build_plan s w = (Some p, w')) /\
    ((fps <=? f0)%py = false ->
     AudioClip.start_seconds c fps
     = (of_int (AudioClip.start_frame_or_0 c) / fps)%py).
Proof.
  intros V fps HIn D Over.
  destruct (@extension_is_last_overrun float binary64 binary64_laws s c HIn D Over)
    as (last & HInl & Dl & Above & Top & Ed & En).
  exists last. fold V fps in Above, Top, Ed.
  repeat (split; [assumption|]).
  split; [|split].
  - intros p w' E.
    destruct (build_plan_inv _ _ E) as (_ & Hd & Hn & _).
    rewrite Hn, Hd. split; [exact En | exact Ed].
  - intros T. exact (build_plan_returns s T w).
  - intros E. unfold AudioClip.start_seconds. rewrite E. reflexivity.
Qed.
End Binary64Extension.

Section Binary64ExtensionExamples.
#[local] Existing Instance Toy.runtime64.

(** C2, amended, on scenario D of the specification in binary64: the plan
    asks for the extension, and the extension is the overrun of the clip
    that ends last, 3.4000000000000004 s, within a millisecond of 3.4 s and
    not 1.2 s + 3.4 s. *)
Lemma C2_extension_is_max_overrun_witness :
  exists p w',
    @MixPlanner.build_plan float binary64 Toy.runtime64 Toy.scenario_d 0%Z
    = (Some p, w') /\
    MixPlan.needs_black_extension p = true /\
    PrimFloat.ltb
      (PrimFloat.abs (MixPlan.black_extension_duration p
                      - @Toy.seconds float binary64 34 10))
      (@Toy.seconds float binary64 1 1000) = true.
Proof.
  destruct (@C2_extension_is_max_overrun Toy.runtime64 Toy.scenario_d
              Toy.se2 0%Z)
    as (last & _ & _ & _ & _ & _ & Ed & Hp & Hr & _).
  - right. left. reflexivity.
  - left. reflexivity.
  - vm_compute. reflexivity.
  - destruct Hr as (p & w' & E); [vm_compute; reflexivity|].
    exists p, w'. split; [exact E|].
    destruct (Hp p w' E) as [Hn Hd]. split; [exact Hn|].
    rewrite Hd, <- Ed. vm_compute. reflexivity.
Defined.

(** C2 as the specification words it fails where the float sum rounds: a
    clip of 0.26 s at frame 1 of a 0.3 s video at 25 fps ends after the
    video, the exact sum of its start, 1/25 s (or the binary64 value of
    [1 / 25.0]), and of the binary64 value of its duration exceeding the
    binary64 value of the duration of the video; the float sum
    [0.04 + 0.26] is [0.3], and the plan has no extension. *)
Lemma C2_counterexample :
  let s := @Toy.scenario_rounding float binary64 in
  let V := VideoClip.duration_seconds (MixSession.video_clip s) in
  let fps := VideoClip.fps (MixSession.video_clip s) in
  let c := @Toy.late_effect float binary64 in
  In c (MixSession.audio_clips s) /\ drives_extension c /\
  (float_value V < (1 # 25) + float_value (AudioClip.duration_seconds c))%Q /\
  (float_value V < float_value (AudioClip.start_seconds c fps)
                   + float_value (AudioClip.duration_seconds c))%Q /\
  exists p w',
    MixPlanner.build_plan s 0%Z = (Some p, w') /\
    MixPlan.needs_black_extension p = false /\
    MixPlan.black_extension_duration p = 0%float.
Proof.
  intros s V fps c.
  split; [left; reflexivity|]. split; [left; reflexivity|].
  split; [vm_compute; reflexivity|]. split; [vm_compute; reflexivity|].
  destruct (@build_plan_returns float binary64 Toy.runtime64 s) with (w := 0%Z)
    as (p & w' & E); [vm_compute; reflexivity|].
  exists p, w'. split; [exact E|].
  destruct (build_plan_inv _ _ E) as (_ & Hd & Hn & _).
  rewrite Hn, Hd. split; vm_compute; reflexivity.
Qed.
End Binary64ExtensionExamples.

(** ** Frames to seconds and back *)

Lemma Qtrunc_inject_Z (q : Q) (n : Z) : (q == inject_Z n)%Q -> Qtrunc q = n.
Proof.
  unfold Qeq, Qtrunc. cbn [Qnum Qden inject_Z]. intros E.
  rewrite Z.mul_1_r in E. rewrite E. apply Z.quot_mul. discriminate.
Qed.

(** In exact arithmetic the round trip gives the frame count back. *)
Lemma frames_round_trip_exact (n : Z) (fps : Q) :
  (0 < fps)%Q -> frames_round_trip n fps = Some [Some n].
Proof.
  intros P. unfold frames_round_trip, MediaRepository.update_audio_parameters.
  cbn [repository_at MediaRepository._audios_by_video MediaRepository.objects
       MediaRepository.dict_get MediaRepository.first_with_id
       MediaRepository.deref nth_error
       String.eqb Ascii.eqb Bool.eqb voice_at AudioClip.clip_id].
  assert (G : (fps >? f0)%py = true) by (apply exact_lt_true; exact P).
  rewrite G. rewrite start_seconds_exact by exact P.
  cbn [to_int exact option_map fmul AudioClip.start_frame_or_0
       AudioClip.start_frame].
  rewrite (Qtrunc_inject_Z (n := n)).
  - reflexivity.
  - change (AudioClip.start_frame_or_0 (@voice_at Q exact n)) with n.
    field. lra.
Qed.

(** C9. In binary64 the round trip loses a frame: frame 29 of a 25 fps
    video is read as 1.16 s, [1.16 * 25] is 28.999999999999996, and [int]
    truncates it to 28. *)
Theorem C9_round_trip_loses_frame_29_at_25_fps :
  @frames_round_trip float binary64 29 (of_int 25) = Some [Some 28%Z]
  /\ @AudioClip.start_seconds float binary64 (voice_at 29) (of_int 25)
     = (of_int 29 / of_int 25)%py
  /\ PrimFloat.ltb
       ((@AudioClip.start_seconds float binary64 (voice_at 29) (of_int 25))
          * of_int 25)%py (of_int 29) = true.
Proof. repeat split; vm_compute; reflexivity. Qed.

(** ** Cleaning up after a job *)

Lemma exists_file_remove_same (p : Path) (fs : FS) :
  exists_file (remove_path p fs) p = false.
Proof.
  unfold exists_file, remove_path. induction fs as [|q fs IH]; [reflexivity|].
  cbn [filter]. destruct (String.eqb p q) eqn:E; cbn [negb]; [exact IH|].
  cbn [existsb]. rewrite E. exact IH.
Qed.

(** A removal that is not refused removes. *)
Lemma exists_file_unlink_same (refused : Refusal) (p : Path) (fs : FS) :
  refused p fs = false -> exists_file (unlink refused p fs) p = false.
Proof.
  intros E. unfold unlink. rewrite E. apply exists_file_remove_same.
Qed.

(** No removal, refused or not, brings a file back. *)
Lemma exists_file_unlink_other (refused : Refusal) (p q : Path) (fs : FS) :
  exists_file fs p = false -> exists_file (unlink refused q fs) p = false.
Proof.
  unfold unlink. destruct (refused q fs); [trivial|].
  unfold exists_file, remove_path. induction fs as [|r fs IH]; [reflexivity|].
  cbn [existsb filter]. intros E. apply orb_false_iff in E as [E1 E2].
  destruct (negb (String.eqb q r)); [|exact (IH E2)].
  cbn [existsb]. rewrite E1. exact (IH E2).
Qed.

(** A refused removal leaves the file system as it is. *)
Lemma unlink_refused (refused : Refusal) (p : Path) (fs : FS) :
  refused p fs = true -> unlink refused p fs = fs.
Proof. intros E. unfold unlink. rewrite E. reflexivity. Qed.

Lemma cleanup_keeps_absent (refused : Refusal) (paths : list Path) (p : Path) :
  forall fs, exists_file fs p = false ->
             exists_file (PreviewController._cleanup_files refused paths fs) p
             = false.
Proof.
  unfold PreviewController._cleanup_files.
  induction paths as [|q paths IH]; intros fs E; [exact E|].
  cbn [fold_left]. apply IH. apply exists_file_unlink_other. exact E.
Qed.

(** Every path handed to the cleanup loop is gone afterwards, provided the
    operating system lets it be removed. *)
Lemma cleanup_removes (refused : Refusal) (paths : list Path) (p : Path) :
  removable refused p ->
  forall fs, In p paths ->
             exists_file (PreviewController._cleanup_files refused paths fs) p
             = false.
Proof.
  intros Hp.
  induction paths as [|q paths IH]; intros fs HIn; [destruct HIn|].
  destruct HIn as [->|HIn].
  - unfold PreviewController._cleanup_files. cbn [fold_left].
    apply (cleanup_keeps_absent refused paths).
    apply exists_file_unlink_same. apply Hp.
  - unfold PreviewController._cleanup_files. cbn [fold_left].
    apply IH. exact HIn.
Qed.

Section ExecutorFacts.
Context {F : Type} `{PyFloat F} `{PyRuntime F}.
Variable popen : FFmpegAdapter.Popen.
Variable writable : Writable.
Variable refused : Refusal.

(** Once both extension stages succeeded, [_run_plan] removes the three
    artifacts whenever the final invocation returns, with any exit code, as
    far as the operating system lets them be removed. *)
Lemma run_plan_cleans_when_mux_returns
    (plan : MixPlan.t F) (output_path : Path) (temp_paths : list Path)
    (video_input : Path) (fs : FS) (p : Path) :
  TaskExecutor.how
    (TaskExecutor.mux_and_cleanup popen refused plan output_path temp_paths
       video_input fs)
    = TaskExecutor.Returned ->
  In p temp_paths ->
  removable refused p ->
  exists_file
    (TaskExecutor.files
       (TaskExecutor.mux_and_cleanup popen refused plan output_path temp_paths
          video_input fs)) p = false.
Proof.
  unfold TaskExecutor.mux_and_cleanup.
  destruct (FFmpegAdapter.run_command popen _ fs) as [[result|] fs'];
    cbn [TaskExecutor.how TaskExecutor.files]; [|discriminate].
  intros _ HIn Hp. apply (@cleanup_removes refused temp_paths p Hp fs' HIn).
Qed.

(** The early [return] after a failed concatenation: [_run_plan] hands back
    the file system exactly as the failed ffmpeg left it, manifest and black
    clip included, whatever the operating system would allow. *)
Lemma run_plan_returns_early_on_concat_failure
    (plan : MixPlan.t F) (output_path black concat extended : Path)
    (fs fs1 fs2 : FS) (r1 r2 : FFmpegAdapter.FFmpegResult) :
  TaskExecutor.extension_paths plan = Some (black, concat, extended) ->
  FFmpegAdapter.generate_black_clip popen black (MixPlan.video_resolution plan)
    (MixPlan.black_extension_duration plan) (MixPlan.video_fps plan) fs
    = (Some r1, fs1) ->
  FFmpegAdapter.return_code r1 = 0%Z ->
  writable concat fs1 = true ->
  FFmpegAdapter.concat_videos popen concat extended (write_text concat fs1)
    = (Some r2, fs2) ->
  FFmpegAdapter.return_code r2 <> 0%Z ->
  TaskExecutor.files
    (TaskExecutor._run_plan popen writable refused plan output_path fs)
  = fs2.
Proof.
  intros Ep E1 R1 W E2 R2. unfold TaskExecutor._run_plan.
  rewrite Ep, E1, R1. cbn [Z.eqb negb]. rewrite W. cbn [negb]. rewrite E2.
  apply Z.eqb_neq in R2. rewrite R2. reflexivity.
Qed.

(** The preview does what [_run_plan] misses: after a failed concatenation
    none of the three artifacts that can be removed is left. *)
Lemma preview_cleans_on_concat_failure
    (player : list string -> FS -> option unit * FS) (mkdir : Mkdir)
    (s : MixSession.t F) (section : PreviewController.PreviewSection F)
    (w w' : World) (plan : MixPlan.t F) (black concat extended : Path)
    (fs fs1 fs2 : FS) (r1 r2 : FFmpegAdapter.FFmpegResult) :
  mkdir (path_parent (VideoClip.file_path (MixSession.video_clip s))) = true ->
  MixPlanner.build_plan s w = (Some plan, w') ->
  TaskExecutor.extension_paths plan = Some (black, concat, extended) ->
  (forall res fps,
     FFmpegAdapter.generate_black_clip popen black res
       (MixPlan.black_extension_duration plan) fps fs = (Some r1, fs1)) ->
  FFmpegAdapter.return_code r1 = 0%Z ->
  writable concat fs1 = true ->
  FFmpegAdapter.concat_videos popen concat extended (write_text concat fs1)
    = (Some r2, fs2) ->
  FFmpegAdapter.return_code r2 <> 0%Z ->
  forall p, In p [black; concat; extended] -> removable refused p ->
    exists_file
      (PreviewController.preview_files
         (PreviewController.preview popen player writable refused mkdir s
            section w fs))
      p = false.
Proof.
  intros Em Eb Ep E1 R1 W E2 R2 p HIn Hp. unfold PreviewController.preview.
  rewrite Em. cbn [negb].
  rewrite Eb. destruct (MixPlan.video_resolution plan) as [width height].
  destruct (if (width <=? 0)%Z || (height <=? 0)%Z
            then VideoClip.resolution (MixSession.video_clip s)
            else (width, height)) as [width' height'].
  rewrite Ep, E1, R1. cbn [Z.eqb negb]. rewrite W. cbn [negb]. rewrite E2.
  apply Z.eqb_neq in R2. rewrite R2. cbn [negb PreviewController.preview_files].
  apply cleanup_removes; assumption.
Qed.
End ExecutorFacts.

Section ExecutorExample.
#[local] Existing Instance Toy.runtime.

(** C1. The run that breaks the claim: the plan of scenario A asks for the
    extension; ffmpeg writes the black clip, [_run_plan] writes the concat
    manifest (on a disk that takes the write), the concatenation fails, and
    [_run_plan] returns at once.  None of the job's temporary files existed
    before the run; the black clip and the manifest exist after it, whether
    the operating system would have let them be removed or not: no removal
    is attempted. *)
Theorem C1_concat_failure_leaves_temp_files :
  exists plan,
    Toy.plan_of Toy.scenario_a = Some plan /\
    forall refused : Refusal,
    let before := ["demo"; "se.wav"] in
    let run :=
      TaskExecutor._run_plan (Toy.ffmpeg "concat") Toy.disk refused plan
        "out.mp4" before in
    TaskExecutor.how run = TaskExecutor.Returned /\
    leftovers plan before = [] /\
    leftovers plan (TaskExecutor.files run)
      = ["./demo_black_0.mp4"; "./demo_concat_0.txt"].
Proof.
  eexists. split; [vm_compute; reflexivity|].
  intros refused. repeat split; vm_compute; reflexivity.
Qed.

(** With an ffmpeg that fails nowhere and an operating system that lets the
    files be removed, the same job leaves nothing behind. *)
Example run_plan_success_leaves_nothing :
  exists plan,
    Toy.plan_of Toy.scenario_a = Some plan /\
    let run :=
      TaskExecutor._run_plan (Toy.ffmpeg "never") Toy.disk Toy.willing plan
        "out.mp4" ["demo"; "se.wav"] in
    leftovers plan (TaskExecutor.files run) = [] /\
    TaskExecutor.files run = ["out.mp4"; "demo"; "se.wav"].
Proof.
  eexists. split; [vm_compute; reflexivity|].
  split; vm_compute; reflexivity.
Qed.

(** Where the operating system refuses the removals, the [OSError] is
    swallowed and the three artifacts stay, also after a job that went
    well. *)
Example run_plan_refused_removals_leave_temp_files :
  exists plan,
    Toy.plan_of Toy.scenario_a = Some plan /\
    let run :=
      TaskExecutor._run_plan (Toy.ffmpeg "never") Toy.disk Toy.stubborn plan
        "out.mp4" ["demo"; "se.wav"] in
    TaskExecutor.how run = TaskExecutor.Returned /\
    leftovers plan (TaskExecutor.files run)
      = ["./demo_black_0.mp4"; "./demo_concat_0.txt"; "./demo_extended_0.mp4"].
Proof.
  eexists. split; [vm_compute; reflexivity|].
  split; vm_compute; reflexivity.
Qed.

(** When the manifest cannot be written, the OSError of [write_text]
    escapes from [_run_plan] and the black clip stays. *)
Example run_plan_full_disk_leaves_black_clip :
  exists plan,
    Toy.plan_of Toy.scenario_a = Some plan /\
    forall refused : Refusal,
    let run :=
      TaskExecutor._run_plan (Toy.ffmpeg "never") Toy.full_disk refused plan
        "out.mp4" ["demo"; "se.wav"] in
    TaskExecutor.how run = TaskExecutor.Escaped /\
    leftovers plan (TaskExecutor.files run) = ["./demo_black_0.mp4"].
Proof.
  eexists. split; [vm_compute; reflexivity|].
  intros refused. split; vm_compute; reflexivity.
Qed.

(** When [Popen] raises on the final invocation the exception escapes from
    [_run_plan] and all three artifacts stay. *)
Example run_plan_exception_leaves_temp_files :
  exists plan,
    Toy.plan_of Toy.scenario_a = Some plan /\
    forall refused : Refusal,
    let run :=
      TaskExecutor._run_plan (Toy.ffmpeg_raising "-map") Toy.disk refused plan
        "out.mp4" ["demo"; "se.wav"] in
    TaskExecutor.how run = TaskExecutor.Escaped /\
    leftovers plan (TaskExecutor.files run)
      = ["./demo_black_0.mp4"; "./demo_concat_0.txt"; "./demo_extended_0.mp4"].
Proof.
  eexists. split; [vm_compute; reflexivity|].
  intros refused. split; vm_compute; reflexivity.
Qed.
End ExecutorExample.

(** ** The stream mapping of the final invocation *)

Lemma fold_input_arguments (inputs : list Path) :
  forall command : list string,
    fold_left (fun command audio_path => command +++ ["-i"; audio_path])
              inputs command
    = command +++ flat_map (fun audio_path => ["-i"; audio_path]) inputs.
Proof.
  induction inputs as [|a inputs IH]; intros command; cbn [fold_left flat_map].
  - symmetry. apply app_nil_r.
  - rewrite IH, <- app_assoc. reflexivity.
Qed.

Section MappingFacts.
Context {F : Type} `{PyFloat F} `{PyRuntime F}.

Lemma final_command_around (plan : MixPlan.t F) (video_input output_path : Path) :
  TaskExecutor.final_command plan video_input output_path
    = command_around mapping_with_any_input plan video_input output_path.
Proof.
  unfold TaskExecutor.final_command, command_around, mapping_with_any_input,
    filter_arguments, input_arguments.
  rewrite fold_input_arguments.
  destruct (MixPlan.audio_filters plan) as [|f fs]; cbn [truthy].
  - destruct (MixPlan.audio_inputs plan) as [|a l]; cbn [truthy flat_map];
      rewrite ?app_nil_r; reflexivity.
  - rewrite <- !app_assoc. reflexivity.
Qed.

(** C8, amended. The final invocation of [_run_plan] and the one of the
    preview carry the same stream mapping: with an audio filter chain, video
    from input 0 and the named mix output; with no chain and one or more
    audio inputs, video and the first audio input ([1:a:0]); with neither,
    video only.  This is the rule of the specification on every plan except
    those with no chain and two or more audio inputs. *)
Theorem C8_stream_mapping (plan : MixPlan.t F) (video_input output_path : Path)
    (section : PreviewController.PreviewSection F) :
  TaskExecutor.final_command plan video_input output_path
    = command_around mapping_with_any_input plan video_input output_path
  /\ PreviewController._build_preview_command plan video_input output_path section
     = ((((["-ss"; float_fixed3 (py_max (PreviewController.start section) f0);
            "-t"; float_fixed3 (py_max (PreviewController.duration section) f1);
            "-i"; video_input]
             +++ input_arguments plan) +++ filter_arguments plan)
          +++ mapping_with_any_input plan)
         +++ ["-c:v"; "libx264"; "-preset"; "veryfast"; "-crf"; "30";
              "-c:a"; "aac"; "-b:a"; "128k"])
        +++ [output_path]
  /\ (mapping_with_any_input plan = mapping_as_specified plan
      <-> ~ (MixPlan.audio_filters plan = []
             /\ (2 <= List.length (MixPlan.audio_inputs plan))%nat)).
Proof.
  split; [apply final_command_around|split].
  - unfold PreviewController._build_preview_command, mapping_with_any_input,
      filter_arguments, input_arguments.
    rewrite fold_input_arguments.
    destruct (MixPlan.audio_filters plan) as [|f fs]; cbn [truthy].
    + destruct (MixPlan.audio_inputs plan) as [|a l]; cbn [truthy flat_map];
        rewrite ?app_nil_r, <- ?app_assoc; reflexivity.
    + rewrite <- !app_assoc. reflexivity.
  - unfold mapping_with_any_input, mapping_as_specified.
    destruct (MixPlan.audio_filters plan) as [|f fs].
    + destruct (MixPlan.audio_inputs plan) as [|a [|b l]]; cbn [List.length].
      * split; [intros _ [_ L]; inversion L | reflexivity].
      * split; [intros _ [_ L]; inversion L as [|m L']; inversion L' | reflexivity].
      * split; [discriminate|]. intros N. exfalso. apply N.
        split; [reflexivity|]. apply le_n_S, le_n_S, Nat.le_0_l.
    + split; [intros _ [E _]; discriminate E | reflexivity].
Qed.
End MappingFacts.

(** C8 as the specification words it fails on a plan with two audio inputs
    and no filter chain: the specification maps video only, [_run_plan] maps
    the audio of the first input as well. *)
Lemma C8_counterexample :
  let plan := two_inputs_no_chain (0 : Q)%Q in
  TaskExecutor.final_command plan "demo.mp4" "out.mp4"
    <> command_around mapping_as_specified plan "demo.mp4" "out.mp4"
  /\ mapping_as_specified plan = map_video_only
  /\ TaskExecutor.final_command plan "demo.mp4" "out.mp4"
     = ["-i"; "demo.mp4"; "-i"; "a.wav"; "-i"; "b.wav";
        "-map"; "0:v:0"; "-map"; "1:a:0";
        "-c:v"; "copy"; "-c:a"; "aac"; "-b:a"; "192k"; "out.mp4"].
Proof.
  cbv zeta. split; [|split]; [vm_compute; discriminate | reflexivity | reflexivity].
Qed.

(** ** Labels and references *)

Lemma append_assoc (a b c : string) : (a ++ b) ++ c = a ++ (b ++ c).
Proof.
  induction a as [|x a IH]; cbn [append]; [reflexivity|].
  rewrite IH. reflexivity.
Qed.

Lemma append_cancel_l (a b c : string) : a ++ b = a ++ c -> b = c.
Proof.
  induction a as [|x a IH]; cbn [append]; intros E; [exact E|].
  inversion E. auto.
Qed.

(** A decimal numeral starts with a digit or with the minus sign. *)
Lemma str_int_head (z : Z) :
  exists c rest, str_int z = String c rest /\ c <> "a"%char.
Proof.
  unfold str_int, NilZero.string_of_int, NilZero.string_of_uint.
  destruct (Z.to_int z) as [d|d]; destruct d;
    cbn [NilEmpty.string_of_uint];
    eexists; eexists; (split; [reflexivity | discriminate]).
Qed.

Lemma str_int_inj (a b : Z) : str_int a = str_int b -> a = b.
Proof.
  unfold str_int. intros E. apply DecimalZ.to_int_inj.
  assert (N : forall z, Z.to_int z <> Decimal.Pos Decimal.Nil
                        /\ Z.to_int z <> Decimal.Neg Decimal.Nil).
  { intros [|p|p]; cbn [Z.to_int]; split; try discriminate;
      intros X; inversion X as [X'];
      exact (DecimalPos.Unsigned.to_uint_nonnil p X'). }
  destruct (N a) as [A1 A2]. destruct (N b) as [B1 B2].
  pose proof (NilZero.isi _ A1 A2) as Ia.
  pose proof (NilZero.isi _ B1 B2) as Ib.
  rewrite E in Ia. rewrite Ia in Ib. inversion Ib. reflexivity.
Qed.

(** Distinct positions have distinct chain labels. *)
Lemma clip_label_inj (i j : Z) :
  MixPlanner.clip_label i = MixPlanner.clip_label j -> i = j.
Proof.
  unfold MixPlanner.clip_label. intros E. apply str_int_inj.
  apply (append_cancel_l "a"). exact E.
Qed.

(** The input reference of a clip is never its output reference. *)
Lemma input_ref_is_not_output_ref (index : Z) :
  ("[" ++ str_int (index + 1) ++ ":a]"
     =? "[" ++ MixPlanner.clip_label index ++ "]")%string = false.
Proof.
  apply String.eqb_neq. unfold MixPlanner.clip_label. intros E.
  destruct (str_int_head (index + 1)) as (c & rest & Ec & Nc).
  rewrite Ec in E. cbn [append] in E. inversion E. contradiction.
Qed.

(** Nor is an intermediate label. *)
Lemma flt_ref_is_not_output_ref (output_label tail : string) :
  ("[" ++ (output_label ++ "_" ++ tail) ++ "]"
     =? "[" ++ output_label ++ "]")%string = false.
Proof.
  apply String.eqb_neq. intros E. cbn [append] in E. inversion E as [E'].
  rewrite append_assoc in E'. apply append_cancel_l in E'.
  cbn [append] in E'. discriminate E'.
Qed.

Section ChainFacts.
Context {F : Type} `{PyFloat F} `{PyRuntime F}.

Lemma apply_filter_open (index : Z) (expr : string) (st : MixPlanner.chain) :
  ref_open index (MixPlanner.apply_filter (MixPlanner.clip_label index) expr st).
Proof.
  unfold ref_open, MixPlanner.apply_filter, MixPlanner.next_label.
  cbn [MixPlanner.current_ref]. apply flt_ref_is_not_output_ref.
Qed.

(** C10, first half: a clip chain that is built ends in an [anull] fragment
    that renames the last reference to the label of the chain. *)
Lemma build_clip_filters_ends_in_anull index clip s w label filters w' :
  MixPlanner._build_clip_filters index clip s w = (Some (label, filters), w') ->
  label = MixPlanner.clip_label index /\
  exists before source,
    filters = before +++ [source ++ "anull[" ++ MixPlanner.clip_label index ++ "]"].
Proof.
  unfold MixPlanner._build_clip_filters. intros E.
  apply bind_some in E as (source_offset & w1 & _ & E).
  set (st0 := MixPlanner.mk_chain [] ("[" ++ str_int (index + 1) ++ ":a]") 0) in E.
  assert (O0 : ref_open index st0) by apply input_ref_is_not_output_ref.
  set (st1 := if (source_offset >? f0)%py then _ else st0) in E.
  assert (O1 : ref_open index st1).
  { subst st1. destruct (source_offset >? f0)%py;
      [apply apply_filter_open | exact O0]. }
  set (st2 := if AudioCategory_eqb (AudioClip.category clip) MUSIC
              then _ else st1) in E.
  assert (O2 : ref_open index st2).
  { subst st2. destruct (AudioCategory_eqb _ _); [|exact O1].
    destruct (MixPlanner._music_length_trim s) as [trim|]; [|exact O1].
    destruct (trim =? "")%string; [exact O1 | apply apply_filter_open]. }
  apply bind_some in E as (st3 & w2 & E3 & E).
  assert (O3 : ref_open index st3).
  { destruct (_ >? f0)%py in E3.
    - apply bind_some in E3 as (ms & w3 & _ & E3).
      apply ret_some in E3 as [<- _]. apply apply_filter_open.
    - apply ret_some in E3 as [<- _]. exact O2. }
  apply ret_some in E as [E _].
  pair_eq E El Ef. subst label filters.
  split; [reflexivity|].
  unfold ref_open in O3. rewrite O3. cbn [negb].
  exists (MixPlanner.filters st3), (MixPlanner.current_ref st3). reflexivity.
Qed.

(** The loop hands one input and one label to the plan for every clip and
    at least one fragment for every clip. *)
Lemma clip_loop_counts s clips :
  forall index acc w acc' w',
    MixPlanner.clip_loop s index clips acc w = (Some acc', w') ->
    MixPlanner.t_inputs acc'
      = MixPlanner.t_inputs acc +++ map (@AudioClip.file_path F) clips /\
    (List.length (MixPlanner.t_filters acc) + List.length clips
       <= List.length (MixPlanner.t_filters acc'))%nat /\
    List.length (MixPlanner.t_outputs acc')
      = (List.length (MixPlanner.t_outputs acc) + List.length clips)%nat.
Proof.
  induction clips as [|c clips IH]; intros index acc w acc' w' E;
    cbn [MixPlanner.clip_loop] in E.
  - apply ret_some in E as [<- _]. cbn [map List.length].
    rewrite app_nil_r, !Nat.add_0_r. repeat split. apply Nat.le_refl.
  - apply bind_some in E as ([label filters] & w1 & Ec & E).
    apply build_clip_filters_ends_in_anull in Ec as (_ & before & source & ->).
    apply IH in E as (Ei & Ef & Eo).
    cbn [MixPlanner.t_inputs MixPlanner.t_filters MixPlanner.t_outputs] in *.
    rewrite Ei, Eo, <- app_assoc. cbn [map List.length app].
    rewrite !length_app in *. cbn [List.length] in *.
    repeat split; lia.
Qed.
End ChainFacts.

(** ** The chain of the original soundtrack *)

Section OriginalChainFacts.
Context {F : Type} `{PyFloat F} `{PyRuntime F}.

Lemma build_original_filters_spec s w label filters w' :
  MixPlanner._build_original_filters s w = (Some (label, filters), w') ->
  label = "orig_audio" /\
  match lead_delay_ms s with
  | Some delay => exists ms, delay = Some ms /\ filters = original_chain (Some ms)
  | None => filters = original_chain None
  end.
Proof.
  unfold MixPlanner._build_original_filters, lead_delay_ms. intros E.
  apply bind_some in E as ([fs ref] & w1 & Ed & E).
  apply ret_some in E as [E _].
  pair_eq E El Ef. subst label filters.
  split; [reflexivity|].
  destruct (_ >? f0)%py.
  - apply bind_some in Ed as (ms & w2 & Ei & Ed).
    unfold lift_option in Ei. inversion Ei as [[Ems Ew]].
    apply ret_some in Ed as [Ed _].
    pair_eq Ed E1 E2. subst fs ref.
    exists ms. split; [exact Ems | reflexivity].
  - apply ret_some in Ed as [Ed _].
    pair_eq Ed E1 E2. subst fs ref. reflexivity.
Qed.

(** C7. A plan that [build_plan] returns has [include_original_audio] set
    exactly when [override_original] is off and the video has an audio
    stream.  Its filter list is the clip chains, then, exactly when the flag
    is set, the chain of the original soundtrack, then the mixing fragment,
    which reads [orig_audio] exactly when the flag is set.  The chain of the
    original soundtrack reads input 0, holds the [adelay] by the global lead
    only when the lead is positive, and ends in the [anull] that names
    [orig_audio]; it holds no [atrim] fragment. *)
Theorem C7_original_soundtrack_chain
    (s : MixSession.t F) (w w' : World) (p : MixPlan.t F) :
  MixPlanner.build_plan s w = (Some p, w') ->
  MixPlan.include_original_audio p
    = negb (TrackConfig.override_original (MixSession.config s))
      && VideoClip.has_audio (MixSession.video_clip s)
  /\ exists acc w1 chain,
       MixPlanner.clip_loop s 0 (MixSession.audio_clips s)
         (MixPlanner.mk_tracks [] [] []) w = (Some acc, w1)
       /\ MixPlan.audio_filters p
          = (MixPlanner.t_filters acc +++ chain)
              +++ mix_fragment
                    (MixPlanner.t_outputs acc
                       +++ (if MixPlan.include_original_audio p
                            then ["orig_audio"] else []))
                    (MixPlan.amix_normalize p)
       /\ (MixPlan.include_original_audio p = false -> chain = [])
       /\ (MixPlan.include_original_audio p = true ->
           match lead_delay_ms s with
           | Some delay =>
               exists ms, delay = Some ms /\ chain = original_chain (Some ms)
           | None => chain = original_chain None
           end).
Proof.
  intros E. destruct (build_plan_inv _ _ E) as (Hi & _ & _ & _ & Hrest).
  split; [exact Hi|].
  destruct Hrest as (acc & w1 & chain & labels & Eloop & Eorig & _ & Ef).
  exists acc, w1, chain. split; [exact Eloop|].
  destruct (MixPlan.include_original_audio p).
  - destruct Eorig as (label & w2 & Eo & ->).
    apply build_original_filters_spec in Eo as [-> Hc].
    split; [exact Ef|]. split; [discriminate|]. intros _. exact Hc.
  - destruct Eorig as [-> ->]. split; [exact Ef|].
    split; [reflexivity | discriminate].
Qed.

(** C10. In a plan that [build_plan] returns, every clip chain that is built
    ends in the [anull] fragment that renames its last reference to the
    label [a{index}], also when no trim, limit or delay came before, and
    the labels of distinct positions differ.  The plan has one audio input
    per clip and at least one filter per clip, so its filter list is not
    empty when its input list is not, and the final invocation of
    [_run_plan] then takes the branch with the filter graph: the branch that
    maps the first audio input directly is never taken. *)
Theorem C10_every_chain_ends_in_anull
    (s : MixSession.t F) (w w' : World) (p : MixPlan.t F) :
  MixPlanner.build_plan s w = (Some p, w') ->
  (forall index clip w1 label filters w2,
     MixPlanner._build_clip_filters index clip s w1
       = (Some (label, filters), w2) ->
     label = MixPlanner.clip_label index /\
     exists before source,
       filters
         = before +++ [source ++ "anull[" ++ MixPlanner.clip_label index ++ "]"])
  /\ (forall i j, MixPlanner.clip_label i = MixPlanner.clip_label j -> i = j)
  /\ MixPlan.audio_inputs p
     = map (@AudioClip.file_path F) (MixSession.audio_clips s)
  /\ (List.length (MixPlan.audio_inputs p)
        <= List.length (MixPlan.audio_filters p))%nat
  /\ (MixPlan.audio_inputs p <> [] -> MixPlan.audio_filters p <> [])
  /\ (forall video_input output_path,
        MixPlan.audio_inputs p <> [] ->
        TaskExecutor.final_command p video_input output_path
          = command_around map_video_and_mix p video_input output_path
        /\ mapping_with_any_input p <> map_video_and_first_audio).
Proof.
  intros E.
  split; [intros; eapply build_clip_filters_ends_in_anull; eassumption|].
  split; [exact clip_label_inj|].
  destruct (build_plan_inv _ _ E) as (_ & _ & _ & _ & Hrest).
  destruct Hrest as (acc & w1 & chain & labels & Eloop & _ & Ei & Ef).
  apply clip_loop_counts in Eloop as (Ein & Elen & _).
  cbn [MixPlanner.t_inputs MixPlanner.t_filters List.length app] in Ein, Elen.
  assert (Hlen : (List.length (MixPlan.audio_inputs p)
                    <= List.length (MixPlan.audio_filters p))%nat).
  { rewrite Ei, Ein, Ef, length_map, !length_app. lia. }
  assert (Hne : MixPlan.audio_inputs p <> [] -> MixPlan.audio_filters p <> []).
  { intros Hi Hf. rewrite Hf in Hlen.
    destruct (MixPlan.audio_inputs p); [contradiction | inversion Hlen]. }
  split; [rewrite Ei; exact Ein|].
  split; [exact Hlen|]. split; [exact Hne|].
  intros video_input output_path Hi. specialize (Hne Hi).
  rewrite final_command_around. unfold command_around, mapping_with_any_input.
  destruct (MixPlan.audio_filters p) as [|f fs]; [contradiction|].
  split; [reflexivity | discriminate].
Qed.
End OriginalChainFacts.

Section PlanExamples.
#[local] Existing Instance Toy.runtime.

Lemma scenario_a_is_planned :
  exists p w', MixPlanner.build_plan (@Toy.scenario_a Q exact) 0%Z = (Some p, w').
Proof. eexists. eexists. vm_compute. reflexivity. Defined.

(** C7 on scenario A: the original soundtrack takes part, with no lead its
    chain is the single [anull] fragment. *)
Lemma C7_original_soundtrack_chain_witness :
  exists p,
    Toy.plan_of Toy.scenario_a = Some p /\
    MixPlan.include_original_audio p = true /\
    In "[0:a]anull[orig_audio]" (MixPlan.audio_filters p).
Proof.
  destruct scenario_a_is_planned as (p & w' & E).
  destruct (C7_original_soundtrack_chain _ _ E)
    as (Hi & acc & w1 & chain & _ & Ef & _ & Hc).
  exists p. split; [unfold Toy.plan_of; rewrite E; reflexivity|].
  split; [rewrite Hi; reflexivity|].
  rewrite Ef. apply in_or_app. left. apply in_or_app. right.
  rewrite (Hc Hi). left. reflexivity.
Defined.

(** C10 on scenario A: one clip, and a filter list that is not empty. *)
Lemma C10_every_chain_ends_in_anull_witness :
  exists p,
    Toy.plan_of Toy.scenario_a = Some p /\
    MixPlan.audio_inputs p = ["se.wav"] /\
    MixPlan.audio_filters p <> [].
Proof.
  destruct scenario_a_is_planned as (p & w' & E).
  destruct (C10_every_chain_ends_in_anull _ _ E)
    as (_ & _ & Hi & _ & Hne & _).
  exists p. split; [unfold Toy.plan_of; rewrite E; reflexivity|].
  split; [exact Hi|]. apply Hne. rewrite Hi. discriminate.
Defined.
End PlanExamples.

(** ** Determinism under a seed *)

Section SeedFacts.
Context {F : Type} `{PyFloat F} `{PyRuntime F}.

Lemma bind_eval {A B : Type} (m : M A) (k : A -> M B) (r : option A) :
  (forall w, m w = (r, w)) ->
  forall w, bind m k w = match r with
                         | Some a => k a w
                         | None => (None, w)
                         end.
Proof. intros Hm w. unfold bind. rewrite Hm. destruct r; reflexivity. Qed.

Lemma random_music_offset_world_free clip s seed :
  TrackConfig.music_random_seed (MixSession.config s) = Some seed ->
  world_free (MixPlanner._random_music_offset clip s).
Proof.
  intros Es. unfold MixPlanner._random_music_offset.
  destruct (_ || _); [apply world_free_ret|].
  destruct (_ <=? _)%py; [apply world_free_ret|].
  rewrite Es. cbn [MixPlanner.make_rng].
  apply world_free_bind; [apply world_free_ret|].
  intros rng. apply world_free_ret.
Qed.

Lemma build_clip_filters_world_free index clip s seed :
  TrackConfig.music_random_seed (MixSession.config s) = Some seed ->
  world_free (MixPlanner._build_clip_filters index clip s).
Proof.
  intros Es. unfold MixPlanner._build_clip_filters.
  apply world_free_bind.
  - destruct (AudioCategory_eqb _ _); [|apply world_free_ret].
    destruct (TrackConfig.music_random_enabled _); [|apply world_free_ret].
    apply world_free_bind;
      [apply (random_music_offset_world_free _ _ Es)|].
    intros r. apply world_free_ret.
  - intros source_offset. apply world_free_bind.
    + destruct (_ >? _)%py; [|apply world_free_ret].
      apply world_free_bind; [apply world_free_lift_option|].
      intros ms. apply world_free_ret.
    + intros st3. apply world_free_ret.
Qed.

Lemma clip_loop_world_free s seed clips :
  TrackConfig.music_random_seed (MixSession.config s) = Some seed ->
  forall index acc, world_free (MixPlanner.clip_loop s index clips acc).
Proof.
  intros Es. induction clips as [|c clips IH]; intros index acc;
    cbn [MixPlanner.clip_loop]; [apply world_free_ret|].
  apply world_free_bind; [apply (build_clip_filters_world_free _ _ _ Es)|].
  intros [label filters]. apply IH.
Qed.

Lemma build_original_filters_world_free s :
  world_free (MixPlanner._build_original_filters s).
Proof.
  unfold MixPlanner._build_original_filters.
  apply world_free_bind.
  - destruct (_ >? _)%py; [|apply world_free_ret].
    apply world_free_bind; [apply world_free_lift_option|].
    intros ms. apply world_free_ret.
  - intros [filters current_ref]. apply world_free_ret.
Qed.

(** C5. With a seed in the configuration the filter-chain text of the plan
    does not depend on the entropy the interpreter holds when [build_plan]
    is called: two calls on the same session, whatever the hidden state at
    either call, give the same [audio_filters], or both raise. *)
Theorem C5_seeded_plan_text_is_deterministic
    (s : MixSession.t F) (seed : Z) (w1 w2 : World) :
  TrackConfig.music_random_seed (MixSession.config s) = Some seed ->
  option_map (@MixPlan.audio_filters F) (fst (MixPlanner.build_plan s w1))
    = option_map (@MixPlan.audio_filters F) (fst (MixPlanner.build_plan s w2)).
Proof.
  intros Es. unfold MixPlanner.build_plan.
  destruct (clip_loop_world_free s (MixSession.audio_clips s) Es 0
              (MixPlanner.mk_tracks [] [] [])) as [r1 H1].
  rewrite !(bind_eval _ _ H1).
  destruct r1 as [acc|]; [|reflexivity].
  assert (Ho : world_free
            (if negb (TrackConfig.override_original (MixSession.config s))
                && VideoClip.has_audio (MixSession.video_clip s)
             then
               bind (MixPlanner._build_original_filters s)
                 (fun x => let (final_label, filters) := x in
                    ret (MixPlanner.mk_tracks (MixPlanner.t_inputs acc)
                           (MixPlanner.t_filters acc +++ filters)
                           (MixPlanner.t_outputs acc +++ [final_label])))
             else ret acc)).
  { destruct (_ && _); [|apply world_free_ret].
    apply world_free_bind; [apply build_original_filters_world_free|].
    intros [label filters]. apply world_free_ret. }
  destruct Ho as [r2 H2].
  rewrite !(bind_eval _ _ H2).
  destruct r2 as [acc'|]; [|reflexivity].
  destruct (MixSession.black_extension_duration s >? f0)%py.
  - unfold bind, lift_world, ret.
    destruct (uuid4_hex w1) as [t1 w1']. destruct (uuid4_hex w2) as [t2 w2'].
    reflexivity.
  - reflexivity.
Qed.
End SeedFacts.

Section SeedExamples.
#[local] Existing Instance Toy.runtime.

(** C5 on a session with random music start and seed 1, planned with two
    different states of the entropy pool. *)
Lemma C5_seeded_plan_text_is_deterministic_witness :
  option_map (@MixPlan.audio_filters Q)
    (fst (MixPlanner.build_plan (Toy.music_session 3) 0%Z))
  = option_map (@MixPlan.audio_filters Q)
      (fst (MixPlanner.build_plan (Toy.music_session 3) 7%Z)).
Proof.
  apply (C5_seeded_plan_text_is_deterministic (Toy.music_session 3) (seed := 1%Z)).
  reflexivity.
Defined.

(** Without a seed the text follows the entropy. *)
Example unseeded_plan_text_follows_entropy :
  let s := Toy.session (Toy.video 5 25) [Toy.music] (Toy.config None 3 true) in
  option_map (@MixPlan.audio_filters Q) (fst (MixPlanner.build_plan s 1%Z))
  <> option_map (@MixPlan.audio_filters Q) (fst (MixPlanner.build_plan s 2%Z)).
Proof. vm_compute. discriminate. Qed.
End SeedExamples.

(** ** The random start of the music *)

Section DrawFacts.
Context {F : Type} `{PyFloat F} `{PyRuntime F}.

Lemma draws_length (k : nat) :
  forall rng max_start, List.length (draws k rng max_start) = k.
Proof.
  induction k as [|k IH]; intros rng max_start; cbn [draws]; [reflexivity|].
  destruct (rng_uniform rng f0 max_start) as [c rng'].
  cbn [List.length]. rewrite IH. reflexivity.
Qed.

Lemma last_cons_default {A : Type} (l : list A) :
  forall c d : A, last (c :: l) d = last l c.
Proof.
  induction l as [|x l IH]; intros c d; [reflexivity|].
  change (last (c :: x :: l) d) with (last (x :: l) d).
  rewrite (IH x d), (IH x c). reflexivity.
Qed.

(** The loop keeps the last draw and nothing of the earlier ones. *)
Lemma retry_loop_keeps_last (k : nat) :
  forall rng max_start best,
    fst (MixPlanner.retry_loop k rng max_start best)
    = last (draws k rng max_start) best.
Proof.
  induction k as [|k IH]; intros rng max_start best;
    cbn [MixPlanner.retry_loop draws]; [reflexivity|].
  destruct (rng_uniform rng f0 max_start) as [c rng'].
  rewrite IH. symmetry. apply last_cons_default.
Qed.

Lemma draws_in_range (k : nat) :
  uniform_in_range ->
  forall rng max_start x, (f0 <=? max_start)%py = true ->
    In x (draws k rng max_start) ->
    (f0 <=? x)%py = true /\ (x <=? max_start)%py = true.
Proof.
  intros U. induction k as [|k IH]; intros rng max_start x L HIn;
    cbn [draws] in HIn; [destruct HIn|].
  pose proof (U rng f0 max_start L) as Hr.
  destruct (rng_uniform rng f0 max_start) as [c rng'].
  destruct HIn as [<-|HIn]; [exact Hr|].
  exact (IH rng' max_start x L HIn).
Qed.
End DrawFacts.

Lemma last_in {A : Type} (l : list A) (d : A) : l <> [] -> In (last l d) l.
Proof.
  induction l as [|x l IH]; intros N; [contradiction|].
  destruct l as [|y l]; [left; reflexivity|].
  right. apply IH. discriminate.
Qed.

Section ExactDraws.
Context {R : PyRuntime Q}.
Local Open Scope Q_scope.

Lemma make_rng_returns (seed : option Z) (w : World) :
  exists rng w', MixPlanner.make_rng seed w = (Some rng, w').
Proof. exact (make_rng_succeeds seed w). Qed.

(** The idealisation: in exact arithmetic, for a clip of [D] seconds over a
    video of [V] seconds: when [D <= V] or [V <= 0] the offset is 0 and no
    generator is made; when [0 < V < D] the generator made from the
    configured seed is asked for [uniform(0, D - V)] exactly
    [max(music_retry_limit, 1)] times, and the offset is the last of these
    draws; and with a generator whose [uniform(a, b)] stays within [[a, b]]
    the offset lies in [[0, max(0, D - V)]]. *)
Lemma exact_random_offset_is_last_draw
    (s : MixSession.t Q) (clip : AudioClip.t Q) (w : World) :
  let V := VideoClip.duration_seconds (MixSession.video_clip s) in
  let D := AudioClip.duration_seconds clip in
  let limit := TrackConfig.music_retry_limit (MixSession.config s) in
  let seed := TrackConfig.music_random_seed (MixSession.config s) in
  let attempts := Z.to_nat (Z.max limit 1) in
  uniform_in_range ->
  (D <= V \/ V <= 0 ->
   MixPlanner._random_music_offset clip s w = (Some 0, w))
  /\ (0 < V -> V < D ->
      exists rng w',
        MixPlanner.make_rng seed w = (Some rng, w')
        /\ MixPlanner._random_music_offset clip s w
           = (Some (last (draws attempts rng (D - V)) 0), w')
        /\ List.length (draws attempts rng (D - V)) = attempts
        /\ (1 <= attempts)%nat
        /\ ((1 <= limit)%Z -> Z.of_nat attempts = limit))
  /\ (exists x w',
        MixPlanner._random_music_offset clip s w = (Some x, w')
        /\ 0 <= x /\ x <= py_max 0 (D - V)).
Proof.
  intros V D limit seed attempts U.
  assert (Hzero : D <= V \/ V <= 0 ->
                  MixPlanner._random_music_offset clip s w = (Some 0, w)).
  { intros Hc. unfold MixPlanner._random_music_offset. fold V D.
    destruct (V <=? f0)%py eqn:EV; [reflexivity|].
    apply exact_le_false in EV. rewrite exact_f0 in EV.
    destruct Hc as [Hc|Hc]; [|exfalso; lra].
    destruct (py_max D f0 <=? f0)%py eqn:ET; [reflexivity|].
    apply exact_le_false in ET. cbn [orb].
    assert (ED : py_max D f0 = D).
    { destruct (py_max_exact D f0) as [[_ E]|[_ E]]; [|exact E].
      exfalso. rewrite E in ET. rewrite exact_f0 in ET. lra. }
    rewrite ED.
    assert (EM : (py_max (D - V)%py f0 <=? f0)%py = true).
    { apply exact_le_true.
      destruct (py_max_exact (D - V)%py f0) as [[_ ->]|[_ ->]];
        cbn [fsub exact]; rewrite ?exact_f0; lra. }
    rewrite EM. reflexivity. }
  assert (Hdraw : 0 < V -> V < D ->
            exists rng w',
              MixPlanner.make_rng seed w = (Some rng, w')
              /\ MixPlanner._random_music_offset clip s w
                 = (Some (last (draws attempts rng (D - V)) 0), w')
              /\ List.length (draws attempts rng (D - V)) = attempts
              /\ (1 <= attempts)%nat
              /\ ((1 <= limit)%Z -> Z.of_nat attempts = limit)).
  { intros PV PD.
    destruct (make_rng_returns seed w) as (rng & w' & Erng).
    exists rng, w'. split; [exact Erng|].
    split; [|split; [apply draws_length|split; [lia|lia]]].
    unfold MixPlanner._random_music_offset. fold V D limit seed.
    assert (EV : (V <=? f0)%py = false)
      by (apply exact_le_false; rewrite exact_f0; exact PV).
    assert (ED : py_max D f0 = D).
    { destruct (py_max_exact D f0) as [[L _]|[_ E]]; [|exact E].
      exfalso. rewrite exact_f0 in L. lra. }
    assert (ET : (D <=? f0)%py = false)
      by (apply exact_le_false; rewrite exact_f0; lra).
    assert (EM : py_max (D - V)%py f0 = D - V).
    { destruct (py_max_exact (D - V)%py f0) as [[L _]|[_ E]]; [|exact E].
      exfalso. cbn [fsub exact] in L. rewrite exact_f0 in L. lra. }
    rewrite EV, ED, ET. cbn [orb]. rewrite EM.
    assert (EL : ((D - V)%Q <=? f0)%py = false)
      by (apply exact_le_false; rewrite exact_f0; lra).
    rewrite EL. unfold bind. rewrite Erng. unfold ret.
    rewrite retry_loop_keeps_last. reflexivity. }
  split; [exact Hzero|]. split; [exact Hdraw|].
  destruct (Qlt_le_dec 0 V) as [PV|NV];
    [destruct (Qlt_le_dec V D) as [PD|ND]|].
  - destruct (Hdraw PV PD) as (rng & w' & _ & E & Hlen & Hpos & _).
    exists (last (draws attempts rng (D - V)) 0), w'.
    split; [exact E|].
    assert (L0 : (f0 <=? (D - V)%Q)%py = true)
      by (apply exact_le_true; rewrite exact_f0; lra).
    assert (HIn : In (last (draws attempts rng (D - V)) 0)
                     (draws attempts rng (D - V))).
    { apply last_in. intros N. rewrite N in Hlen. cbn in Hlen. lia. }
    destruct (draws_in_range attempts U rng (D - V) _ L0 HIn) as [G1 G2].
    apply exact_le_true in G1, G2. rewrite exact_f0 in G1.
    split; [exact G1|].
    eapply Qle_trans; [exact G2 | apply py_max_exact_r].
  - exists 0, w. split; [apply Hzero; left; exact ND|].
    split; [lra | apply py_max_exact_l].
  - exists 0, w. split; [apply Hzero; right; exact NV|].
    split; [lra | apply py_max_exact_l].
Qed.
End ExactDraws.

Section DrawExamples.
#[local] Existing Instance Toy.runtime.
Local Open Scope Q_scope.

Lemma toy_uniform_in_range : @uniform_in_range Q exact Toy.runtime.
Proof.
  intros rng a b L. apply exact_le_true in L.
  cbn [rng_uniform Toy.runtime Toy.uniform fst].
  pose proof (Z.mod_pos_bound rng 4 eq_refl) as [B0 B1].
  set (m := (rng mod 4)%Z) in *.
  assert (U0 : 0 <= m # 4) by (unfold Qle; cbn; lia).
  assert (U1 : m # 4 <= 1) by (unfold Qle; cbn; lia).
  split; apply exact_le_true; nra.
Qed.

(** Ten seconds of music over a five second video with a retry limit of
    3, in exact arithmetic: an offset between 0 and 5 seconds. *)
Example music_offset_exact :
  exists x w',
    @MixPlanner._random_music_offset Q exact Toy.runtime Toy.music
      (Toy.music_session 3) 0%Z
      = (Some x, w')
    /\ 0 <= x /\ x <= 5.
Proof.
  destruct (@exact_random_offset_is_last_draw Toy.runtime (Toy.music_session 3)
              Toy.music 0%Z toy_uniform_in_range) as (_ & _ & (x & w' & E & L & U)).
  exists x, w'. split; [exact E|]. split; [exact L|].
  eapply Qle_trans; [exact U|]. vm_compute. discriminate.
Qed.

(** With a retry limit of 0 the generator is still asked once, in exact
    arithmetic as well: the offset is that draw, 5/4 s. *)
Example retry_limit_zero_draws_once_exact :
  let s := Toy.music_session 0 in
  let max_start :=
    py_max 0 (AudioClip.duration_seconds (@Toy.music Q exact)
              - VideoClip.duration_seconds (MixSession.video_clip s)) in
  ~ exists k : nat,
      (Z.of_nat k <= TrackConfig.music_retry_limit (MixSession.config s))%Z
      /\ fst (@MixPlanner._random_music_offset Q exact Toy.runtime Toy.music s 0%Z)
         = Some (last (@draws Q exact Toy.runtime k (Random_seeded 1) max_start) 0).
Proof.
  intros s max_start (k & Hk & E).
  assert (K : k = 0%nat) by (cbn in Hk; lia). subst k.
  vm_compute in E. discriminate E.
Qed.
End DrawExamples.

(** *** With laws: where the offset is drawn *)

Section DrawLaws.
Context {F : Type} `{PyFloat F} `{PyRuntime F}.
Hypothesis laws : float_laws.




End DrawLaws.

(** ** The random start in binary64 *)

Section Binary64Draws.
Context {R : PyRuntime float}.

End Binary64Draws.

Section Binary64DrawExamples.
#[local] Existing Instance Toy.runtime64.



End Binary64DrawExamples.

(** ** Outcomes of the batch script *)

Section ScriptFacts.
Context {F : Type} `{PyFloat F}.
Variable host : @A3.Host F.

Lemma run_ffmpeg_command_spec (command_list : list string) (tr : A3.trace) :
  A3.run_ffmpeg_command host command_list tr
  = (negb (run_failed host (A3.ffmpeg_command_line command_list)),
     tr +++ [A3.ffmpeg_command_line command_list]).
Proof.
  unfold A3.run_ffmpeg_command, A3.run_command, run_failed.
  destruct (A3.popen host _) as [rc out err|]; [|reflexivity].
  rewrite negb_involutive. reflexivity.
Qed.

Lemma run_ffprobe_spec input_file show_entries stream_type stream_index
    format_option (tr : A3.trace) :
  exists answer cmd,
    A3.run_ffprobe host input_file show_entries stream_type stream_index
      format_option tr = (answer, tr +++ [cmd])
    /\ ~ is_ffmpeg cmd.
Proof.
  unfold A3.run_ffprobe, A3.run_command.
  destruct (A3.popen host _) as [rc out err|];
    [destruct (rc =? 0)%Z|];
    eexists; eexists; (split; [reflexivity | discriminate]).
Qed.

Lemma blames_failed (commands : A3.trace) : blames host A3.failed commands.
Proof. intros cmd _ _ _. reflexivity. Qed.

Lemma blames_app (st : A3.status) (l1 l2 : A3.trace) :
  blames host st l1 -> blames host st l2 -> blames host st (l1 +++ l2).
Proof.
  intros B1 B2 cmd HIn. apply in_app_or in HIn as [HIn|HIn];
    [apply B1 | apply B2]; exact HIn.
Qed.

Lemma blames_probe (st : A3.status) (cmd : list string) :
  ~ is_ffmpeg cmd -> blames host st [cmd].
Proof. intros N c [<-|[]] I. contradiction. Qed.

Lemma blames_passed (st : A3.status) (cmd : list string) :
  run_failed host cmd = false -> blames host st [cmd].
Proof. intros P c [<-|[]] _ E. congruence. Qed.

Lemma stage_ok_failed (tr : A3.trace) (commands : A3.trace) :
  stage_ok host tr (A3.failed, tr +++ commands).
Proof.
  exists commands. split; [reflexivity|].
  split; [apply blames_failed | discriminate].
Qed.

Lemma stage_ok_prefix (tr : A3.trace) (pre : A3.trace) result :
  blames host (fst result) pre ->
  stage_ok host (tr +++ pre) result -> stage_ok host tr result.
Proof.
  intros Bp (commands & Et & Bc & Ns). exists (pre +++ commands).
  split; [rewrite Et, app_assoc; reflexivity|].
  split; [apply blames_app; assumption | exact Ns].
Qed.

Lemma final_merge_ok abs_video_file combined output_file temp_concat_video
    original_audio_exists (tr : A3.trace) :
  stage_ok host tr
    (A3.final_merge host abs_video_file combined output_file
       temp_concat_video original_audio_exists tr).
Proof.
  unfold A3.final_merge. rewrite run_ffmpeg_command_spec.
  set (cmd := A3.ffmpeg_command_line _).
  destruct (run_failed host cmd) eqn:Ef; cbn [negb].
  - apply stage_ok_failed.
  - destruct (run_ffprobe_spec output_file "format=duration" "v" 0
                A3.default_format (tr +++ [cmd])) as (answer & probe & -> & Np).
    exists ([cmd] +++ [probe]). cbn [fst snd].
    split; [rewrite <- app_assoc; reflexivity|].
    split; [|discriminate].
    apply blames_app; [apply blames_passed; exact Ef | apply blames_probe; exact Np].
Qed.

Lemma extend_and_merge_ok video_name abs_mix_dir abs_video_file combined
    output_file duration_diff original_audio_exists (tr : A3.trace) :
  stage_ok host tr
    (A3.extend_and_merge host video_name abs_mix_dir abs_video_file combined
       output_file duration_diff original_audio_exists tr).
Proof.
  unfold A3.extend_and_merge.
  destruct (run_ffprobe_spec abs_video_file "stream=width" "v" 0 "csv=p=0" tr)
    as (width & p1 & -> & N1).
  destruct (run_ffprobe_spec abs_video_file "stream=height" "v" 0 "csv=p=0"
              (tr +++ [p1])) as (height & p2 & -> & N2).
  destruct (run_ffprobe_spec abs_video_file "stream=r_frame_rate" "v" 0
              A3.default_format ((tr +++ [p1]) +++ [p2]))
    as (rate & p3 & -> & N3).
  assert (Bp : forall st, blames host st (([p1] +++ [p2]) +++ [p3]))
    by (intros st; repeat apply blames_app; apply blames_probe; assumption).
  replace (((tr +++ [p1]) +++ [p2]) +++ [p3])
    with (tr +++ (([p1] +++ [p2]) +++ [p3]))
    by (rewrite !app_assoc; reflexivity).
  set (probes := ([p1] +++ [p2]) +++ [p3]) in *.
  destruct width as [width|]; [|apply stage_ok_failed].
  destruct height as [height|]; [|apply stage_ok_failed].
  destruct rate as [rate|]; [|apply stage_ok_failed].
  destruct (A3.parse_int host width) as [video_width|]; [|apply stage_ok_failed].
  destruct (A3.parse_int host height) as [video_height|];
    [|apply stage_ok_failed].
  destruct ((video_width <=? 0)%Z || (video_height <=? 0)%Z);
    [apply stage_ok_failed|].
  destruct (A3.parse_frame_rate host rate) as [video_fps|];
    [|apply stage_ok_failed].
  destruct (video_fps <=? f0)%py; [apply stage_ok_failed|].
  rewrite run_ffmpeg_command_spec.
  set (black := A3.ffmpeg_command_line _).
  destruct (run_failed host black) eqn:Eb; cbn [negb].
  { rewrite <- app_assoc. apply stage_ok_failed. }
  destruct (A3.list_file_writable host); cbn [negb].
  2:{ rewrite <- app_assoc. apply stage_ok_failed. }
  rewrite run_ffmpeg_command_spec.
  set (concat := A3.ffmpeg_command_line _).
  destruct (run_failed host concat) eqn:Ec; cbn [negb].
  { rewrite <- !app_assoc. apply stage_ok_failed. }
  apply stage_ok_prefix with (pre := (probes +++ [black]) +++ [concat]).
  - apply blames_app;
      [apply blames_app; [apply Bp | apply blames_passed; exact Eb]
      | apply blames_passed; exact Ec].
  - rewrite !app_assoc. apply final_merge_ok.
Qed.

Lemma probe_and_merge_ok video_name abs_mix_dir abs_video_file combined
    output_file (tr : A3.trace) :
  stage_ok host tr
    (A3.probe_and_merge host video_name abs_mix_dir abs_video_file combined
       output_file tr).
Proof.
  unfold A3.probe_and_merge.
  destruct (run_ffprobe_spec abs_video_file "format=duration" "v" 0
              A3.default_format tr) as (video & p1 & -> & N1).
  destruct (run_ffprobe_spec abs_video_file "format=duration" "a" 0
              A3.default_format (tr +++ [p1])) as (original & p2 & -> & N2).
  destruct (run_ffprobe_spec combined "format=duration" "a" 0
              A3.default_format ((tr +++ [p1]) +++ [p2]))
    as (external & p3 & -> & N3).
  assert (Bp : forall st, blames host st (([p1] +++ [p2]) +++ [p3]))
    by (intros st; repeat apply blames_app; apply blames_probe; assumption).
  replace (((tr +++ [p1]) +++ [p2]) +++ [p3])
    with (tr +++ (([p1] +++ [p2]) +++ [p3]))
    by (rewrite !app_assoc; reflexivity).
  set (probes := ([p1] +++ [p2]) +++ [p3]) in *.
  destruct video as [video|]; [|apply stage_ok_failed].
  destruct external as [external|]; [|apply stage_ok_failed].
  destruct (A3.parse_float host video) as [video_duration|];
    [|apply stage_ok_failed].
  destruct (A3.parse_float host external) as [external_duration|];
    [|apply stage_ok_failed].
  destruct (_ >? _)%py.
  - apply stage_ok_prefix with (pre := probes);
      [apply Bp | apply extend_and_merge_ok].
  - apply stage_ok_prefix with (pre := probes);
      [apply Bp | apply final_merge_ok].
Qed.

(** What [find_and_mix_audio] answers, by what was matched. *)
Lemma find_and_mix_audio_spec video_name audio_dir temp_dir :
  A3.find_and_mix_audio host video_name audio_dir temp_dir []
  = match A3.matching_files host (A3.abspath host audio_dir)
            (video_name ++ ".wav") with
    | None => ((None, None), [])
    | Some [] => ((None, None), [])
    | Some [only] => ((Some only, None), [])
    | Some matching_audios =>
        let temp := A3.temp_combined_path host video_name temp_dir in
        let cmd := A3.ffmpeg_command_line (A3.mix_command matching_audios temp) in
        if run_failed host cmd then ((None, None), [cmd])
        else ((Some temp, Some temp), [cmd])
    end.
Proof.
  unfold A3.find_and_mix_audio.
  destruct (A3.matching_files host _ _) as [[|a [|b rest]]|]; try reflexivity.
  rewrite run_ffmpeg_command_spec. cbn [app].
  destruct (run_failed host _); reflexivity.
Qed.

(** C4, amended. [process_video_task] answers [skipped] exactly when no
    external audio could be prepared: the audio directory is missing or
    unreadable or holds no matching file, and then no external command was
    run, or two or more files matched and their pre-mix, the only command
    run, failed.  Every other failed ffmpeg invocation (black clip,
    concatenation, final merge) makes the job [failed]. *)
Theorem C4_skipped_or_failed (video_file : string) :
  let st := fst (A3.process_video_task host video_file) in
  let tr := snd (A3.process_video_task host video_file) in
  let matched := matched_audio host video_file in
  (matched = None \/ matched = Some [] -> st = A3.skipped /\ tr = [])
  /\ (forall audios,
        matched = Some audios -> (2 <= List.length audios)%nat ->
        run_failed host (premix_command_line host video_file audios) = true ->
        st = A3.skipped
        /\ tr = [premix_command_line host video_file audios])
  /\ (st = A3.skipped ->
      (matched = None \/ matched = Some []) \/
      exists audios,
        matched = Some audios /\ (2 <= List.length audios)%nat
        /\ run_failed host (premix_command_line host video_file audios) = true)
  /\ (forall cmd,
        In cmd tr -> is_ffmpeg cmd -> run_failed host cmd = true ->
        st = A3.failed \/ (st = A3.skipped /\ tr = [cmd])).
Proof.
  intros st tr matched. subst st tr.
  unfold A3.process_video_task. rewrite find_and_mix_audio_spec.
  unfold matched_audio in matched. fold matched.
  unfold premix_command_line.
  set (video_name := A3.splitext_root host (A3.basename host video_file)) in *.
  set (abs_mix_dir := A3.abspath host A3.OUTPUT_MIX_DIR) in *.
  set (output_file := A3.os_path_join host abs_mix_dir _).
  set (abs_video_file := A3.abspath host video_file).
  destruct matched as [[|a [|b rest]]|] eqn:Em.
  - (* no matching file *)
    cbn [fst snd]. split; [|split; [|split]].
    + intros _. split; reflexivity.
    + intros audios E L. inversion E; subst audios. cbn in L. lia.
    + intros _. left. right. reflexivity.
    + intros cmd [].
  - (* one matching file: no pre-mix *)
    pose proof (probe_and_merge_ok video_name abs_mix_dir abs_video_file a
                  output_file []) as (commands & Et & Bc & Ns).
    cbn [app] in Et. split; [|split; [|split]].
    + intros [E|E]; discriminate E.
    + intros audios E L. inversion E; subst audios. cbn in L. lia.
    + intros Es. contradiction.
    + intros cmd HIn If Ef. left. rewrite Et in HIn.
      exact (Bc cmd HIn If Ef).
  - (* several matching files: pre-mix *)
    cbv zeta.
    set (temp := A3.temp_combined_path host video_name abs_mix_dir).
    set (premix := A3.ffmpeg_command_line (A3.mix_command (a :: b :: rest) temp)).
    destruct (run_failed host premix) eqn:Ep.
    + cbn [fst snd]. split; [|split; [|split]].
      * intros [E|E]; discriminate E.
      * intros audios E _ _. inversion E; subst audios. split; reflexivity.
      * intros _. right. exists (a :: b :: rest).
        split; [reflexivity|]. split; [cbn; lia | exact Ep].
      * intros cmd [<-|[]] _ _. right. split; reflexivity.
    + pose proof (probe_and_merge_ok video_name abs_mix_dir abs_video_file temp
                    output_file [premix]) as (commands & Et & Bc & Ns).
      split; [|split; [|split]].
      * intros [E|E]; discriminate E.
      * intros audios E _ Ef. inversion E; subst audios.
        fold temp premix in Ef. congruence.
      * intros Es. contradiction.
      * intros cmd HIn If Ef. left. rewrite Et in HIn.
        destruct HIn as [<-|HIn]; [congruence|].
        exact (Bc cmd HIn If Ef).
  - (* the directory is missing or could not be listed *)
    cbn [fst snd]. split; [|split; [|split]].
    + intros _. split; reflexivity.
    + intros audios E. discriminate E.
    + intros _. left. left. reflexivity.
    + intros cmd [].
Qed.
End ScriptFacts.

(** C4 as the specification words it fails on a host where two audio files
    match and the pre-mix exits with code 1: an external tool was run and
    failed, and the job is [skipped], not [failed]. *)
Lemma C4_counterexample :
  A3.process_video_task Toy.failing_host "demo.mp4"
    = (A3.skipped,
       [premix_command_line Toy.failing_host "demo.mp4"
          ["~audio/a1_demo.wav"; "~audio/a2_demo.wav"]])
  /\ is_ffmpeg
       (premix_command_line Toy.failing_host "demo.mp4"
          ["~audio/a1_demo.wav"; "~audio/a2_demo.wav"])
  /\ run_failed Toy.failing_host
       (premix_command_line Toy.failing_host "demo.mp4"
          ["~audio/a1_demo.wav"; "~audio/a2_demo.wav"]) = true
  /\ A3.process_video_task Toy.silent_host "demo.mp4" = (A3.skipped, []).
Proof. repeat split; vm_compute; reflexivity. Qed.


(** * Further properties of the planner *)

Lemma linked_app (a b c : string) (l1 l2 : list string) :
  linked a l1 b -> linked b l2 c -> linked a (l1 +++ l2) c.
Proof.
  revert a. induction l1 as [|f l1 IH]; intros a L1 L2; cbn [linked app] in *.
  - subst b. exact L2.
  - destruct L1 as (expr & label & Ef & L1).
    exists expr, label. split; [exact Ef | exact (IH _ L1 L2)].
Qed.

Section ChainShape.
Context {F : Type} `{PyFloat F} `{PyRuntime F}.

Lemma apply_filter_chain_ok index bound expr st :
  chain_ok index bound st ->
  chain_ok index (S bound)
    (MixPlanner.apply_filter (MixPlanner.clip_label index) expr st).
Proof.
  intros (L & B & _). split; [|split; [|apply apply_filter_open]].
  - unfold MixPlanner.apply_filter, MixPlanner.next_label.
    cbn [MixPlanner.filters MixPlanner.current_ref MixPlanner.label_counter].
    eapply linked_app; [exact L|]. cbn [linked].
    eexists. eexists. split; reflexivity.
  - unfold MixPlanner.apply_filter, MixPlanner.next_label.
    cbn [MixPlanner.filters MixPlanner.label_counter].
    rewrite List.length_app. cbn [List.length]. lia.
Qed.

Lemma chain_ok_weaken index b1 b2 st :
  (b1 <= b2)%nat -> chain_ok index b1 st -> chain_ok index b2 st.
Proof. intros Hb (L & B & O). split; [exact L | split; [lia | exact O]]. Qed.

(** X4. The fragments of a clip chain are linked: the first reads the audio
    of input [index + 1], each one reads the label the one before it wrote,
    and the last writes [a{index}]; there are between one and four. *)
Theorem clip_chain_is_linked index clip s w label filters w' :
  MixPlanner._build_clip_filters index clip s w = (Some (label, filters), w') ->
  linked ("[" ++ str_int (index + 1) ++ ":a]") filters
         ("[" ++ MixPlanner.clip_label index ++ "]")
  /\ (1 <= List.length filters <= 4)%nat.
Proof.
  unfold MixPlanner._build_clip_filters. intros E.
  apply bind_some in E as (source_offset & w1 & _ & E).
  set (st0 := MixPlanner.mk_chain [] ("[" ++ str_int (index + 1) ++ ":a]") 0) in E.
  assert (K0 : chain_ok index 0 st0).
  { split; [reflexivity|]. split; [apply Nat.le_refl|].
    apply input_ref_is_not_output_ref. }
  set (st1 := if (source_offset >? f0)%py then _ else st0) in E.
  assert (K1 : chain_ok index 1 st1).
  { subst st1. destruct (source_offset >? f0)%py;
      [apply apply_filter_chain_ok; exact K0
      | apply (chain_ok_weaken (b1 := 0)); [lia | exact K0]]. }
  set (st2 := if AudioCategory_eqb (AudioClip.category clip) MUSIC
              then _ else st1) in E.
  assert (K2 : chain_ok index 2 st2).
  { subst st2.
    assert (W : chain_ok index 2 st1)
      by (apply (chain_ok_weaken (b1 := 1)); [lia | exact K1]).
    destruct (AudioCategory_eqb _ _); [|exact W].
    destruct (MixPlanner._music_length_trim s) as [trim|]; [|exact W].
    destruct (trim =? "")%string; [exact W|].
    apply apply_filter_chain_ok. exact K1. }
  apply bind_some in E as (st3 & w2 & E3 & E).
  assert (K3 : chain_ok index 3 st3).
  { destruct (_ >? f0)%py in E3.
    - apply bind_some in E3 as (ms & w3 & _ & E3).
      apply ret_some in E3 as [<- _]. apply apply_filter_chain_ok. exact K2.
    - apply ret_some in E3 as [<- _].
      apply (chain_ok_weaken (b1 := 2)); [lia | exact K2]. }
  apply ret_some in E as [E _]. pair_eq E El Ef. subst label filters.
  destruct K3 as (L3 & B3 & O3). unfold ref_open in O3. rewrite O3. cbn [negb].
  split.
  - eapply linked_app; [exact L3|]. cbn [linked].
    exists "anull", (MixPlanner.clip_label index). split; reflexivity.
  - rewrite List.length_app. cbn [List.length]. lia.
Qed.
End ChainShape.

Section PlanShape.
Context {F : Type} `{PyFloat F} `{PyRuntime F}.

Lemma clip_loop_outputs s clips :
  forall index acc w acc' w',
    MixPlanner.clip_loop s index clips acc w = (Some acc', w') ->
    MixPlanner.t_outputs acc'
      = MixPlanner.t_outputs acc +++ labels_from index (List.length clips).
Proof.
  induction clips as [|c clips IH]; intros index acc w acc' w' E;
    cbn [MixPlanner.clip_loop] in E.
  - apply ret_some in E as [<- _]. cbn [List.length labels_from].
    symmetry. apply app_nil_r.
  - apply bind_some in E as ([label filters] & w1 & Ec & E).
    apply build_clip_filters_ends_in_anull in Ec as (-> & _).
    apply IH in E. cbn [MixPlanner.t_outputs] in E.
    rewrite E, <- app_assoc. reflexivity.
Qed.

(** X2. The mixing fragment of a plan reads every chain exactly once and in
    order: [a0] ... [a{n-1}] for the [n] clips, then [orig_audio] when the
    original soundtrack takes part; [inputs=] is their number and
    [normalize=] is 1 exactly when [enable_limiter] is on.  It is the last
    fragment of the plan, and a plan with nothing to mix has no fragment at
    all. *)
Theorem mix_fragment_reads_every_chain
    (s : MixSession.t F) (w w' : World) (p : MixPlan.t F) :
  MixPlanner.build_plan s w = (Some p, w') ->
  let labels :=
    labels_from 0 (List.length (MixSession.audio_clips s))
      +++ (if MixPlan.include_original_audio p then ["orig_audio"] else []) in
  (labels = [] -> MixPlan.audio_filters p = [])
  /\ (labels <> [] ->
      exists chains,
        MixPlan.audio_filters p
        = chains +++
            [join "" (map (fun label => "[" ++ label ++ "]") labels)
               ++ "amix=inputs=" ++ str_int (Z.of_nat (List.length labels))
               ++ ":normalize="
               ++ (if TrackConfig.enable_limiter (MixSession.config s)
                   then "1" else "0")
               ++ "[aout]"])
  /\ List.length labels
     = (List.length (MixSession.audio_clips s)
        + (if MixPlan.include_original_audio p then 1 else 0))%nat.
Proof.
  intros E labels.
  assert (En : MixPlan.amix_normalize p
               = if TrackConfig.enable_limiter (MixSession.config s)
                 then 1%Z else 0%Z).
  { unfold MixPlanner.build_plan in E.
    apply bind_some in E as (acc & w1 & _ & E).
    apply bind_some in E as (acc' & w2 & _ & E).
    apply bind_some in E as ([[black concat] extended] & w3 & _ & E).
    apply ret_some in E as [<- _]. reflexivity. }
  destruct (build_plan_inv _ _ E) as (_ & _ & _ & _ & Hrest).
  destruct Hrest as (acc & w1 & chain & original & Eloop & Eorig & _ & Ef).
  pose proof (clip_loop_outputs _ _ _ _ _ Eloop) as Eo.
  pose proof (clip_loop_counts _ _ _ _ _ Eloop) as (_ & Elen & _).
  cbn [MixPlanner.t_outputs MixPlanner.t_filters List.length app] in Eo, Elen.
  assert (El : MixPlanner.t_outputs acc +++ original = labels
               /\ (MixPlan.include_original_audio p = false -> chain = [])).
  { subst labels. rewrite Eo. destruct (MixPlan.include_original_audio p).
    - destruct Eorig as (label & w2 & Eb & ->).
      apply build_original_filters_spec in Eb as [-> _].
      split; [reflexivity | discriminate].
    - destruct Eorig as [-> ->]. split; reflexivity. }
  destruct El as [El Ec]. rewrite El, En in Ef.
  split; [|split].
  - intros Enil. rewrite Enil in Ef. rewrite Ef.
    subst labels. apply app_eq_nil in Enil as [En0 Eincl].
    destruct (MixSession.audio_clips s) as [|c l]; [|discriminate En0].
    cbn [List.length] in Elen.
    destruct (MixPlan.include_original_audio p); [discriminate Eincl|].
    rewrite (Ec eq_refl).
    cbn [MixPlanner.clip_loop] in Eloop. apply ret_some in Eloop as [<- _].
    reflexivity.
  - intros Hne. exists (MixPlanner.t_filters acc +++ chain).
    rewrite Ef. f_equal. unfold mix_fragment.
    destruct labels as [|l0 ls]; [contradiction|]. cbn [truthy].
    destruct (TrackConfig.enable_limiter (MixSession.config s)); reflexivity.
  - subst labels. rewrite List.length_app.
    assert (Ll : forall i n, List.length (labels_from i n) = n).
    { intros i n. revert i. induction n as [|n IH]; intros i;
        cbn [labels_from List.length]; [reflexivity | rewrite IH; reflexivity]. }
    rewrite Ll. destruct (MixPlan.include_original_audio p); reflexivity.
Qed.
End PlanShape.

Lemma exact_zero_laws : @zero_laws Q exact.
Proof.
  split; [reflexivity|].
  intros v. apply exact_lt_false. cbn [fsub exact]. rewrite exact_f0. lra.
Qed.

Lemma binary64_zero_laws : @zero_laws float binary64.
Proof. split; [reflexivity | exact binary64_sub_self_not_positive]. Qed.

Section SilentPlan.
Context {F : Type} `{PyFloat F} `{PyRuntime F}.

(** X1. With no audio clip and the original soundtrack left out (it is
    overridden, or the video has none) [build_plan] returns, without raising
    and without touching the entropy pool, a plan with no audio input, no
    filter, no extension and no temporary path, and the final command of
    [_run_plan] for it maps the video stream only. *)
Theorem plan_without_audio_is_silent (s : MixSession.t F) (w : World) :
  zero_laws ->
  MixSession.audio_clips s = [] ->
  TrackConfig.override_original (MixSession.config s) = true
  \/ VideoClip.has_audio (MixSession.video_clip s) = false ->
  exists p,
    MixPlanner.build_plan s w = (Some p, w)
    /\ MixPlan.audio_inputs p = []
    /\ MixPlan.audio_filters p = []
    /\ MixPlan.needs_black_extension p = false
    /\ temp_artifacts p = []
    /\ forall video_input output_path,
         TaskExecutor.final_command p video_input output_path
         = ["-i"; video_input; "-map"; "0:v:0";
            "-c:v"; "copy"; "-c:a"; "aac"; "-b:a"; "192k"; output_path].
Proof.
  intros [L0 Law] Hclips Hmute.
  assert (Hi : negb (TrackConfig.override_original (MixSession.config s))
               && VideoClip.has_audio (MixSession.video_clip s) = false).
  { destruct Hmute as [-> | ->]; [reflexivity | apply andb_false_r]. }
  assert (Hd : (MixSession.black_extension_duration s >? f0)%py = false).
  { unfold MixSession.black_extension_duration. rewrite Hclips.
    cbn [fold_left]. unfold py_max. rewrite Law. exact L0. }
  unfold MixPlanner.build_plan. rewrite Hclips, Hi, Hd.
  cbn [MixPlanner.clip_loop]. unfold bind, ret.
  cbn [MixPlanner.t_inputs MixPlanner.t_filters MixPlanner.t_outputs truthy].
  eexists. split; [reflexivity|].
  cbn [MixPlan.audio_inputs MixPlan.audio_filters MixPlan.needs_black_extension].
  repeat (split; [reflexivity|]).
  intros video_input output_path. reflexivity.
Qed.
End SilentPlan.

Section PlanPaths.
Context {F : Type} `{PyFloat F} `{PyRuntime F}.

(** X3. A plan names its three temporary files exactly when it asks for the
    extension, and it asks for it exactly when the session requires it: then
    the files are [<stem>_black_<token>.mp4], [<stem>_concat_<token>.txt] and
    [<stem>_extended_<token>.mp4] next to the video, with one token for the
    three, and the extension stage of [_run_plan] is entered; otherwise no
    path is named, no token is drawn and the stage is skipped.  The plan
    carries the video's path, resolution and frame rate. *)
Theorem plan_names_temp_files_iff_extension
    (s : MixSession.t F) (w w' : World) (p : MixPlan.t F) :
  MixPlanner.build_plan s w = (Some p, w') ->
  let video := MixSession.video_clip s in
  let dir := path_parent (VideoClip.file_path video) in
  let stem := path_stem (VideoClip.file_path video) in
  MixPlan.needs_black_extension p = MixSession.requires_black_extension s
  /\ (MixPlan.needs_black_extension p = false ->
      temp_artifacts p = [] /\ TaskExecutor.extension_paths p = None)
  /\ (MixPlan.needs_black_extension p = true ->
      exists token,
        TaskExecutor.extension_paths p
        = Some (path_join dir (stem ++ "_black_" ++ token ++ ".mp4"),
                path_join dir (stem ++ "_concat_" ++ token ++ ".txt"),
                path_join dir (stem ++ "_extended_" ++ token ++ ".mp4"))
        /\ temp_artifacts p
           = [path_join dir (stem ++ "_black_" ++ token ++ ".mp4");
              path_join dir (stem ++ "_concat_" ++ token ++ ".txt");
              path_join dir (stem ++ "_extended_" ++ token ++ ".mp4")])
  /\ MixPlan.video_input p = VideoClip.file_path video
  /\ MixPlan.video_resolution p = VideoClip.resolution video
  /\ MixPlan.video_fps p = VideoClip.fps video.
Proof.
  intros E video dir stem. unfold MixPlanner.build_plan in E.
  fold video in E.
  apply bind_some in E as (acc & w1 & _ & E).
  apply bind_some in E as (acc' & w2 & _ & E).
  apply bind_some in E as ([[black concat] extended] & w3 & Epaths & E).
  apply ret_some in E as [<- _].
  unfold TaskExecutor.extension_paths, temp_artifacts,
    MixSession.requires_black_extension.
  cbn [MixPlan.needs_black_extension MixPlan.black_clip_path
       MixPlan.concat_list_path MixPlan.extended_video_path
       MixPlan.video_input MixPlan.video_resolution MixPlan.video_fps].
  destruct (MixSession.black_extension_duration s >? f0)%py.
  - apply bind_some in Epaths as (token & w4 & _ & Epaths).
    apply ret_some in Epaths as [Epaths _].
    inversion Epaths; subst black concat extended.
    split; [reflexivity|]. split; [discriminate|].
    split; [|repeat split].
    intros _. exists token. split; reflexivity.
  - apply ret_some in Epaths as [Epaths _].
    inversion Epaths; subst black concat extended.
    split; [reflexivity|]. split; [intros _; split; reflexivity|].
    split; [discriminate | repeat split].
Qed.
End PlanPaths.

(** ** Which settings reach which chain *)

Section SettingsReach.
Context {F : Type} `{PyFloat F} `{PyRuntime F}.

(** X5. The chain of an EFFECT or VOICE clip depends on the session only
    through the frame rate of the video and the global lead: two sessions
    that agree on these give the same chain, whatever their music settings
    (start offset, random start, seed, retry limit, length policy), and
    building it never draws entropy. *)
Theorem music_settings_do_not_reach_other_chains
    (index : Z) (clip : AudioClip.t F) (s s' : MixSession.t F) (w : World) :
  AudioClip.category clip <> MUSIC ->
  VideoClip.fps (MixSession.video_clip s) = VideoClip.fps (MixSession.video_clip s') ->
  TrackConfig.video_audio_lead (MixSession.config s)
    = TrackConfig.video_audio_lead (MixSession.config s') ->
  MixPlanner._build_clip_filters index clip s w
    = MixPlanner._build_clip_filters index clip s' w
  /\ snd (MixPlanner._build_clip_filters index clip s w) = w.
Proof.
  intros Hc Hfps Hlead. unfold MixPlanner._build_clip_filters.
  assert (Em : AudioCategory_eqb (AudioClip.category clip) MUSIC = false)
    by (destruct (AudioClip.category clip); [reflexivity | reflexivity | contradiction]).
  rewrite Em, Hfps, Hlead. split; [reflexivity|].
  unfold bind, ret.
  destruct (_ >? f0)%py; [|reflexivity].
  unfold lift_option. destruct (to_int _); reflexivity.
Qed.

Lemma bind_ext {A B : Type} (m m' : M A) (k k' : A -> M B) :
  (forall w, m w = m' w) -> (forall a w, k a w = k' a w) ->
  forall w, bind m k w = bind m' k' w.
Proof.
  intros Hm Hk w. unfold bind. rewrite Hm.
  destruct (m' w) as [[a|] w1]; [apply Hk | reflexivity].
Qed.

Lemma py_max_f0_f0 : py_max (@f0 F _) f0 = f0.
Proof. unfold py_max. destruct (f0 <? f0)%py; reflexivity. Qed.

(** X6. A global lead that is not positive (zero, negative, NaN) is ignored:
    the plan is the one of the same session with a lead of zero. *)
Theorem non_positive_lead_is_ignored (s : MixSession.t F) (w : World) :
  (TrackConfig.video_audio_lead (MixSession.config s) >? f0)%py = false ->
  MixPlanner.build_plan s w = MixPlanner.build_plan (with_lead s f0) w.
Proof.
  intros Hlead.
  assert (Hmax : py_max f0 (TrackConfig.video_audio_lead (MixSession.config s))
                 = py_max f0 (TrackConfig.video_audio_lead
                                (MixSession.config (with_lead s f0)))).
  { cbn [with_lead MixSession.config TrackConfig.video_audio_lead].
    rewrite py_max_f0_f0. unfold py_max. rewrite Hlead. reflexivity. }
  assert (Hclip : forall index clip w,
            MixPlanner._build_clip_filters index clip s w
            = MixPlanner._build_clip_filters index clip (with_lead s f0) w).
  { intros index clip w0. unfold MixPlanner._build_clip_filters.
    rewrite Hmax. reflexivity. }
  assert (Hloop : forall clips index acc w,
            MixPlanner.clip_loop s index clips acc w
            = MixPlanner.clip_loop (with_lead s f0) index clips acc w).
  { induction clips as [|c clips IH]; intros index acc w0;
      cbn [MixPlanner.clip_loop]; [reflexivity|].
    unfold bind. rewrite Hclip.
    destruct (MixPlanner._build_clip_filters index c (with_lead s f0) w0)
      as [[[label filters]|] w1]; [apply IH | reflexivity]. }
  assert (Horig : forall w,
            MixPlanner._build_original_filters s w
            = MixPlanner._build_original_filters (with_lead s f0) w).
  { intros w0. unfold MixPlanner._build_original_filters.
    rewrite Hmax. reflexivity. }
  unfold MixPlanner.build_plan.
  apply bind_ext; [intros w0; apply Hloop|].
  intros acc w0. apply bind_ext; [|intros acc' w1; reflexivity].
  intros w1.
  change (MixSession.config (with_lead s f0)) with
    (TrackConfig.mk (TrackConfig.video_id (MixSession.config s))
       (TrackConfig.override_original (MixSession.config s))
       (TrackConfig.enable_limiter (MixSession.config s))
       (TrackConfig.music_random_seed (MixSession.config s))
       (TrackConfig.music_retry_limit (MixSession.config s))
       (TrackConfig.music_random_enabled (MixSession.config s))
       (TrackConfig.music_length_mode (MixSession.config s))
       (TrackConfig.music_length_value (MixSession.config s))
       (TrackConfig.music_start_offset (MixSession.config s)) f0).
  cbn [TrackConfig.override_original].
  change (MixSession.video_clip (with_lead s f0)) with (MixSession.video_clip s).
  destruct (negb (TrackConfig.override_original (MixSession.config s))
            && VideoClip.has_audio (MixSession.video_clip s)); [|reflexivity].
  apply bind_ext; [apply Horig | intros x w2; reflexivity].
Qed.
End SettingsReach.

(** * Further properties of the executor and of the preview *)

Lemma exists_file_unlink_neq (refused : Refusal) (p q : Path) (fs : FS) :
  p <> q -> exists_file (unlink refused q fs) p = exists_file fs p.
Proof.
  intros N. unfold unlink. destruct (refused q fs); [reflexivity|].
  unfold exists_file, remove_path.
  induction fs as [|r fs IH]; [reflexivity|].
  cbn [filter existsb]. destruct (String.eqb q r) eqn:E; cbn [negb].
  - apply String.eqb_eq in E. subst r.
    assert (Ep : String.eqb p q = false) by (apply String.eqb_neq; exact N).
    rewrite Ep. exact IH.
  - cbn [existsb]. rewrite IH. reflexivity.
Qed.

Lemma cleanup_keeps_others (refused : Refusal) (paths : list Path) (p : Path) :
  ~ In p paths ->
  forall fs, exists_file (PreviewController._cleanup_files refused paths fs) p
             = exists_file fs p.
Proof.
  unfold PreviewController._cleanup_files.
  induction paths as [|q paths IH]; intros N fs; [reflexivity|].
  cbn [fold_left]. rewrite IH by (intros HIn; apply N; right; exact HIn).
  apply exists_file_unlink_neq. intros E. apply N. left. symmetry. exact E.
Qed.

(** A file whose removal is refused is, after the cleanup loop, as it was
    before. *)
Lemma cleanup_keeps_irremovable (refused : Refusal) (paths : list Path)
    (p : Path) :
  irremovable refused p ->
  forall fs, exists_file (PreviewController._cleanup_files refused paths fs) p
             = exists_file fs p.
Proof.
  intros Hp. unfold PreviewController._cleanup_files.
  induction paths as [|q paths IH]; intros fs; [reflexivity|].
  cbn [fold_left]. rewrite IH.
  destruct (String.eqb_spec p q) as [<-|N].
  - rewrite unlink_refused by apply Hp. reflexivity.
  - apply exists_file_unlink_neq. exact N.
Qed.

Section ExecutorMore.
Context {F : Type} `{PyFloat F} `{PyRuntime F}.
Variable popen : FFmpegAdapter.Popen.
Variable writable : Writable.
Variable refused : Refusal.

(** X7. When both extension stages exit with 0, the manifest between them
    could be written, and the final invocation returns, with any exit code,
    [_run_plan] runs that final invocation on the extended video and
    returns normally, whatever the operating system answers to the
    removals: an OSError of [unlink] is swallowed.
    Afterwards each of the three temporary files that the operating system
    lets be removed is gone; a file whose removal it refuses is as the final
    invocation left it, and so is every file that is none of the three. *)
Theorem run_plan_cleans_up_after_final_invocation
    (plan : MixPlan.t F) (output_path black concat extended : Path)
    (fs fs1 fs2 fs3 : FS) (r1 r2 r3 : FFmpegAdapter.FFmpegResult) :
  TaskExecutor.extension_paths plan = Some (black, concat, extended) ->
  FFmpegAdapter.generate_black_clip popen black (MixPlan.video_resolution plan)
    (MixPlan.black_extension_duration plan) (MixPlan.video_fps plan) fs
    = (Some r1, fs1) ->
  FFmpegAdapter.return_code r1 = 0%Z ->
  writable concat fs1 = true ->
  FFmpegAdapter.concat_videos popen concat extended (write_text concat fs1)
    = (Some r2, fs2) ->
  FFmpegAdapter.return_code r2 = 0%Z ->
  FFmpegAdapter.run_command popen
    (TaskExecutor.final_command plan extended output_path) fs2 = (Some r3, fs3) ->
  let run :=
    TaskExecutor._run_plan popen writable refused plan output_path fs in
  TaskExecutor.how run = TaskExecutor.Returned
  /\ (forall p, In p [black; concat; extended] -> removable refused p ->
        exists_file (TaskExecutor.files run) p = false)
  /\ (forall p, irremovable refused p ->
        exists_file (TaskExecutor.files run) p = exists_file fs3 p)
  /\ (forall p, ~ In p [black; concat; extended] ->
        exists_file (TaskExecutor.files run) p = exists_file fs3 p).
Proof.
  intros Ep E1 R1 W E2 R2 E3 run. subst run.
  unfold TaskExecutor._run_plan. rewrite Ep, E1, R1. cbn [Z.eqb negb].
  rewrite W. cbn [negb]. rewrite E2, R2. cbn [Z.eqb negb app].
  unfold TaskExecutor.mux_and_cleanup. rewrite E3.
  cbn [TaskExecutor.how TaskExecutor.files].
  split; [reflexivity|]. split; [|split].
  - intros p HIn Hp.
    exact (@cleanup_removes refused [black; concat; extended] p Hp fs3 HIn).
  - intros p Hp.
    exact (@cleanup_keeps_irremovable refused [black; concat; extended] p Hp
             fs3).
  - intros p N.
    exact (@cleanup_keeps_others refused [black; concat; extended] p N fs3).
Qed.
End ExecutorMore.

Section PreviewMore.
Context {F : Type} `{PyFloat F} `{PyRuntime F}.
Variable popen : FFmpegAdapter.Popen.
Variable player : list string -> FS -> option unit * FS.
Variable writable : Writable.
Variable refused : Refusal.
Variable mkdir : Mkdir.

(** X8. Whenever [preview] returns normally (no exception escapes) and the
    plan named extension artifacts, none of the three that the operating
    system lets be removed exists afterwards: after a failed black clip,
    after a failed concatenation, after a failed preview render and after
    playback alike.  When it returns without having logged an error, that
    is after playback, the rendered preview file is gone as well, if the
    operating system lets it be removed.  (An OSError of [unlink] is
    swallowed and leaves the file; the player is taken to create no
    file.) *)
Theorem preview_leaves_no_artifact
    (s : MixSession.t F) (section : PreviewController.PreviewSection F)
    (w w' : World) (plan : MixPlan.t F) (fs : FS) :
  MixPlanner.build_plan s w = (Some plan, w') ->
  creates_nothing player ->
  let run :=
    PreviewController.preview popen player writable refused mkdir s section w
      fs in
  PreviewController.preview_how run = TaskExecutor.Returned ->
  (forall black concat extended p,
     TaskExecutor.extension_paths plan = Some (black, concat, extended) ->
     In p [black; concat; extended] ->
     removable refused p ->
     exists_file (PreviewController.preview_files run) p = false)
  /\ (PreviewController.preview_logged run = [] ->
      removable refused
        (path_join (path_parent (VideoClip.file_path (MixSession.video_clip s)))
           ("preview_" ++ MixSession.session_id s ++ ".mp4")) ->
      exists_file (PreviewController.preview_files run)
        (path_join (path_parent (VideoClip.file_path (MixSession.video_clip s)))
           ("preview_" ++ MixSession.session_id s ++ ".mp4")) = false).
Proof.
  intros Eb Hplayer run. subst run. unfold PreviewController.preview.
  destruct (mkdir _); cbn [negb]; [|discriminate].
  rewrite Eb. destruct (MixPlan.video_resolution plan) as [width height].
  destruct (if (width <=? 0)%Z || (height <=? 0)%Z
            then VideoClip.resolution (MixSession.video_clip s)
            else (width, height)) as [width' height'].
  set (temp_output := path_join _ _).
  assert (Finish : forall temps video_input fs0,
    let run :=
      match FFmpegAdapter.run_command popen
              (PreviewController._build_preview_command plan video_input
                 temp_output section) fs0 with
      | (None, fs1) =>
          PreviewController.mk_preview_outcome TaskExecutor.Escaped fs1 w' []
      | (Some result, fs1) =>
          let fs2 := PreviewController._cleanup_files refused temps fs1 in
          if negb (FFmpegAdapter.return_code result =? 0)%Z then
            PreviewController.mk_preview_outcome TaskExecutor.Returned fs2 w'
              [TaskExecutor.log_error
                 ("预览混流失败: " ++ FFmpegAdapter.stderr result)]
          else
            match player
                    ["ffplay"; "-autoexit"; "-window_title";
                     "预览 - " ++ VideoClip.display_name (MixSession.video_clip s);
                     temp_output] fs2 with
            | (None, fs3) =>
                PreviewController.mk_preview_outcome TaskExecutor.Escaped fs3 w' []
            | (Some _, fs3) =>
                PreviewController.mk_preview_outcome TaskExecutor.Returned
                  (unlink refused temp_output fs3) w' []
            end
      end in
    PreviewController.preview_how run = TaskExecutor.Returned ->
    (forall p, In p temps -> removable refused p ->
       exists_file (PreviewController.preview_files run) p = false)
    /\ (PreviewController.preview_logged run = [] ->
        removable refused temp_output ->
        exists_file (PreviewController.preview_files run) temp_output = false)).
  { intros temps video_input fs0.
    destruct (FFmpegAdapter.run_command popen _ fs0) as [[result|] fs1];
      cbv zeta; [|discriminate].
    destruct (negb (FFmpegAdapter.return_code result =? 0)%Z).
    - cbn [PreviewController.preview_how PreviewController.preview_files
           PreviewController.preview_logged].
      intros _. split; [|discriminate].
      intros p HIn Hp. apply cleanup_removes; assumption.
    - pose proof (Hplayer
                    ["ffplay"; "-autoexit"; "-window_title";
                     "预览 - " ++ VideoClip.display_name (MixSession.video_clip s);
                     temp_output]
                    (PreviewController._cleanup_files refused temps fs1)) as Hp.
      destruct (player _ _) as [[u|] fs3];
        cbn [PreviewController.preview_how PreviewController.preview_files
             PreviewController.preview_logged snd] in *; [|discriminate].
      intros _. split.
      + intros p HIn Hr. apply exists_file_unlink_other.
        destruct (exists_file fs3 p) eqn:Ex; [|reflexivity].
        apply Hp in Ex.
        rewrite (@cleanup_removes refused temps p Hr fs1 HIn) in Ex.
        discriminate Ex.
      + intros _ Hr. apply exists_file_unlink_same. apply Hr. }
  destruct (TaskExecutor.extension_paths plan) as [[[black concat] extended]|].
  - cbn [app].
    destruct (FFmpegAdapter.generate_black_clip popen black _ _ _ fs)
      as [[r1|] fs1]; [|discriminate].
    destruct (negb (FFmpegAdapter.return_code r1 =? 0)%Z).
    { cbn [PreviewController.preview_how PreviewController.preview_files
           PreviewController.preview_logged].
      intros _. split; [|discriminate].
      intros b c e p Ep HIn Hr. inversion Ep; subst b c e.
      apply cleanup_removes; assumption. }
    destruct (writable concat fs1); cbn [negb]; [|discriminate].
    destruct (FFmpegAdapter.concat_videos popen concat extended _)
      as [[r2|] fs2]; [|discriminate].
    destruct (negb (FFmpegAdapter.return_code r2 =? 0)%Z).
    { cbn [PreviewController.preview_how PreviewController.preview_files
           PreviewController.preview_logged].
      intros _. split; [|discriminate].
      intros b c e p Ep HIn Hr. inversion Ep; subst b c e.
      apply cleanup_removes; assumption. }
    intros Hr. destruct (Finish [black; concat; extended] extended fs2 Hr)
      as [Ht Ho].
    split; [|exact Ho].
    intros b c e p Ep HIn Hrm. inversion Ep; subst b c e. exact (Ht p HIn Hrm).
  - intros Hr. destruct (Finish [] (MixPlan.video_input plan) fs Hr) as [_ Ho].
    split; [|exact Ho]. intros b c e p Ep. discriminate Ep.
Qed.
End PreviewMore.

(** ** The theorems above on examples *)

Section MoreExamples.
#[local] Existing Instance Toy.runtime.

Lemma plan_without_audio_is_silent_witness :
  exists p,
    Toy.plan_of Examples.muted = Some p /\
    MixPlan.audio_filters p = [] /\
    TaskExecutor.final_command p "demo" "out.mp4"
    = ["-i"; "demo"; "-map"; "0:v:0"; "-c:v"; "copy"; "-c:a"; "aac";
       "-b:a"; "192k"; "out.mp4"].
Proof.
  destruct (@plan_without_audio_is_silent Q exact Toy.runtime Examples.muted 0%Z
              exact_zero_laws eq_refl (or_introl eq_refl))
    as (p & E & _ & Hf & _ & _ & Hc).
  exists p. split; [unfold Toy.plan_of; rewrite E; reflexivity|].
  split; [exact Hf | apply Hc].
Defined.

Lemma mix_fragment_reads_every_chain_witness :
  exists p chains,
    Toy.plan_of Toy.scenario_a = Some p /\
    MixPlan.audio_filters p
    = chains +++ ["[a0][orig_audio]amix=inputs=2:normalize=1[aout]"].
Proof.
  destruct scenario_a_is_planned as (p & w' & E).
  pose proof (@mix_fragment_reads_every_chain Q exact Toy.runtime _ _ _ _ E) as H0.
  cbv zeta in H0. destruct H0 as (_ & Hne & _).
  assert (Hi : MixPlan.include_original_audio p = true).
  { vm_compute in E. inversion E. reflexivity. }
  rewrite Hi in Hne. destruct Hne as [chains Ec]; [discriminate|].
  exists p, chains. split; [unfold Toy.plan_of; rewrite E; reflexivity|].
  exact Ec.
Defined.

Lemma plan_names_temp_files_iff_extension_witness :
  exists p token,
    Toy.plan_of Toy.scenario_a = Some p /\
    temp_artifacts p
    = ["./" ++ "demo" ++ "_black_" ++ token ++ ".mp4";
       "./" ++ "demo" ++ "_concat_" ++ token ++ ".txt";
       "./" ++ "demo" ++ "_extended_" ++ token ++ ".mp4"].
Proof.
  destruct scenario_a_is_planned as (p & w' & E).
  pose proof (@plan_names_temp_files_iff_extension Q exact Toy.runtime _ _ _ _ E) as H0.
  cbv zeta in H0. destruct H0 as (Hn & _ & Hy & _).
  destruct (Hy Hn) as (token & _ & Et).
  exists p, token. split; [unfold Toy.plan_of; rewrite E; reflexivity|].
  exact Et.
Defined.

Lemma clip_chain_is_linked_witness :
  exists label filters w',
    MixPlanner._build_clip_filters 0
      (Toy.clip "se.wav" SE (of_int 6) (Some 0%Z)) (@Toy.scenario_a Q exact) 0%Z
    = (Some (label, filters), w') /\
    linked "[1:a]" filters "[a0]".
Proof.
  assert (E : exists lf w',
             MixPlanner._build_clip_filters 0
               (Toy.clip "se.wav" SE (of_int 6) (Some 0%Z))
               (@Toy.scenario_a Q exact) 0%Z = (Some lf, w')).
  { eexists. eexists. vm_compute. reflexivity. }
  destruct E as ([label filters] & w' & E).
  exists label, filters, w'. split; [exact E|].
  exact (proj1 (@clip_chain_is_linked Q exact Toy.runtime _ _ _ _ _ _ _ E)).
Defined.

Lemma music_settings_do_not_reach_other_chains_witness :
  MixPlanner._build_clip_filters 0
    (Toy.clip "se.wav" SE (of_int 6) (Some 0%Z)) (@Toy.scenario_a Q exact) 0%Z
  = MixPlanner._build_clip_filters 0
      (Toy.clip "se.wav" SE (of_int 6) (Some 0%Z)) (Toy.music_session 0) 0%Z.
Proof.
  refine (proj1 (@music_settings_do_not_reach_other_chains Q exact Toy.runtime
                  0 _ _ _ 0%Z _ eq_refl eq_refl)).
  discriminate.
Defined.

Lemma non_positive_lead_is_ignored_witness :
  MixPlanner.build_plan (@Examples.with_global_lead Q exact (-1 # 2)) 0%Z
  = MixPlanner.build_plan (@Toy.scenario_a Q exact) 0%Z.
Proof.
  exact (@non_positive_lead_is_ignored Q exact Toy.runtime
           (Examples.with_global_lead (-1 # 2)) 0%Z eq_refl).
Defined.
End MoreExamples.

Section RunExamples.
#[local] Existing Instance Toy.runtime.

Lemma willing_removes (p : Path) : removable Toy.willing p.
Proof. intros fs. reflexivity. Qed.

Lemma run_plan_cleans_up_after_final_invocation_witness :
  exists p,
    Toy.plan_of Toy.scenario_a = Some p /\
    let run :=
      TaskExecutor._run_plan (Toy.ffmpeg "never") Toy.disk Toy.willing p
        "out.mp4" [] in
    TaskExecutor.how run = TaskExecutor.Returned /\
    exists_file (TaskExecutor.files run) "./demo_black_0.mp4" = false /\
    exists_file (TaskExecutor.files run) "out.mp4" = true.
Proof.
  destruct scenario_a_is_planned as (p & w' & E).
  exists p. split; [unfold Toy.plan_of; rewrite E; reflexivity|].
  vm_compute in E. inversion E as [[Hp Hw]]. clear E Hw. subst p.
  match goal with
  | |- context [TaskExecutor._run_plan _ _ _ ?plan _ _] =>
      edestruct (@run_plan_cleans_up_after_final_invocation Q Toy.runtime
                   (Toy.ffmpeg "never") Toy.disk Toy.willing plan "out.mp4"
                   "./demo_black_0.mp4" "./demo_concat_0.txt"
                   "./demo_extended_0.mp4" [])
        as (Hr & Hgone & _ & Hkept)
  end.
  - reflexivity.
  - vm_compute. reflexivity.
  - reflexivity.
  - reflexivity.
  - vm_compute. reflexivity.
  - reflexivity.
  - vm_compute. reflexivity.
  - cbv zeta. split; [exact Hr|]. split.
    + apply Hgone; [left; reflexivity | apply willing_removes].
    + rewrite Hkept.
      * reflexivity.
      * intros [A | [A | [A | []]]]; discriminate A.
Defined.

Lemma ffplay_creates_nothing : creates_nothing Examples.ffplay.
Proof. intros command fs p Hp. exact Hp. Qed.

Lemma preview_leaves_no_artifact_witness :
  let run := PreviewController.preview (Toy.ffmpeg "never") Examples.ffplay
               Toy.disk Toy.willing Toy.mkdir_ok
               (@Toy.scenario_a Q exact) Examples.opening 0%Z [] in
  PreviewController.preview_how run = TaskExecutor.Returned /\
  exists_file (PreviewController.preview_files run) "./demo_black_0.mp4" = false /\
  exists_file (PreviewController.preview_files run) "./preview_s1.mp4" = false.
Proof.
  destruct scenario_a_is_planned as (p & w' & E).
  pose proof (@preview_leaves_no_artifact Q exact Toy.runtime
                (Toy.ffmpeg "never") Examples.ffplay Toy.disk Toy.willing
                Toy.mkdir_ok Toy.scenario_a Examples.opening 0%Z w' p [] E
                ffplay_creates_nothing) as H0.
  cbv zeta in H0 |- *.
  assert (Hr : PreviewController.preview_how
                 (PreviewController.preview (Toy.ffmpeg "never") Examples.ffplay
                    Toy.disk Toy.willing Toy.mkdir_ok
                    (@Toy.scenario_a Q exact) Examples.opening 0%Z [])
               = TaskExecutor.Returned) by (vm_compute; reflexivity).
  destruct (H0 Hr) as [Ht Ho]. split; [exact Hr|]. split.
  - apply (Ht "./demo_black_0.mp4" "./demo_concat_0.txt" "./demo_extended_0.mp4").
    + vm_compute in E. inversion E. reflexivity.
    + left. reflexivity.
    + apply willing_removes.
  - apply Ho; [vm_compute; reflexivity | apply willing_removes].
Defined.

(** The same preview where the operating system refuses every removal: it
    returns as well, and the black clip and the rendered preview stay. *)
Example preview_with_refused_removals :
  let run := PreviewController.preview (Toy.ffmpeg "never") Examples.ffplay
               Toy.disk Toy.stubborn Toy.mkdir_ok
               (@Toy.scenario_a Q exact) Examples.opening 0%Z [] in
  PreviewController.preview_how run = TaskExecutor.Returned /\
  exists_file (PreviewController.preview_files run) "./demo_black_0.mp4" = true /\
  exists_file (PreviewController.preview_files run) "./preview_s1.mp4" = true.
Proof. repeat split; vm_compute; reflexivity. Qed.
End RunExamples.

(** ** Strings and dicts *)

Lemma startswith_app (p s : string) : startswith (p ++ s) p = true.
Proof.
  unfold startswith. induction p as [|c p IH]; cbn.
  - destruct s; reflexivity.
  - destruct (ascii_dec c c) as [_|N]; [exact IH | contradiction].
Qed.

Lemma drop_app (p s : string) : drop (String.length p) (p ++ s) = s.
Proof. induction p as [|c p IH]; cbn; [reflexivity | exact IH]. Qed.

Lemma take_app (p s : string) : take (String.length p) (p ++ s) = p.
Proof. induction p as [|c p IH]; cbn; [reflexivity | rewrite IH; reflexivity]. Qed.

Lemma startswith_true (p s : string) :
  startswith s p = true -> s = p ++ drop (String.length p) s.
Proof.
  unfold startswith. revert s. induction p as [|c p IH]; intros s E; cbn in *.
  - reflexivity.
  - destruct s as [|d s]; [discriminate|]. cbn in E. revert E.
    destruct (ascii_dec c d) as [->|]; [|discriminate].
    intros E. cbn. f_equal. apply IH. exact E.
Qed.

Lemma string_length_app (p s : string) :
  String.length (p ++ s) = (String.length p + String.length s)%nat.
Proof. induction p as [|c p IH]; cbn; [reflexivity | rewrite IH; reflexivity]. Qed.

Lemma endswith_app (p s : string) : endswith (p ++ s) s = true.
Proof.
  unfold endswith. rewrite string_length_app.
  replace (String.length p + String.length s - String.length s)%nat
    with (String.length p) by lia.
  rewrite drop_app, String.eqb_refl, Bool.andb_true_r.
  apply Nat.leb_le. lia.
Qed.

Lemma drop_last_app (p s : string) : drop_last (String.length s) (p ++ s) = p.
Proof.
  unfold drop_last. rewrite string_length_app.
  replace (String.length p + String.length s - String.length s)%nat
    with (String.length p) by lia.
  apply take_app.
Qed.

(** ** Names *)

Lemma strip_prefix_no prefix stem :
  startswith stem prefix = false -> strip_prefix prefix stem = stem.
Proof. intros E. unfold strip_prefix. rewrite E. reflexivity. Qed.

Lemma strip_prefix_same prefix stem :
  strip_prefix prefix (prefix ++ stem) = stem.
Proof. unfold strip_prefix. rewrite startswith_app. apply drop_app. Qed.

Lemma strip_prefix_other prefix other stem :
  In prefix ["a1_"; "a2_"; "a3_"; "a4_"] ->
  In other ["a1_"; "a2_"; "a3_"; "a4_"] ->
  prefix <> other ->
  strip_prefix prefix (other ++ stem) = other ++ stem.
Proof.
  intros [<- | [<- | [<- | [<- | []]]]] [<- | [<- | [<- | [<- | []]]]] N;
    try reflexivity; contradiction N; reflexivity.
Qed.

Ltac strip_known :=
  repeat first
    [ rewrite strip_prefix_same
    | rewrite strip_prefix_other by (cbn; first [tauto | discriminate]) ].

Ltac split_on stem prefix :=
  let E := fresh "E" in
  destruct (startswith stem prefix) eqn:E;
  [ apply startswith_true in E; cbn [String.length] in E;
    generalize dependent (drop 3 stem); intros; subst stem;
    strip_known; left; reflexivity
  | rewrite (strip_prefix_no _ _ E) ].

Lemma strip_all_prefixed prefix stem :
  In prefix ["a1_"; "a2_"; "a3_"; "a4_"] ->
  strip_all (prefix ++ stem) = stem \/ strip_all (prefix ++ stem) = strip_all stem.
Proof.
  intros [<- | [<- | [<- | [<- | []]]]]; unfold strip_all; strip_known.
  - split_on stem "a1_". right; reflexivity.
  - split_on stem "a1_". split_on stem "a2_". right; reflexivity.
  - split_on stem "a1_". split_on stem "a2_". split_on stem "a3_".
    right; reflexivity.
  - left. reflexivity.
Qed.

Lemma strip_all_empty : strip_all "" = "".
Proof. reflexivity. Qed.

Section Names.
Context {F : Type} `{PyRuntime F}.
Variable lower : string -> string.

Lemma normalize_name_strips path :
  MediaStore._normalize_name lower path = strip_all (lower (path_stem path)).
Proof. reflexivity. Qed.

End Names.

Section NamePairs.
Context {F : Type} `{PyRuntime F}.
Variable lower : string -> string.

Lemma intersects_true (a b : list string) (name : string) :
  In name a -> In name b -> MediaStore.intersects a b = true.
Proof.
  intros Ha Hb. unfold MediaStore.intersects. apply existsb_exists.
  exists name. split; [exact Ha|]. apply existsb_exists.
  exists name. split; [exact Hb | apply String.eqb_refl].
Qed.

Lemma add_without_suffix_keeps stem normalized suffixes variants name :
  In name variants ->
  In name (fold_left (MediaStore.add_without_suffix stem normalized)
             suffixes variants).
Proof.
  revert variants. induction suffixes as [|suffix rest IH]; intros variants Hin.
  - exact Hin.
  - cbn [fold_left]. apply IH. unfold MediaStore.add_without_suffix.
    destruct (endswith stem suffix), (endswith normalized suffix);
      cbn; auto.
Qed.

Lemma add_without_suffix_adds stem normalized suffixes variants suffix :
  In suffix suffixes ->
  endswith stem suffix = true ->
  In (drop_last (String.length suffix) stem)
     (fold_left (MediaStore.add_without_suffix stem normalized)
        suffixes variants).
Proof.
  revert variants. induction suffixes as [|s rest IH]; intros variants Hin He.
  - contradiction.
  - cbn [fold_left]. destruct Hin as [-> | Hin].
    + apply add_without_suffix_keeps. unfold MediaStore.add_without_suffix.
      rewrite He. destruct (endswith normalized suffix); cbn; auto.
    + apply IH; assumption.
Qed.

Lemma not_empty_true (name : string) :
  name <> "" -> negb (name =? "")%string = true.
Proof.
  intros N. destruct (String.eqb_spec name ""); [contradiction | reflexivity].
Qed.

Lemma stem_is_variant path :
  lower (path_stem path) <> "" ->
  In (lower (path_stem path)) (MediaStore._collect_name_variants lower path).
Proof.
  intros N. unfold MediaStore._collect_name_variants. apply filter_In.
  split; [|apply not_empty_true; exact N].
  apply add_without_suffix_keeps. right. left. reflexivity.
Qed.

Lemma normalized_is_variant path :
  MediaStore._normalize_name lower path <> "" ->
  In (MediaStore._normalize_name lower path)
     (MediaStore._collect_name_variants lower path).
Proof.
  intros N. unfold MediaStore._collect_name_variants. apply filter_In.
  split; [|apply not_empty_true; exact N].
  apply add_without_suffix_keeps. left. reflexivity.
Qed.

(** X9. An audio file named after a video with one of the prefixes [a1_] to
    [a4_] in front (case ignored) is recognised as belonging to that
    video, as long as the video's own name is not made of such prefixes
    only. *)
Theorem prefixed_audio_meets_its_video (video_path audio_path : Path)
    (prefix : string) :
  In prefix ["a1_"; "a2_"; "a3_"; "a4_"] ->
  lower (path_stem audio_path) = prefix ++ lower (path_stem video_path) ->
  MediaStore._normalize_name lower video_path <> "" ->
  names_meet lower video_path audio_path = true.
Proof.
  intros Hp Ea Nv. unfold names_meet.
  assert (Nx : lower (path_stem video_path) <> "").
  { intros E. apply Nv. rewrite normalize_name_strips, E. reflexivity. }
  assert (Hn : MediaStore._normalize_name lower audio_path
               = lower (path_stem video_path)
               \/ MediaStore._normalize_name lower audio_path
                  = MediaStore._normalize_name lower video_path).
  { rewrite !normalize_name_strips, Ea. apply strip_all_prefixed. exact Hp. }
  destruct Hn as [Hn | Hn].
  - apply (intersects_true _ _ (lower (path_stem video_path))).
    + apply stem_is_variant. exact Nx.
    + rewrite <- Hn. apply normalized_is_variant. rewrite Hn. exact Nx.
  - apply (intersects_true _ _ (MediaStore._normalize_name lower video_path)).
    + apply normalized_is_variant. exact Nv.
    + rewrite <- Hn. apply normalized_is_variant. rewrite Hn. exact Nv.
Qed.

(** X10. An audio file named after a video with one of the suffixes [-mix],
    [_mix], [-audio], [_audio] behind (case ignored) is recognised as
    belonging to that video, and so is one with the very name of the
    video. *)
Theorem suffixed_audio_meets_its_video (video_path audio_path : Path)
    (suffix : string) :
  In suffix [""; "-mix"; "_mix"; "-audio"; "_audio"] ->
  lower (path_stem audio_path) = lower (path_stem video_path) ++ suffix ->
  lower (path_stem video_path) <> "" ->
  names_meet lower video_path audio_path = true.
Proof.
  intros Hs Ea Nx. unfold names_meet.
  apply (intersects_true _ _ (lower (path_stem video_path)));
    [apply stem_is_variant; exact Nx|].
  destruct Hs as [<- | Hs].
  - assert (E : lower (path_stem audio_path) = lower (path_stem video_path)).
    { rewrite Ea. clear. induction (lower (path_stem video_path)) as [|c s IH];
        cbn; [reflexivity | rewrite IH; reflexivity]. }
    rewrite <- E. apply stem_is_variant. rewrite E. exact Nx.
  - unfold MediaStore._collect_name_variants. apply filter_In.
    split; [|apply not_empty_true; exact Nx].
    rewrite <- (drop_last_app (lower (path_stem video_path)) suffix) at 1.
    rewrite <- Ea. apply add_without_suffix_adds; [exact Hs|].
    rewrite Ea. apply endswith_app.
Qed.
End NamePairs.

(** ** Dicts *)

Section DictFacts.
Context {V : Type}.
Implicit Types d : list (string * V).

Lemma dict_get_set_same d key value default :
  MediaRepository.dict_get (dict_set d key value) key default = value.
Proof.
  induction d as [|[k v] rest IH]; cbn.
  - rewrite String.eqb_refl. reflexivity.
  - destruct (k =? key)%string eqn:E; cbn; rewrite E; [reflexivity | exact IH].
Qed.

Lemma dict_get_set_other d key other value default :
  key <> other ->
  MediaRepository.dict_get (dict_set d key value) other default
  = MediaRepository.dict_get d other default.
Proof.
  intros N. induction d as [|[k v] rest IH]; cbn.
  - destruct (String.eqb_spec key other); [contradiction | reflexivity].
  - destruct (String.eqb_spec k key) as [->|Nk]; cbn.
    + destruct (String.eqb_spec key other); [contradiction | reflexivity].
    + destruct (k =? other)%string; [reflexivity | exact IH].
Qed.

Lemma dict_item_set_same d key value :
  dict_item (dict_set d key value) key = Some value.
Proof.
  induction d as [|[k v] rest IH]; cbn.
  - rewrite String.eqb_refl. reflexivity.
  - destruct (k =? key)%string eqn:E; cbn; rewrite E; [reflexivity | exact IH].
Qed.

Lemma dict_item_set_other d key other value :
  key <> other ->
  dict_item (dict_set d key value) other = dict_item d other.
Proof.
  intros N. induction d as [|[k v] rest IH]; cbn.
  - destruct (String.eqb_spec key other); [contradiction | reflexivity].
  - destruct (String.eqb_spec k key) as [->|Nk]; cbn.
    + destruct (String.eqb_spec key other); [contradiction | reflexivity].
    + destruct (k =? other)%string; [reflexivity | exact IH].
Qed.

Lemma dict_mem_item d key :
  dict_mem d key = true <-> exists value, dict_item d key = Some value.
Proof.
  induction d as [|[k v] rest IH]; cbn.
  - split; [discriminate | intros [value E]; discriminate].
  - destruct (k =? key)%string; cbn.
    + split; [intros _; exists v; reflexivity | reflexivity].
    + exact IH.
Qed.

Lemma dict_mem_keys d key : dict_mem d key = true <-> In key (dict_keys d).
Proof.
  unfold dict_keys.
  induction d as [|[k v] rest IH]; cbn.
  - split; [discriminate | contradiction].
  - destruct (String.eqb_spec k key) as [->|N]; cbn.
    + split; [intros _; left; reflexivity | reflexivity].
    + rewrite IH. split; [intros Hi; right; exact Hi|].
      intros [E | Hi]; [contradiction | exact Hi].
Qed.

Lemma dict_keys_set d key value :
  dict_keys (dict_set d key value)
  = if dict_mem d key then dict_keys d else dict_keys d +++ [key].
Proof.
  unfold dict_keys, dict_mem.
  induction d as [|[k v] rest IH]; cbn.
  - reflexivity.
  - destruct (k =? key)%string eqn:E; cbn; [reflexivity|].
    rewrite IH. destruct (existsb _ rest); reflexivity.
Qed.

Lemma dict_mem_set d key other value :
  dict_mem (dict_set d key value) other
  = ((key =? other)%string || dict_mem d other).
Proof.
  unfold dict_mem.
  induction d as [|[k v] rest IH]; cbn.
  - reflexivity.
  - destruct (String.eqb_spec k key) as [->|N]; cbn.
    + destruct (key =? other)%string; reflexivity.
    + rewrite IH. destruct (k =? other)%string, (key =? other)%string;
        reflexivity.
Qed.

Lemma dict_set_NoDup d key value :
  NoDup (dict_keys d) -> NoDup (dict_keys (dict_set d key value)).
Proof.
  intros Hn. rewrite dict_keys_set. destruct (dict_mem d key) eqn:E.
  - exact Hn.
  - apply NoDup_app; [exact Hn | repeat constructor; intros [] |].
    intros k Hk [<- | []]. apply dict_mem_keys in Hk. congruence.
Qed.

Lemma dict_set_In d key value k v :
  In (k, v) (dict_set d key value) ->
  (k = key /\ v = value) \/ In (k, v) d.
Proof.
  induction d as [|[k0 v0] rest IH]; cbn.
  - intros [E | []]. inversion E. left. split; reflexivity.
  - destruct (String.eqb_spec k0 key) as [->|N]; cbn.
    + intros [E | Hi]; [inversion E; left; split; reflexivity | right; right; exact Hi].
    + intros [E | Hi]; [right; left; exact E|].
      destruct (IH Hi) as [L | R]; [left; exact L | right; right; exact R].
Qed.

Lemma dict_item_pop_same d key : dict_item (dict_pop d key) key = None.
Proof.
  induction d as [|[k v] rest IH]; cbn.
  - reflexivity.
  - destruct (k =? key)%string eqn:E; cbn; [exact IH|].
    rewrite E. exact IH.
Qed.

Lemma dict_item_pop_other d key other :
  key <> other -> dict_item (dict_pop d key) other = dict_item d other.
Proof.
  intros N. induction d as [|[k v] rest IH]; cbn.
  - reflexivity.
  - destruct (String.eqb_spec k key) as [->|Nk]; cbn.
    + destruct (String.eqb_spec key other); [contradiction | exact IH].
    + destruct (k =? other)%string; [reflexivity | exact IH].
Qed.

Lemma dict_get_pop_same d key default :
  MediaRepository.dict_get (dict_pop d key) key default = default.
Proof.
  induction d as [|[k v] rest IH]; cbn.
  - reflexivity.
  - destruct (k =? key)%string eqn:E; cbn; [exact IH|].
    rewrite E. exact IH.
Qed.

Lemma dict_get_pop_other d key other default :
  key <> other ->
  MediaRepository.dict_get (dict_pop d key) other default
  = MediaRepository.dict_get d other default.
Proof.
  intros N. induction d as [|[k v] rest IH]; cbn.
  - reflexivity.
  - destruct (String.eqb_spec k key) as [->|Nk]; cbn.
    + destruct (String.eqb_spec key other); [contradiction | exact IH].
    + destruct (k =? other)%string; [reflexivity | exact IH].
Qed.

Lemma dict_mem_pop d key other :
  dict_mem (dict_pop d key) other
  = (negb (key =? other)%string && dict_mem d other).
Proof.
  unfold dict_mem, dict_pop.
  induction d as [|[k v] rest IH]; cbn.
  - rewrite Bool.andb_false_r. reflexivity.
  - destruct (String.eqb_spec k key) as [->|Nk]; cbn.
    + rewrite IH. destruct (key =? other)%string; reflexivity.
    + rewrite IH. destruct (String.eqb_spec k other) as [->|No]; cbn.
      * destruct (String.eqb_spec key other); [congruence | reflexivity].
      * reflexivity.
Qed.

Lemma dict_pop_keys d key :
  dict_keys (dict_pop d key)
  = filter (fun k => negb (k =? key)%string) (dict_keys d).
Proof.
  unfold dict_keys, dict_pop.
  induction d as [|[k v] rest IH]; cbn.
  - reflexivity.
  - destruct (k =? key)%string; cbn; rewrite IH; reflexivity.
Qed.

Lemma dict_pop_In d key k v : In (k, v) (dict_pop d key) -> In (k, v) d.
Proof. intros Hi. apply filter_In in Hi. exact (proj1 Hi). Qed.
End DictFacts.

Section DictListFacts.
Context {V : Type}.
Implicit Types d : list (string * list V).

Lemma dict_get_extend d key other items :
  MediaRepository.dict_get (dict_extend d key items) other []
  = if (key =? other)%string
    then MediaRepository.dict_get d other [] +++ items
    else MediaRepository.dict_get d other [].
Proof.
  induction d as [|[k v] rest IH]; cbn.
  - destruct (key =? other)%string; reflexivity.
  - destruct (String.eqb_spec k key) as [->|Nk]; cbn.
    + destruct (key =? other)%string; reflexivity.
    + destruct (String.eqb_spec k other) as [->|No].
      * destruct (String.eqb_spec key other); [congruence | reflexivity].
      * exact IH.
Qed.

Lemma dict_keys_extend d key items :
  dict_keys (dict_extend d key items)
  = if dict_mem d key then dict_keys d else dict_keys d +++ [key].
Proof.
  unfold dict_keys, dict_mem.
  induction d as [|[k v] rest IH]; cbn.
  - reflexivity.
  - destruct (k =? key)%string eqn:E; cbn; [reflexivity|].
    rewrite IH. destruct (existsb _ rest); reflexivity.
Qed.

Lemma dict_extend_NoDup d key items :
  NoDup (dict_keys d) -> NoDup (dict_keys (dict_extend d key items)).
Proof.
  intros Hn. rewrite dict_keys_extend. destruct (dict_mem d key) eqn:E.
  - exact Hn.
  - apply NoDup_app; [exact Hn | repeat constructor; intros [] |].
    intros k Hk [<- | []]. apply dict_mem_keys in Hk. congruence.
Qed.

(** Extending [d] by every item of a dict [m] appends, for each key, what
    [m] holds for it. *)
Lemma dict_get_extend_all (m : list (string * list V)) d other :
  NoDup (dict_keys m) ->
  MediaRepository.dict_get
    (fold_left (fun d item => dict_extend d (fst item) (snd item)) m d)
    other []
  = MediaRepository.dict_get d other []
      +++ MediaRepository.dict_get m other [].
Proof.
  revert d. induction m as [|[k v] rest IH]; intros d Hn; cbn.
  - rewrite app_nil_r. reflexivity.
  - inversion Hn as [|k0 l0 Hk Hrest]; subst. rewrite (IH _ Hrest).
    rewrite dict_get_extend.
    destruct (String.eqb_spec k other) as [->|N].
    + assert (E : MediaRepository.dict_get rest other [] = []).
      { clear - Hk. induction rest as [|[k1 v1] rest IH]; cbn; [reflexivity|].
        destruct (String.eqb_spec k1 other) as [->|N].
        - exfalso. apply Hk. left. reflexivity.
        - apply IH. intros Hi. apply Hk. right. exact Hi. }
      rewrite E, app_nil_r. reflexivity.
    + reflexivity.
Qed.
End DictListFacts.

(** ** Pairing audio with video *)

Section Pairing.
Context {F : Type} `{PyFloat F} `{PyRuntime F}.
Variable lower : string -> string.

Lemma video_stems_skip (videos : list (VideoClip.t F)) stems id :
  ~ In id (map (@VideoClip.clip_id F) videos) ->
  MediaRepository.dict_get
    (fold_left
       (fun stems video =>
          dict_set stems (VideoClip.clip_id video)
            (MediaStore._collect_name_variants lower (VideoClip.file_path video)))
       videos stems) id []
  = MediaRepository.dict_get stems id [].
Proof.
  revert stems. induction videos as [|v rest IH]; intros stems Hn; cbn.
  - reflexivity.
  - rewrite IH; [|intros Hi; apply Hn; right; exact Hi].
    apply dict_get_set_other. intros E. apply Hn. left. exact E.
Qed.

Lemma video_stems_get (videos : list (VideoClip.t F)) stems video :
  NoDup (map (@VideoClip.clip_id F) videos) ->
  In video videos ->
  MediaRepository.dict_get
    (fold_left
       (fun stems video =>
          dict_set stems (VideoClip.clip_id video)
            (MediaStore._collect_name_variants lower (VideoClip.file_path video)))
       videos stems) (VideoClip.clip_id video) []
  = MediaStore._collect_name_variants lower (VideoClip.file_path video).
Proof.
  revert stems. induction videos as [|v rest IH]; intros stems Hn Hin.
  - contradiction.
  - cbn [fold_left]. cbn [map] in Hn. inversion Hn as [|k l Hk Hrest]; subst.
    destruct Hin as [-> | Hin].
    + rewrite video_stems_skip by exact Hk. apply dict_get_set_same.
    + apply IH; assumption.
Qed.

Lemma first_match_find stems names (candidates : list (VideoClip.t F)) :
  (forall video, In video candidates ->
     MediaRepository.dict_get stems (VideoClip.clip_id video) []
     = MediaStore._collect_name_variants lower (VideoClip.file_path video)) ->
  MediaStore.first_match stems names candidates
  = find (fun video =>
            MediaStore.intersects
              (MediaStore._collect_name_variants lower (VideoClip.file_path video))
              names)
         candidates.
Proof.
  induction candidates as [|v rest IH]; intros Hs;
    cbn [MediaStore.first_match find].
  - reflexivity.
  - rewrite (Hs v) by (left; reflexivity).
    destruct (MediaStore.intersects _ names); [reflexivity|].
    apply IH. intros video Hi. apply Hs. right. exact Hi.
Qed.

Lemma pair_step_home videos stems mapping unmatched clip :
  (forall names,
     MediaStore.first_match stems names videos
     = find (fun video =>
               MediaStore.intersects
                 (MediaStore._collect_name_variants lower
                    (VideoClip.file_path video)) names) videos) ->
  MediaStore.pair_step lower videos stems (mapping, unmatched) clip
  = match home lower videos clip with
    | Some id => (dict_extend mapping id [clip], unmatched)
    | None => (mapping, unmatched +++ [clip])
    end.
Proof.
  intros Hfm. unfold MediaStore.pair_step, home, names_meet. rewrite Hfm.
  destruct (find _ videos); reflexivity.
Qed.

Lemma pair_fold videos stems clips mapping unmatched :
  (forall names,
     MediaStore.first_match stems names videos
     = find (fun video =>
               MediaStore.intersects
                 (MediaStore._collect_name_variants lower
                    (VideoClip.file_path video)) names) videos) ->
  (forall id,
     MediaRepository.dict_get
       (fst (fold_left (MediaStore.pair_step lower videos stems) clips
               (mapping, unmatched))) id []
     = MediaRepository.dict_get mapping id []
         +++ filter (goes_to lower videos id) clips)
  /\ snd (fold_left (MediaStore.pair_step lower videos stems) clips
            (mapping, unmatched))
     = unmatched +++ filter (homeless lower videos) clips
  /\ (NoDup (dict_keys mapping) ->
      NoDup (dict_keys
               (fst (fold_left (MediaStore.pair_step lower videos stems) clips
                       (mapping, unmatched))))).
Proof.
  intros Hfm. revert mapping unmatched.
  induction clips as [|clip rest IH]; intros mapping unmatched.
  - cbn. split; [intros id; rewrite app_nil_r; reflexivity|].
    split; [rewrite app_nil_r; reflexivity | auto].
  - cbn [fold_left filter]. rewrite pair_step_home by exact Hfm.
    unfold goes_to, homeless. destruct (home lower videos clip) as [id0|].
    + destruct (IH (dict_extend mapping id0 [clip]) unmatched) as (Hg & Hu & Hn).
      split; [|split].
      * intros id. rewrite Hg, dict_get_extend.
        destruct (id0 =? id)%string; [|reflexivity].
        rewrite <- app_assoc. reflexivity.
      * exact Hu.
      * intros Hd. apply Hn. apply dict_extend_NoDup. exact Hd.
    + destruct (IH mapping (unmatched +++ [clip])) as (Hg & Hu & Hn).
      split; [exact Hg|]. split; [|exact Hn].
      rewrite Hu, <- app_assoc. reflexivity.
Qed.

Lemma well_keyed_ids (self : MediaStore.t (F := F)) :
  well_keyed self ->
  map (@VideoClip.clip_id F) (dict_values (MediaStore._videos self))
  = dict_keys (MediaStore._videos self).
Proof.
  intros [_ Hk]. unfold dict_values, dict_keys. rewrite map_map.
  apply map_ext_in. intros [k v] Hi. cbn. apply Hk. exact Hi.
Qed.

Lemma stems_of_store (self : MediaStore.t (F := F)) names :
  well_keyed self ->
  MediaStore.first_match
    (MediaStore.video_stems lower (dict_values (MediaStore._videos self)))
    names (dict_values (MediaStore._videos self))
  = find (fun video =>
            MediaStore.intersects
              (MediaStore._collect_name_variants lower
                 (VideoClip.file_path video)) names)
         (dict_values (MediaStore._videos self)).
Proof.
  intros Hw. apply first_match_find. intros video Hi.
  apply video_stems_get; [|exact Hi].
  rewrite well_keyed_ids by exact Hw. exact (proj1 Hw).
Qed.

Lemma filter_nil {A : Type} (f : A -> bool) (l : list A) :
  filter f l = [] <-> forall a, In a l -> f a = false.
Proof.
  induction l as [|a rest IH]; cbn.
  - split; [intros _ a [] | reflexivity].
  - destruct (f a) eqn:E.
    + split; [discriminate|]. intros Hall.
      rewrite (Hall a (or_introl eq_refl)) in E. discriminate.
    + rewrite IH. split.
      * intros Hall b [<- | Hi]; [exact E | exact (Hall b Hi)].
      * intros Hall b Hi. apply Hall. right. exact Hi.
Qed.

Lemma set_warning_back (self : MediaStore.t (F := F)) warning :
  MediaStore.set_warning (MediaStore.set_warning self warning)
    (MediaStore._last_unmatched_warning self) = self.
Proof. destruct self. reflexivity. Qed.

Lemma pair_audio_with_video_eq (self : MediaStore.t (F := F)) clips :
  let videos := dict_values (MediaStore._videos self) in
  let state :=
    fold_left (MediaStore.pair_step lower videos (MediaStore.video_stems lower videos))
      clips ([], []) in
  MediaStore.pair_audio_with_video lower self clips
  = (fst state,
     MediaStore.set_warning self
       (if truthy (snd state)
        then Some ("未匹配的音频: "
                   ++ join ", " (map (@AudioClip.display_name F) (snd state)))
        else None)).
Proof.
  cbv zeta. unfold MediaStore.pair_audio_with_video.
  destruct (fold_left _ clips ([], [])) as [mapping unmatched]. reflexivity.
Qed.

(** X11. Pairing sends every audio clip to the first video, in the order
    the videos were registered, that shares a name variant with it; the
    clips of one video keep their order, no clip is paired twice, and the
    warning is cleared exactly when every clip found its video.  Nothing
    else of the repository changes. *)
Theorem pairing_follows_registration_order
    (self : MediaStore.t (F := F)) (audio_clips : list (AudioClip.t F)) :
  well_keyed self ->
  let videos := dict_values (MediaStore._videos self) in
  let result := MediaStore.pair_audio_with_video lower self audio_clips in
  (forall video_id,
     MediaRepository.dict_get (fst result) video_id []
     = filter (goes_to lower videos video_id) audio_clips)
  /\ (MediaStore.last_unmatched_warning (snd result) = None
      <-> forall clip, In clip audio_clips -> homeless lower videos clip = false)
  /\ NoDup (dict_keys (fst result))
  /\ MediaStore.set_warning (snd result)
       (MediaStore._last_unmatched_warning self) = self.
Proof.
  intros Hw videos result. subst result.
  rewrite pair_audio_with_video_eq. cbv zeta. fold videos. cbn [fst snd].
  destruct (pair_fold videos (MediaStore.video_stems lower videos)
              audio_clips [] []
              (fun names => stems_of_store names Hw))
    as (Hg & Hu & Hn).
  fold videos in Hg, Hu, Hn.
  split; [|split; [|split]].
  - intros id. rewrite Hg. reflexivity.
  - rewrite Hu. cbn [app MediaStore.last_unmatched_warning
                     MediaStore._last_unmatched_warning MediaStore.set_warning].
    rewrite <- filter_nil.
    destruct (filter (homeless lower videos) audio_clips); cbn.
    + split; reflexivity.
    + split; discriminate.
  - apply Hn. constructor.
  - apply set_warning_back.
Qed.
End Pairing.

Lemma dict_mem_map_values {V : Type} (f : V -> V) (d : list (string * V)) id :
  dict_mem (map (fun item => (fst item, f (snd item))) d) id = dict_mem d id.
Proof.
  unfold dict_mem. induction d as [|[k v] rest IH]; cbn;
    [reflexivity | rewrite IH; reflexivity].
Qed.

Lemma dict_item_map_values {V : Type} (f : V -> V) (d : list (string * V)) id :
  dict_item (map (fun item => (fst item, f (snd item))) d) id
  = option_map f (dict_item d id).
Proof.
  induction d as [|[k v] rest IH]; cbn; [reflexivity|].
  destruct (k =? id)%string; [reflexivity | exact IH].
Qed.

Lemma dict_keys_map_values {V : Type} (f : V -> V) (d : list (string * V)) :
  dict_keys (map (fun item => (fst item, f (snd item))) d) = dict_keys d.
Proof.
  unfold dict_keys. rewrite map_map. reflexivity.
Qed.

(** ** Registration *)

Section Registration.
Context {F : Type} `{PyFloat F} `{PyRuntime F}.
Variable lower : string -> string.
Variable path_name : Path -> string.
Variable is_absolute : Path -> bool.
Variable resolve : Path -> Path.

Lemma register_video_videos self video :
  MediaStore._videos ((stored_video path_name is_absolute resolve) self video)
  = dict_set (MediaStore._videos self) (VideoClip.clip_id video) video.
Proof.
  unfold stored_video.
  cbn [MediaStore._configs MediaStore.set_videos].
  destruct (dict_mem (MediaStore._configs self) (VideoClip.clip_id video));
    reflexivity.
Qed.

Lemma register_video_configs self video :
  MediaStore._configs ((stored_video path_name is_absolute resolve) self video)
  = if dict_mem (MediaStore._configs self) (VideoClip.clip_id video)
    then MediaStore._configs self
    else dict_set (MediaStore._configs self) (VideoClip.clip_id video)
           (MediaStore.default_config self video).
Proof.
  unfold stored_video.
  cbn [MediaStore._configs MediaStore.set_videos].
  destruct (dict_mem (MediaStore._configs self) (VideoClip.clip_id video));
    reflexivity.
Qed.

Lemma register_video_output_paths self video :
  dict_keys (MediaStore._output_paths ((stored_video path_name is_absolute resolve) self video))
  = if dict_mem (MediaStore._configs self) (VideoClip.clip_id video)
    then dict_keys (MediaStore._output_paths self)
    else dict_keys
           (dict_set (MediaStore._output_paths self) (VideoClip.clip_id video)
              (MediaStore.output_path_for path_name is_absolute resolve
                 self video)).
Proof.
  unfold stored_video.
  cbn [MediaStore._configs MediaStore.set_videos].
  destruct (dict_mem (MediaStore._configs self) (VideoClip.clip_id video));
    reflexivity.
Qed.

Lemma register_video_rest self video :
  MediaStore._audios_by_video ((stored_video path_name is_absolute resolve) self video) = MediaStore._audios_by_video self
  /\ MediaStore._enable_limiter_default ((stored_video path_name is_absolute resolve) self video)
     = MediaStore._enable_limiter_default self
  /\ MediaStore._last_unmatched_warning ((stored_video path_name is_absolute resolve) self video)
     = MediaStore._last_unmatched_warning self
  /\ MediaStore._default_output_dir ((stored_video path_name is_absolute resolve) self video)
     = MediaStore._default_output_dir self.
Proof.
  unfold stored_video.
  cbn [MediaStore._configs MediaStore.set_videos].
  destruct (dict_mem (MediaStore._configs self) (VideoClip.clip_id video));
    repeat split.
Qed.

Lemma register_video_well_keyed self video :
  well_keyed self -> well_keyed ((stored_video path_name is_absolute resolve) self video).
Proof.
  intros [Hn Hk]. unfold well_keyed. rewrite register_video_videos. split.
  - apply dict_set_NoDup. exact Hn.
  - intros key v Hi. apply dict_set_In in Hi.
    destruct Hi as [[-> ->] | Hi]; [reflexivity | exact (Hk _ _ Hi)].
Qed.

Lemma register_video_complete self video :
  complete self -> complete ((stored_video path_name is_absolute resolve) self video).
Proof.
  intros [Hv Hc]. unfold complete.
  rewrite register_video_videos, register_video_configs. split.
  - intros id. rewrite dict_mem_set.
    destruct (String.eqb_spec (VideoClip.clip_id video) id) as [<-|N]; cbn.
    + intros _.
      destruct (dict_mem (MediaStore._configs self) (VideoClip.clip_id video))
        eqn:E; [exact E|].
      rewrite dict_mem_set, String.eqb_refl. reflexivity.
    + intros Hm. specialize (Hv id Hm).
      destruct (dict_mem (MediaStore._configs self) (VideoClip.clip_id video));
        [exact Hv|].
      rewrite dict_mem_set, Hv. apply Bool.orb_true_r.
  - intros id. rewrite (dict_mem_keys (MediaStore._output_paths _)).
    rewrite register_video_output_paths.
    destruct (dict_mem (MediaStore._configs self) (VideoClip.clip_id video)).
    + intros Hm. apply dict_mem_keys. exact (Hc id Hm).
    + rewrite dict_mem_set. intros Hm. apply dict_mem_keys.
      rewrite dict_mem_set.
      destruct (VideoClip.clip_id video =? id)%string; [reflexivity|].
      cbn in *. exact (Hc id Hm).
Qed.

Lemma default_config_same self self' video video' :
  MediaStore._enable_limiter_default self'
  = MediaStore._enable_limiter_default self ->
  VideoClip.clip_id video' = VideoClip.clip_id video ->
  MediaStore.default_config self' video' = MediaStore.default_config self video.
Proof.
  intros El Ei. unfold MediaStore.default_config. rewrite El, Ei. reflexivity.
Qed.

Lemma register_videos_rest videos self :
  MediaStore._audios_by_video (fold_left (stored_video path_name is_absolute resolve) videos self)
  = MediaStore._audios_by_video self
  /\ MediaStore._enable_limiter_default (fold_left (stored_video path_name is_absolute resolve) videos self)
     = MediaStore._enable_limiter_default self.
Proof.
  revert self. induction videos as [|v rest IH]; intros self; cbn [fold_left].
  - split; reflexivity.
  - destruct (IH ((stored_video path_name is_absolute resolve) self v)) as [Ea El].
    destruct (register_video_rest self v) as (Ea' & El' & _).
    split; congruence.
Qed.

Lemma register_videos_keep_configs videos self id config :
  dict_item (MediaStore._configs self) id = Some config ->
  dict_item (MediaStore._configs (fold_left (stored_video path_name is_absolute resolve) videos self)) id
  = Some config.
Proof.
  revert self. induction videos as [|v rest IH]; intros self E; cbn [fold_left].
  - exact E.
  - apply IH. rewrite register_video_configs.
    destruct (dict_mem (MediaStore._configs self) (VideoClip.clip_id v)) eqn:Em;
      [exact E|].
    rewrite dict_item_set_other; [exact E|].
    intros <-. assert (Hm : dict_mem (MediaStore._configs self)
                              (VideoClip.clip_id v) = true).
    { apply dict_mem_item. exists config. exact E. }
    congruence.
Qed.

Lemma register_videos_keep_videos videos self id :
  dict_mem (MediaStore._videos self) id = true ->
  dict_mem (MediaStore._videos (fold_left (stored_video path_name is_absolute resolve) videos self)) id
  = true.
Proof.
  revert self. induction videos as [|v rest IH]; intros self E; cbn [fold_left].
  - exact E.
  - apply IH. rewrite register_video_videos, dict_mem_set, E.
    apply Bool.orb_true_r.
Qed.

Lemma register_videos_registered videos self video :
  In video videos ->
  dict_mem (MediaStore._videos (fold_left (stored_video path_name is_absolute resolve) videos self))
    (VideoClip.clip_id video) = true.
Proof.
  revert self. induction videos as [|v rest IH]; intros self Hi; cbn [fold_left].
  - contradiction.
  - destruct Hi as [-> | Hi]; [|apply IH; exact Hi].
    apply register_videos_keep_videos.
    rewrite register_video_videos, dict_mem_set, String.eqb_refl. reflexivity.
Qed.

Lemma register_videos_new_config videos self video :
  In video videos ->
  dict_mem (MediaStore._configs self) (VideoClip.clip_id video) = false ->
  dict_item (MediaStore._configs (fold_left (stored_video path_name is_absolute resolve) videos self))
    (VideoClip.clip_id video)
  = Some (MediaStore.default_config self video).
Proof.
  revert self. induction videos as [|v rest IH]; intros self Hi Em;
    cbn [fold_left].
  - contradiction.
  - destruct (String.eqb_spec (VideoClip.clip_id v) (VideoClip.clip_id video))
      as [E | N].
    + apply register_videos_keep_configs. rewrite register_video_configs.
      rewrite E, Em, dict_item_set_same. f_equal.
      apply default_config_same; [reflexivity | exact E].
    + destruct Hi as [-> | Hi]; [contradiction N; reflexivity|].
      rewrite (IH ((stored_video path_name is_absolute resolve) self v) Hi).
      * f_equal. apply default_config_same; [|reflexivity].
        exact (proj1 (proj2 (register_video_rest self v))).
      * rewrite register_video_configs.
        destruct (dict_mem (MediaStore._configs self) (VideoClip.clip_id v));
          [exact Em|].
        rewrite dict_mem_set, Em.
        destruct (String.eqb_spec (VideoClip.clip_id v) (VideoClip.clip_id video));
          [contradiction | reflexivity].
Qed.

Lemma register_videos_well_keyed videos self :
  well_keyed self -> well_keyed (fold_left (stored_video path_name is_absolute resolve) videos self).
Proof.
  revert self. induction videos as [|v rest IH]; intros self Hw; cbn [fold_left].
  - exact Hw.
  - apply IH. apply register_video_well_keyed. exact Hw.
Qed.

Lemma register_videos_complete videos self :
  complete self -> complete (fold_left (stored_video path_name is_absolute resolve) videos self).
Proof.
  revert self. induction videos as [|v rest IH]; intros self Hc; cbn [fold_left].
  - exact Hc.
  - apply IH. apply register_video_complete. exact Hc.
Qed.

Lemma register_video_tidy self video :
  tidy self -> tidy (stored_video path_name is_absolute resolve self video).
Proof.
  intros T id Hm. apply dict_mem_keys in Hm.
  rewrite register_video_output_paths in Hm. rewrite register_video_configs.
  destruct (dict_mem (MediaStore._configs self) (VideoClip.clip_id video)).
  - apply dict_mem_keys in Hm. exact (T id Hm).
  - apply dict_mem_keys in Hm. rewrite dict_mem_set in Hm.
    rewrite dict_mem_set.
    destruct (VideoClip.clip_id video =? id)%string; [reflexivity|].
    cbn [orb] in *. exact (T id Hm).
Qed.

Lemma register_videos_tidy videos self :
  tidy self ->
  tidy (fold_left (stored_video path_name is_absolute resolve) videos self).
Proof.
  revert self. induction videos as [|v rest IH]; intros self T; cbn [fold_left].
  - exact T.
  - apply IH. apply register_video_tidy. exact T.
Qed.

Lemma set_audios_same (self : MediaStore.t (F := F)) :
  MediaStore.set_audios self (MediaStore._audios_by_video self) = self.
Proof. destruct self. reflexivity. Qed.

Lemma extend_all_store (mapping : list (string * list (AudioClip.t F))) self :
  fold_left
    (fun self item =>
       MediaStore.set_audios self
         (dict_extend (MediaStore._audios_by_video self) (fst item) (snd item)))
    mapping self
  = MediaStore.set_audios self
      (fold_left (fun d item => dict_extend d (fst item) (snd item)) mapping
         (MediaStore._audios_by_video self)).
Proof.
  revert self. induction mapping as [|item rest IH]; intros self; cbn [fold_left].
  - symmetry. apply set_audios_same.
  - rewrite IH. reflexivity.
Qed.

Lemma imported_eq self result :
  let registered :=
    fold_left (stored_video path_name is_absolute resolve)
      (ImportResult.videos result) self in
  let paired :=
    MediaStore.pair_audio_with_video lower registered
      (ImportResult.audios result) in
  imported lower path_name is_absolute resolve self result
  = MediaStore.set_audios (snd paired)
      (fold_left (fun d item => dict_extend d (fst item) (snd item))
         (fst paired) (MediaStore._audios_by_video (snd paired))).
Proof.
  cbv zeta. unfold imported.
  destruct (MediaStore.pair_audio_with_video lower _ _) as [mapping paired].
  cbn [fst snd]. apply extend_all_store.
Qed.

(** A configuration found after a run of turns was there before or is the
    default one. *)
Lemma register_videos_config_origin videos : forall self id config,
  dict_item
    (MediaStore._configs
       (fold_left (stored_video path_name is_absolute resolve) videos self)) id
  = Some config ->
  dict_item (MediaStore._configs self) id = Some config
  \/ config = TrackConfig.mk id false (MediaStore._enable_limiter_default self)
                None 3 false MATCH_VIDEO None f0 f0.
Proof.
  induction videos as [|v rest IH]; intros self id config E;
    cbn [fold_left] in E; [left; exact E|].
  apply IH in E. destruct E as [E|E].
  - rewrite register_video_configs in E.
    destruct (dict_mem (MediaStore._configs self) (VideoClip.clip_id v));
      [left; exact E|].
    destruct (String.eqb_spec (VideoClip.clip_id v) id) as [<-|N].
    + rewrite dict_item_set_same in E. inversion E. right. reflexivity.
    + rewrite dict_item_set_other in E by exact N. left. exact E.
  - right. rewrite E.
    rewrite (proj1 (proj2 (register_video_rest self v))). reflexivity.
Qed.

(** *** The turn that [mkdir] may interrupt *)

Variable mkdir : Mkdir.

(** Whether [mkdir] raised or not, a turn leaves the videos, the
    configurations, the clips and the limiter default as a turn without
    exception does; a turn that returns leaves all of it so. *)
Lemma register_video_fields self video :
  MediaStore._videos
    (snd (MediaStore.register_video path_name is_absolute resolve mkdir self
            video))
  = MediaStore._videos (stored_video path_name is_absolute resolve self video)
  /\ MediaStore._configs
       (snd (MediaStore.register_video path_name is_absolute resolve mkdir self
               video))
     = MediaStore._configs
         (stored_video path_name is_absolute resolve self video)
  /\ MediaStore._audios_by_video
       (snd (MediaStore.register_video path_name is_absolute resolve mkdir self
               video))
     = MediaStore._audios_by_video
         (stored_video path_name is_absolute resolve self video)
  /\ MediaStore._enable_limiter_default
       (snd (MediaStore.register_video path_name is_absolute resolve mkdir self
               video))
     = MediaStore._enable_limiter_default
         (stored_video path_name is_absolute resolve self video)
  /\ (fst (MediaStore.register_video path_name is_absolute resolve mkdir self
             video) = TaskExecutor.Returned ->
      snd (MediaStore.register_video path_name is_absolute resolve mkdir self
             video)
      = stored_video path_name is_absolute resolve self video).
Proof.
  unfold MediaStore.register_video, stored_video.
  destruct (negb (dict_mem _ _)); [destruct (mkdir _)|]; cbn [fst snd];
    repeat split; discriminate.
Qed.

(** The loop has gone through a first part of the videos. *)
Lemma register_videos_fields videos : forall self,
  exists done rest,
    videos = done +++ rest
    /\ MediaStore._videos
         (snd (MediaStore.register_videos path_name is_absolute resolve mkdir
                 self videos))
       = MediaStore._videos
           (fold_left (stored_video path_name is_absolute resolve) done self)
    /\ MediaStore._configs
         (snd (MediaStore.register_videos path_name is_absolute resolve mkdir
                 self videos))
       = MediaStore._configs
           (fold_left (stored_video path_name is_absolute resolve) done self)
    /\ MediaStore._audios_by_video
         (snd (MediaStore.register_videos path_name is_absolute resolve mkdir
                 self videos))
       = MediaStore._audios_by_video
           (fold_left (stored_video path_name is_absolute resolve) done self)
    /\ MediaStore._enable_limiter_default
         (snd (MediaStore.register_videos path_name is_absolute resolve mkdir
                 self videos))
       = MediaStore._enable_limiter_default
           (fold_left (stored_video path_name is_absolute resolve) done self)
    /\ (fst (MediaStore.register_videos path_name is_absolute resolve mkdir
               self videos) = TaskExecutor.Returned ->
        done = videos
        /\ snd (MediaStore.register_videos path_name is_absolute resolve mkdir
                  self videos)
           = fold_left (stored_video path_name is_absolute resolve) videos
               self).
Proof.
  induction videos as [|v rest IH]; intros self.
  - exists [], []. cbn. repeat split.
  - cbn [MediaStore.register_videos].
    destruct (register_video_fields self v) as (Ev & Ec & Ea & El & Er).
    destruct (MediaStore.register_video path_name is_absolute resolve mkdir
                self v) as [[|] self1]; cbn [fst snd] in *.
    + rewrite (Er eq_refl).
      destruct (IH (stored_video path_name is_absolute resolve self v))
        as (done & rest' & Es & Hv & Hc & Ha & Hl & Hr).
      exists (v :: done), rest'. cbn [fold_left app].
      split; [rewrite Es; reflexivity|].
      repeat (split; [assumption|]).
      intros R. destruct (Hr R) as [-> E]. split; [reflexivity | exact E].
    + exists [v], rest. cbn [fold_left app].
      repeat (split; [first [reflexivity | assumption]|]).
      discriminate.
Qed.

Lemma register_videos_returns :
  (forall dir, mkdir dir = true) ->
  forall videos self,
    fst (MediaStore.register_videos path_name is_absolute resolve mkdir self
           videos) = TaskExecutor.Returned.
Proof.
  intros Hm. induction videos as [|v rest IH]; intros self; [reflexivity|].
  cbn [MediaStore.register_videos]. unfold MediaStore.register_video.
  destruct (negb (dict_mem _ _)); [rewrite Hm|]; apply IH.
Qed.

(** The turn that [mkdir] interrupts comes after turns that went through:
    its video had no configuration, and it leaves the video and its default
    configuration stored and the output paths as they were. *)
Lemma register_videos_escaped videos : forall self self',
  MediaStore.register_videos path_name is_absolute resolve mkdir self videos
  = (TaskExecutor.Escaped, self') ->
  exists (done : list (VideoClip.t F)) (video : VideoClip.t F),
    dict_mem
      (MediaStore._configs
         (fold_left (stored_video path_name is_absolute resolve) done self))
      (VideoClip.clip_id video) = false
    /\ dict_mem (MediaStore._videos self') (VideoClip.clip_id video) = true
    /\ dict_mem (MediaStore._configs self') (VideoClip.clip_id video) = true
    /\ MediaStore._output_paths self'
       = MediaStore._output_paths
           (fold_left (stored_video path_name is_absolute resolve) done self).
Proof.
  induction videos as [|v rest IH]; intros self self' E;
    cbn [MediaStore.register_videos] in E; [discriminate E|].
  destruct (register_video_fields self v) as (_ & _ & _ & _ & Er).
  destruct (MediaStore.register_video path_name is_absolute resolve mkdir
              self v) as [[|] self1] eqn:Ev; cbn [fst snd] in *.
  - rewrite (Er eq_refl) in E.
    destruct (IH _ _ E) as (done & video & Hc & Hv & Hc' & Hp).
    exists (v :: done), video. cbn [fold_left]. repeat split; assumption.
  - inversion E; subst self1. clear E Er.
    exists [], v. cbn [fold_left].
    unfold MediaStore.register_video in Ev.
    cbn [MediaStore._configs MediaStore.set_videos] in Ev.
    destruct (dict_mem (MediaStore._configs self) (VideoClip.clip_id v))
      eqn:Em; cbn [negb] in Ev; [discriminate Ev|].
    destruct (mkdir _); [discriminate Ev|].
    inversion Ev; subst self'.
    cbn [MediaStore._videos MediaStore._configs MediaStore._output_paths
         MediaStore.set_videos MediaStore.set_configs].
    split; [reflexivity|].
    split; [rewrite dict_mem_set, String.eqb_refl; reflexivity|].
    split; [rewrite dict_mem_set, String.eqb_refl; reflexivity|].
    reflexivity.
Qed.

(** An import that returns leaves what an import without exception
    leaves. *)
Lemma register_import_returned self result self' :
  MediaStore.register_import lower path_name is_absolute resolve mkdir self
    result = (TaskExecutor.Returned, self') ->
  self' = imported lower path_name is_absolute resolve self result.
Proof.
  unfold MediaStore.register_import, imported. intros E.
  destruct (register_videos_fields (ImportResult.videos result) self)
    as (done & rest & _ & _ & _ & _ & _ & Hr).
  destruct (MediaStore.register_videos path_name is_absolute resolve mkdir
              self (ImportResult.videos result)) as [[|] self1];
    cbn [fst snd] in *; [|discriminate E].
  destruct (Hr eq_refl) as [_ ->].
  destruct (MediaStore.pair_audio_with_video lower _ _) as [mapping paired].
  inversion E. reflexivity.
Qed.

(** An import that [mkdir] interrupts leaves what the interrupted loop
    left. *)
Lemma register_import_escaped self result self' :
  MediaStore.register_import lower path_name is_absolute resolve mkdir self
    result = (TaskExecutor.Escaped, self') ->
  MediaStore.register_videos path_name is_absolute resolve mkdir self
    (ImportResult.videos result) = (TaskExecutor.Escaped, self').
Proof.
  unfold MediaStore.register_import.
  destruct (MediaStore.register_videos path_name is_absolute resolve mkdir
              self (ImportResult.videos result)) as [[|] self1].
  - destruct (MediaStore.pair_audio_with_video lower _ _). discriminate.
  - intros E. exact E.
Qed.

Lemma register_import_returns self result :
  (forall dir, mkdir dir = true) ->
  exists self',
    MediaStore.register_import lower path_name is_absolute resolve mkdir self
      result = (TaskExecutor.Returned, self').
Proof.
  intros Hm. unfold MediaStore.register_import.
  pose proof (register_videos_returns Hm (ImportResult.videos result) self)
    as R.
  destruct (MediaStore.register_videos path_name is_absolute resolve mkdir
              self (ImportResult.videos result)) as [[|] self1];
    cbn [fst] in R; [|discriminate R].
  destruct (MediaStore.pair_audio_with_video lower _ _) as [mapping paired].
  eexists. reflexivity.
Qed.

(** The videos and the configurations after an import, however it ended,
    are those after the turns it went through. *)
Lemma register_import_fields self result :
  exists done rest,
    ImportResult.videos result = done +++ rest
    /\ MediaStore._videos
         (snd (MediaStore.register_import lower path_name is_absolute resolve
                 mkdir self result))
       = MediaStore._videos
           (fold_left (stored_video path_name is_absolute resolve) done self)
    /\ MediaStore._configs
         (snd (MediaStore.register_import lower path_name is_absolute resolve
                 mkdir self result))
       = MediaStore._configs
           (fold_left (stored_video path_name is_absolute resolve) done self)
    /\ (fst (MediaStore.register_import lower path_name is_absolute resolve
               mkdir self result) = TaskExecutor.Returned ->
        done = ImportResult.videos result).
Proof.
  destruct (register_videos_fields (ImportResult.videos result) self)
    as (done & rest & Es & Hv & Hc & _ & _ & Hr).
  exists done, rest. split; [exact Es|].
  unfold MediaStore.register_import.
  destruct (MediaStore.register_videos path_name is_absolute resolve mkdir
              self (ImportResult.videos result)) as [[|] self1];
    cbn [fst snd] in *.
  - rewrite pair_audio_with_video_eq. cbv zeta.
    rewrite extend_all_store.
    cbn [fst snd MediaStore._videos MediaStore._configs MediaStore.set_audios
         MediaStore.set_warning].
    repeat (split; [assumption|]). intros _. exact (proj1 (Hr eq_refl)).
  - repeat (split; [assumption|]). discriminate.
Qed.

(** The configuration of a video that had none, after an import of it. *)
Lemma imported_config self result video ending self' :
  In video (ImportResult.videos result) ->
  dict_mem (MediaStore._configs self) (VideoClip.clip_id video) = false ->
  MediaStore.register_import lower path_name is_absolute resolve mkdir self
    result = (ending, self') ->
  (forall config,
     dict_item (MediaStore._configs self') (VideoClip.clip_id video)
     = Some config ->
     config = MediaStore.default_config self video)
  /\ (ending = TaskExecutor.Returned ->
      dict_item (MediaStore._configs self') (VideoClip.clip_id video)
      = Some (MediaStore.default_config self video)).
Proof.
  intros Hi Em E.
  destruct (register_import_fields self result)
    as (done & rest & Es & _ & Hc & Hr).
  rewrite E in Hc, Hr. cbn [fst snd] in Hc, Hr. rewrite Hc. split.
  - intros config Ec. apply register_videos_config_origin in Ec.
    destruct Ec as [Ec | ->]; [|reflexivity].
    assert (Hm : dict_mem (MediaStore._configs self) (VideoClip.clip_id video)
                 = true) by (apply dict_mem_item; exists config; exact Ec).
    congruence.
  - intros R. rewrite (Hr R).
    apply register_videos_new_config; assumption.
Qed.

(** X12. Importing never loses anything.  When [register_import] returns,
    the audio clips a video had stay in front, followed by the imported
    clips that pair with it (in import order, pairing being done against
    all videos including the new ones); a video that already had a
    configuration keeps it, a new video gets the default configuration, and
    every imported video is registered.  When it is left by the OSError of
    a [mkdir], the videos keep their clips and their configurations, and
    no imported clip is attached.  It returns when every [mkdir]
    succeeds. *)
Theorem register_import_appends_and_keeps_settings
    (self : MediaStore.t (F := F)) (result : ImportResult.t F) :
  well_keyed self ->
  (forall self',
     MediaStore.register_import lower path_name is_absolute resolve mkdir
       self result = (TaskExecutor.Returned, self') ->
     let videos' := dict_values (MediaStore._videos self') in
     (forall video_id,
        MediaStore.get_audio_clips self' video_id
        = MediaStore.get_audio_clips self video_id
            +++ filter (goes_to lower videos' video_id)
                  (ImportResult.audios result))
     /\ (forall video_id config,
           dict_item (MediaStore._configs self) video_id = Some config ->
           dict_item (MediaStore._configs self') video_id = Some config)
     /\ (forall video, In video (ImportResult.videos result) ->
           dict_mem (MediaStore._videos self') (VideoClip.clip_id video) = true)
     /\ (forall video, In video (ImportResult.videos result) ->
           dict_mem (MediaStore._configs self) (VideoClip.clip_id video) = false ->
           dict_item (MediaStore._configs self') (VideoClip.clip_id video)
           = Some (TrackConfig.mk (VideoClip.clip_id video) false
                     (MediaStore._enable_limiter_default self) None 3 false
                     MATCH_VIDEO None f0 f0))
     /\ well_keyed self')
  /\ (forall self',
        MediaStore.register_import lower path_name is_absolute resolve mkdir
          self result = (TaskExecutor.Escaped, self') ->
        (forall video_id,
           MediaStore.get_audio_clips self' video_id
           = MediaStore.get_audio_clips self video_id)
        /\ (forall video_id config,
              dict_item (MediaStore._configs self) video_id = Some config ->
              dict_item (MediaStore._configs self') video_id = Some config)
        /\ well_keyed self')
  /\ ((forall dir, mkdir dir = true) ->
      exists self',
        MediaStore.register_import lower path_name is_absolute resolve mkdir
          self result = (TaskExecutor.Returned, self')).
Proof.
  intros Hw. split; [|split].
  - intros self' E videos'. subst videos'.
    apply register_import_returned in E. subst self'.
    rewrite imported_eq. cbv zeta.
    set (registered :=
           fold_left (stored_video path_name is_absolute resolve)
             (ImportResult.videos result) self).
    assert (Hwr : well_keyed registered)
      by (apply register_videos_well_keyed; exact Hw).
    rewrite pair_audio_with_video_eq. cbv zeta. cbn [fst snd].
    destruct (pair_fold lower (dict_values (MediaStore._videos registered))
                (MediaStore.video_stems lower
                   (dict_values (MediaStore._videos registered)))
                (ImportResult.audios result) [] []
                (fun names => stems_of_store lower names Hwr))
      as (Hg & _ & Hn).
    unfold MediaStore.get_audio_clips.
    cbn [MediaStore._videos MediaStore._configs MediaStore.set_audios
         MediaStore.set_warning MediaStore._audios_by_video].
    split; [|split; [|split; [|split]]].
    + intros id. rewrite dict_get_extend_all by (apply Hn; constructor).
      rewrite Hg. cbn [MediaRepository.dict_get app]. unfold registered.
      rewrite (proj1 (register_videos_rest (ImportResult.videos result) self)).
      reflexivity.
    + intros id config E. apply register_videos_keep_configs. exact E.
    + intros video Hi. apply register_videos_registered. exact Hi.
    + intros video Hi Em.
      exact (register_videos_new_config _ self video Hi Em).
    + exact Hwr.
  - intros self' E. apply register_import_escaped in E.
    destruct (register_videos_fields (ImportResult.videos result) self)
      as (done & rest & _ & Hv & Hc & Ha & _ & _).
    rewrite E in Hv, Hc, Ha. cbn [snd] in Hv, Hc, Ha.
    split; [|split].
    + intros id. unfold MediaStore.get_audio_clips. rewrite Ha.
      rewrite (proj1 (register_videos_rest done self)). reflexivity.
    + intros id config Ec. rewrite Hc.
      apply register_videos_keep_configs. exact Ec.
    + pose proof (@register_videos_well_keyed done self Hw) as Hd.
      unfold well_keyed in *. rewrite Hv. exact Hd.
  - apply register_import_returns.
Qed.

(** X13. The limiter default is remembered for the videos registered later,
    the override switch is not: a video imported after
    [set_override_original] starts with the original soundtrack kept,
    whatever the value given, while one imported after
    [set_default_enable_limiter] starts with the value given.  This holds of
    whatever configuration the video has after [register_import], also when
    the import was left by the OSError of a [mkdir]; when the import
    returns, the video has a configuration. *)
Theorem override_switch_does_not_reach_later_imports
    (self : MediaStore.t (F := F)) (value : bool) (result : ImportResult.t F)
    (video : VideoClip.t F) :
  In video (ImportResult.videos result) ->
  dict_mem (MediaStore._configs self) (VideoClip.clip_id video) = false ->
  (forall ending self',
     MediaStore.register_import lower path_name is_absolute resolve mkdir
       (MediaStore.set_override_original self value) result
     = (ending, self') ->
     (forall config,
        dict_item (MediaStore._configs self') (VideoClip.clip_id video)
        = Some config ->
        TrackConfig.override_original config = false)
     /\ (ending = TaskExecutor.Returned ->
         exists config,
           dict_item (MediaStore._configs self') (VideoClip.clip_id video)
           = Some config))
  /\ (forall ending self',
        MediaStore.register_import lower path_name is_absolute resolve mkdir
          (MediaStore.set_default_enable_limiter self value) result
        = (ending, self') ->
        (forall config,
           dict_item (MediaStore._configs self') (VideoClip.clip_id video)
           = Some config ->
           TrackConfig.enable_limiter config = value)
        /\ (ending = TaskExecutor.Returned ->
            exists config,
              dict_item (MediaStore._configs self') (VideoClip.clip_id video)
              = Some config)).
Proof.
  intros Hi Em. split.
  - intros ending self' E.
    assert (Em' : dict_mem
                    (MediaStore._configs
                       (MediaStore.set_override_original self value))
                    (VideoClip.clip_id video) = false).
    { cbn [MediaStore.set_override_original MediaStore.set_configs
           MediaStore._configs].
      rewrite (dict_mem_map_values (fun c => replace_override_original c value)).
      exact Em. }
    destruct (@imported_config _ result video ending self' Hi Em' E)
      as [Hall Hret].
    split.
    + intros config Ec. rewrite (Hall config Ec). reflexivity.
    + intros R. eexists. exact (Hret R).
  - intros ending self' E.
    assert (Em' : dict_mem
                    (MediaStore._configs
                       (MediaStore.set_default_enable_limiter self value))
                    (VideoClip.clip_id video) = false).
    { cbn [MediaStore.set_default_enable_limiter MediaStore.set_configs
           MediaStore._configs].
      rewrite (dict_mem_map_values (fun c => replace_enable_limiter c value)).
      exact Em. }
    destruct (@imported_config _ result video ending self' Hi Em' E)
      as [Hall Hret].
    split.
    + intros config Ec. rewrite (Hall config Ec). reflexivity.
    + intros R. eexists. exact (Hret R).
Qed.
End Registration.

(** ** Sessions *)

Lemma dict_item_In {V : Type} (d : list (string * V)) key value :
  dict_item d key = Some value -> In (key, value) d.
Proof.
  induction d as [|[k v] rest IH]; cbn; [discriminate|].
  destruct (String.eqb_spec k key) as [->|N].
  - intros E. inversion E. left. reflexivity.
  - intros E. right. apply IH. exact E.
Qed.

Section Sessions.
Context {F : Type} `{PyFloat F} `{PyRuntime F}.
Variable lower : string -> string.
Variable path_name : Path -> string.
Variable is_absolute : Path -> bool.
Variable resolve : Path -> Path.
Variable expanduser : Path -> Path.
Variable mkdir : Mkdir.

Lemma invariant_by_keys (self self' : MediaStore.t (F := F)) :
  MediaStore._videos self' = MediaStore._videos self ->
  dict_keys (MediaStore._configs self') = dict_keys (MediaStore._configs self) ->
  dict_keys (MediaStore._output_paths self')
  = dict_keys (MediaStore._output_paths self) ->
  well_keyed self /\ complete self -> well_keyed self' /\ complete self'.
Proof.
  intros Ev Ec Ep [Hw [Hv Hc]]. unfold well_keyed, complete. rewrite Ev.
  split; [exact Hw|]. split.
  - intros id Hm. apply dict_mem_keys. rewrite Ec. apply dict_mem_keys.
    exact (Hv id Hm).
  - intros id Hm. apply dict_mem_keys. rewrite Ep. apply dict_mem_keys.
    apply Hc. apply dict_mem_keys. rewrite <- Ec. apply dict_mem_keys. exact Hm.
Qed.

Lemma remove_video_invariant (self : MediaStore.t (F := F)) video_id :
  well_keyed self /\ complete self ->
  well_keyed (MediaStore.remove_video self video_id)
  /\ complete (MediaStore.remove_video self video_id).
Proof.
  intros [[Hn Hk] [Hv Hc]]. unfold well_keyed, complete, MediaStore.remove_video.
  cbn [MediaStore._videos MediaStore._configs MediaStore._output_paths
       MediaStore.set_videos MediaStore.set_audios MediaStore.set_configs
       MediaStore.set_output_paths].
  split; [split|split].
  - rewrite dict_pop_keys. apply NoDup_filter. exact Hn.
  - intros key video Hi. apply Hk. exact (dict_pop_In _ _ _ _ Hi).
  - intros id. rewrite !dict_mem_pop.
    destruct (video_id =? id)%string; cbn; [discriminate | apply Hv].
  - intros id. rewrite !dict_mem_pop.
    destruct (video_id =? id)%string; cbn; [discriminate | apply Hc].
Qed.

Lemma reachable_invariant (self : MediaStore.t (F := F)) :
  reachable lower path_name is_absolute resolve expanduser mkdir self ->
  well_keyed self /\ complete self.
Proof.
  induction 1 as
    [ limiter dir
    | self result self' _ IH E
    | self clips _ IH
    | self video_id clips _ IH
    | self video_id config _ IH Hm
    | self video_id _ IH
    | self video_id audio_id _ IH
    | self audios _ IH R
    | self video_id clip category w self' w' _ IH E
    | self value _ IH
    | self path _ IH
    | self value _ IH ].
  - split; [split; [constructor | intros key video []]|].
    split; intros id Hm; discriminate Hm.
  - apply register_import_returned in E. subst self'.
    rewrite imported_eq. cbv zeta. rewrite pair_audio_with_video_eq.
    cbv zeta. cbn [fst snd].
    apply (@invariant_by_keys
             (fold_left (stored_video path_name is_absolute resolve)
                (ImportResult.videos result) self));
      [reflexivity | reflexivity | reflexivity |].
    split; [apply register_videos_well_keyed | apply register_videos_complete];
      apply IH.
  - rewrite pair_audio_with_video_eq. cbv zeta. cbn [snd].
    apply (@invariant_by_keys self); [reflexivity | reflexivity | reflexivity | exact IH].
  - apply (@invariant_by_keys self); [reflexivity | reflexivity | reflexivity | exact IH].
  - apply (@invariant_by_keys self); [reflexivity | | reflexivity | exact IH].
    cbn [MediaStore.update_session_config MediaStore.set_configs
         MediaStore._configs].
    rewrite dict_keys_set. rewrite (proj1 (proj2 IH) video_id Hm). reflexivity.
  - apply remove_video_invariant. exact IH.
  - apply (@invariant_by_keys self); [reflexivity | reflexivity | reflexivity | exact IH].
  - apply (@invariant_by_keys self); [reflexivity | reflexivity | reflexivity | exact IH].
  - unfold MediaStore.add_audio_to_video, bind, lift_world, ret in E.
    destruct (uuid4_hex w) as [clip_id w1]. inversion E; subst self'.
    apply (@invariant_by_keys self); [reflexivity | reflexivity | reflexivity | exact IH].
  - apply (@invariant_by_keys self); [reflexivity | | reflexivity | exact IH].
    cbn [MediaStore.set_default_enable_limiter MediaStore.set_configs
         MediaStore._configs].
    apply (dict_keys_map_values (fun c => replace_enable_limiter c value)).
  - apply (@invariant_by_keys self); [reflexivity | reflexivity | reflexivity | exact IH].
  - apply (@invariant_by_keys self); [reflexivity | | reflexivity | exact IH].
    cbn [MediaStore.set_override_original MediaStore.set_configs
         MediaStore._configs].
    apply (dict_keys_map_values (fun c => replace_override_original c value)).
Qed.

Lemma get_session_some (self : MediaStore.t (F := F)) video_id video config
    output_path (w : World) :
  dict_item (MediaStore._videos self) video_id = Some video ->
  dict_item (MediaStore._configs self) video_id = Some config ->
  dict_item (MediaStore._output_paths self) video_id = Some output_path ->
  MediaStore.get_session self video_id w
  = (Some (MixSession.mk video
             (MediaStore.get_audio_clips self video_id) config output_path
             (fst (uuid4_hex w))),
     snd (uuid4_hex w)).
Proof.
  intros Ev Ec Ep.
  unfold MediaStore.get_session, bind, lift_option, lift_world, ret.
  rewrite Ev, Ec, Ep. destruct (uuid4_hex w). reflexivity.
Qed.

Lemma sessions_of_some (self : MediaStore.t (F := F)) video_ids :
  well_keyed self -> complete self ->
  (forall id, In id video_ids -> dict_mem (MediaStore._videos self) id = true) ->
  forall w : World,
  exists sessions w',
    MediaStore.sessions_of self video_ids w = (Some sessions, w')
    /\ map (fun s => VideoClip.clip_id (MixSession.video_clip s)) sessions
       = video_ids
    /\ forall s, In s sessions ->
         MixSession.audio_clips s
         = MediaStore.get_audio_clips self
             (VideoClip.clip_id (MixSession.video_clip s)).
Proof.
  intros [_ Hk] [Hv Hc]. induction video_ids as [|id rest IH]; intros Hall w.
  - exists [], w. split; [reflexivity|]. split; [reflexivity | intros s []].
  - assert (Hm : dict_mem (MediaStore._videos self) id = true)
      by (apply Hall; left; reflexivity).
    destruct (proj1 (dict_mem_item _ _) Hm) as [video Ev].
    destruct (proj1 (dict_mem_item _ _) (Hv id Hm)) as [config Ec].
    destruct (proj1 (dict_mem_item _ _) (Hc id (Hv id Hm))) as [path Ep].
    destruct (IH (fun i Hi => Hall i (or_intror Hi)) (snd (uuid4_hex w)))
      as (sessions & w' & Es & Eids & Ha).
    eexists. exists w'. cbn [MediaStore.sessions_of]. unfold bind at 1.
    rewrite (get_session_some _ _ w Ev Ec Ep). unfold bind at 1.
    rewrite Es. unfold ret. split; [reflexivity|].
    assert (Eid : VideoClip.clip_id video = id)
      by (apply Hk; apply dict_item_In; exact Ev).
    split.
    + cbn. rewrite Eids, Eid. reflexivity.
    + intros s [<- | Hi]; [cbn; rewrite Eid; reflexivity | exact (Ha s Hi)].
Qed.

Lemma tidy_by_keys (self self' : MediaStore.t (F := F)) :
  dict_keys (MediaStore._configs self') = dict_keys (MediaStore._configs self) ->
  dict_keys (MediaStore._output_paths self')
  = dict_keys (MediaStore._output_paths self) ->
  tidy self -> tidy self'.
Proof.
  intros Ec Ep T id Hm. apply dict_mem_keys. rewrite Ec. apply dict_mem_keys.
  apply T. apply dict_mem_keys. rewrite <- Ep. apply dict_mem_keys. exact Hm.
Qed.

Lemma reachable_tidy (self : MediaStore.t (F := F)) :
  reachable lower path_name is_absolute resolve expanduser mkdir self ->
  tidy self.
Proof.
  induction 1 as
    [ limiter dir
    | self result self' Hr IH E
    | self clips Hr IH
    | self video_id clips Hr IH
    | self video_id config Hr IH Hm
    | self video_id Hr IH
    | self video_id audio_id Hr IH
    | self audios Hr IH R
    | self video_id clip category w self' w' Hr IH E
    | self value Hr IH
    | self path Hr IH
    | self value Hr IH ].
  - intros id Hm. discriminate Hm.
  - apply register_import_returned in E. subst self'.
    rewrite imported_eq. cbv zeta. rewrite pair_audio_with_video_eq.
    cbv zeta. cbn [fst snd].
    apply (@tidy_by_keys
             (fold_left (stored_video path_name is_absolute resolve)
                (ImportResult.videos result) self));
      [reflexivity | reflexivity |].
    apply register_videos_tidy. exact IH.
  - rewrite pair_audio_with_video_eq. cbv zeta. cbn [snd].
    apply (@tidy_by_keys self); [reflexivity | reflexivity | exact IH].
  - apply (@tidy_by_keys self); [reflexivity | reflexivity | exact IH].
  - apply (@tidy_by_keys self); [| reflexivity | exact IH].
    cbn [MediaStore.update_session_config MediaStore.set_configs
         MediaStore._configs].
    rewrite dict_keys_set.
    rewrite (proj1 (proj2 (reachable_invariant Hr)) video_id Hm). reflexivity.
  - intros id. unfold MediaStore.remove_video.
    cbn [MediaStore._videos MediaStore._configs MediaStore._output_paths
         MediaStore.set_videos MediaStore.set_audios MediaStore.set_configs
         MediaStore.set_output_paths].
    rewrite !dict_mem_pop.
    destruct (video_id =? id)%string; cbn; [discriminate | apply IH].
  - apply (@tidy_by_keys self); [reflexivity | reflexivity | exact IH].
  - apply (@tidy_by_keys self); [reflexivity | reflexivity | exact IH].
  - unfold MediaStore.add_audio_to_video, bind, lift_world, ret in E.
    destruct (uuid4_hex w) as [clip_id w1]. inversion E; subst self'.
    apply (@tidy_by_keys self); [reflexivity | reflexivity | exact IH].
  - apply (@tidy_by_keys self); [| reflexivity | exact IH].
    cbn [MediaStore.set_default_enable_limiter MediaStore.set_configs
         MediaStore._configs].
    apply (dict_keys_map_values (fun c => replace_enable_limiter c value)).
  - apply (@tidy_by_keys self); [reflexivity | reflexivity | exact IH].
  - apply (@tidy_by_keys self); [| reflexivity | exact IH].
    cbn [MediaStore.set_override_original MediaStore.set_configs
         MediaStore._configs].
    apply (dict_keys_map_values (fun c => replace_override_original c value)).
Qed.

(** [get_session] raises [KeyError] for a video without an output path. *)
Lemma get_session_none (self : MediaStore.t (F := F)) video_id (w : World) :
  dict_mem (MediaStore._output_paths self) video_id = false ->
  fst (MediaStore.get_session self video_id w) = None.
Proof.
  intros Em.
  assert (Ep : dict_item (MediaStore._output_paths self) video_id = None).
  { destruct (dict_item (MediaStore._output_paths self) video_id) as [path|]
      eqn:E; [|reflexivity].
    assert (Hm : dict_mem (MediaStore._output_paths self) video_id = true)
      by (apply dict_mem_item; exists path; exact E).
    congruence. }
  unfold MediaStore.get_session, bind, lift_option.
  destruct (dict_item (MediaStore._videos self) video_id); [|reflexivity].
  destruct (dict_item (MediaStore._configs self) video_id); [|reflexivity].
  rewrite Ep. reflexivity.
Qed.

(** The list comprehension raises as soon as one of its sessions does. *)
Lemma sessions_of_none (self : MediaStore.t (F := F)) video_id video_ids :
  In video_id video_ids ->
  (forall w : World, fst (MediaStore.get_session self video_id w) = None) ->
  forall w : World, fst (MediaStore.sessions_of self video_ids w) = None.
Proof.
  intros Hi Hn. induction video_ids as [|id rest IH]; intros w;
    [destruct Hi|].
  cbn [MediaStore.sessions_of]. unfold bind at 1.
  destruct Hi as [-> | Hi].
  - specialize (Hn w).
    destruct (MediaStore.get_session self video_id w) as [[s|] w1];
      [discriminate Hn | reflexivity].
  - destruct (MediaStore.get_session self id w) as [[s|] w1]; [|reflexivity].
    unfold bind. specialize (IH Hi w1).
    destruct (MediaStore.sessions_of self rest w1) as [[sessions|] w2];
      [discriminate IH | reflexivity].
Qed.

(** After an import that [mkdir] interrupted, [list_sessions] raises. *)
Lemma list_sessions_raises_after_escape (self self' : MediaStore.t (F := F))
    (result : ImportResult.t F) (w : World) :
  reachable lower path_name is_absolute resolve expanduser mkdir self ->
  MediaStore.register_import lower path_name is_absolute resolve mkdir self
    result = (TaskExecutor.Escaped, self') ->
  fst (MediaStore.list_sessions self' w) = None.
Proof.
  intros Hr E. apply register_import_escaped in E.
  destruct (@register_videos_escaped F _ _ path_name is_absolute resolve mkdir
              (ImportResult.videos result) self self' E)
    as (done & video & Hc & Hv & _ & Hp).
  pose proof (@register_videos_tidy F _ _ path_name is_absolute resolve done
                self (reachable_tidy Hr)) as T.
  assert (Hn : dict_mem (MediaStore._output_paths self')
                 (VideoClip.clip_id video) = false).
  { rewrite Hp.
    destruct (dict_mem
                (MediaStore._output_paths
                   (fold_left (stored_video path_name is_absolute resolve)
                      done self)) (VideoClip.clip_id video)) eqn:Em;
      [|reflexivity].
    rewrite (T _ Em) in Hc. discriminate Hc. }
  unfold MediaStore.list_sessions.
  apply (sessions_of_none self' (VideoClip.clip_id video)).
  - apply dict_mem_keys. exact Hv.
  - intros w0. apply get_session_none. exact Hn.
Qed.

(** X14. As long as every call of a method of a new repository returned
    normally ([update_session_config] being called for registered videos
    only), [list_sessions] does not raise [KeyError]: it returns one session
    for each registered video, in registration order, with the clips
    [get_audio_clips] gives for that video.  A [register_import] that the
    OSError of [mkdir] interrupts ends that: it has stored a video and its
    configuration without an output path, and [list_sessions] on the
    repository it leaves raises. *)
Theorem list_sessions_never_raises (self : MediaStore.t (F := F)) (w : World) :
  reachable lower path_name is_absolute resolve expanduser mkdir self ->
  (exists sessions w',
     MediaStore.list_sessions self w = (Some sessions, w')
     /\ map (fun s => VideoClip.clip_id (MixSession.video_clip s)) sessions
        = dict_keys (MediaStore._videos self)
     /\ forall s, In s sessions ->
          MixSession.audio_clips s
          = MediaStore.get_audio_clips self
              (VideoClip.clip_id (MixSession.video_clip s)))
  /\ (forall result self' w0,
        MediaStore.register_import lower path_name is_absolute resolve mkdir
          self result = (TaskExecutor.Escaped, self') ->
        fst (MediaStore.list_sessions self' w0) = None).
Proof.
  intros Hr. split.
  - destruct (reachable_invariant Hr) as [Hw Hc].
    apply sessions_of_some; [exact Hw | exact Hc|].
    intros id Hi. apply dict_mem_keys. exact Hi.
  - intros result self' w0 E.
    exact (@list_sessions_raises_after_escape self self' result w0 Hr E).
Qed.
End Sessions.

(** ** Removing, and the switches *)

Lemma dict_set_set {V : Type} (d : list (string * V)) key value value' :
  dict_set (dict_set d key value) key value' = dict_set d key value'.
Proof.
  induction d as [|[k v] rest IH]; cbn.
  - rewrite String.eqb_refl. reflexivity.
  - destruct (k =? key)%string eqn:E; cbn; rewrite E; [reflexivity|].
    rewrite IH. reflexivity.
Qed.

Lemma filter_filter {A : Type} (f : A -> bool) (l : list A) :
  filter f (filter f l) = filter f l.
Proof.
  induction l as [|a rest IH]; cbn; [reflexivity|].
  destruct (f a) eqn:E; cbn; [rewrite E, IH; reflexivity | exact IH].
Qed.

Section Removal.
Context {F : Type} `{PyFloat F} `{PyRuntime F}.

(** X15. After [remove_video] the video is gone ([get_session] raises
    [KeyError], it has no clips), and every other video is exactly as
    before. *)
Theorem remove_video_forgets_only_that_video
    (self : MediaStore.t (F := F)) (video_id other : string) (w : World) :
  other <> video_id ->
  MediaStore.get_session (MediaStore.remove_video self video_id) video_id w
  = (None, w)
  /\ MediaStore.get_audio_clips (MediaStore.remove_video self video_id) video_id
     = []
  /\ MediaStore.get_session (MediaStore.remove_video self video_id) other w
     = MediaStore.get_session self other w
  /\ MediaStore.get_audio_clips (MediaStore.remove_video self video_id) other
     = MediaStore.get_audio_clips self other.
Proof.
  intros N.
  assert (N' : video_id <> other) by (intros E; apply N; symmetry; exact E).
  unfold MediaStore.get_session, MediaStore.get_audio_clips,
    MediaStore.remove_video.
  cbn [MediaStore._videos MediaStore._configs MediaStore._output_paths
       MediaStore._audios_by_video MediaStore.set_videos MediaStore.set_audios
       MediaStore.set_configs MediaStore.set_output_paths].
  split; [|split; [|split]].
  - unfold bind, lift_option. rewrite dict_item_pop_same. reflexivity.
  - apply dict_get_pop_same.
  - rewrite !dict_item_pop_other by exact N'.
    rewrite dict_get_pop_other by exact N'. reflexivity.
  - apply dict_get_pop_other. exact N'.
Qed.

(** X16. [remove_audio] takes every clip with that id out of the list of
    that video and keeps the other clips in their order; the lists of the
    other videos, the videos and their configurations stay as they are,
    and removing the same clip again changes nothing. *)
Theorem remove_audio_drops_that_clip_only
    (self : MediaStore.t (F := F)) (video_id audio_id other : string) :
  other <> video_id ->
  let self' := MediaStore.remove_audio self video_id audio_id in
  MediaStore.get_audio_clips self' video_id
  = filter (fun clip => negb (AudioClip.clip_id clip =? audio_id)%string)
      (MediaStore.get_audio_clips self video_id)
  /\ (forall clip, In clip (MediaStore.get_audio_clips self' video_id) ->
        AudioClip.clip_id clip <> audio_id)
  /\ MediaStore.get_audio_clips self' other
     = MediaStore.get_audio_clips self other
  /\ MediaStore.remove_audio self' video_id audio_id = self'
  /\ MediaStore._videos self' = MediaStore._videos self
  /\ MediaStore._configs self' = MediaStore._configs self.
Proof.
  intros N self'. subst self'.
  assert (N' : video_id <> other) by (intros E; apply N; symmetry; exact E).
  unfold MediaStore.get_audio_clips, MediaStore.remove_audio.
  cbn [MediaStore._videos MediaStore._configs MediaStore._audios_by_video
       MediaStore.set_audios].
  rewrite !dict_get_set_same.
  split; [reflexivity|]. split; [|split; [|split; [|split; reflexivity]]].
  - intros clip Hi. apply filter_In in Hi. destruct Hi as [_ Hb].
    intros E. rewrite E, String.eqb_refl in Hb. discriminate Hb.
  - apply dict_get_set_other. exact N'.
  - rewrite dict_set_set, filter_filter. reflexivity.
Qed.

(** X17. [set_override_original] reaches every plan made afterwards: the
    session of a registered video is the one it had, with the switch set
    to the value given, and a plan built from it mixes the original
    soundtrack in exactly when the switch is off and the video has
    audio. *)
Theorem override_switch_reaches_every_plan
    (self : MediaStore.t (F := F)) (value : bool) (video_id : string)
    (w w1 w2 w3 : World) (s : MixSession.t F) (p : MixPlan.t F) :
  MediaStore.get_session (MediaStore.set_override_original self value)
    video_id w = (Some s, w1) ->
  MixPlanner.build_plan s w2 = (Some p, w3) ->
  (exists s0,
     MediaStore.get_session self video_id w = (Some s0, w1)
     /\ s = MixSession.mk (MixSession.video_clip s0) (MixSession.audio_clips s0)
              (replace_override_original (MixSession.config s0) value)
              (MixSession.target_output s0) (MixSession.session_id s0))
  /\ MixPlan.include_original_audio p
     = negb value && VideoClip.has_audio (MixSession.video_clip s).
Proof.
  intros Es Ep.
  assert (Hs : exists s0,
             MediaStore.get_session self video_id w = (Some s0, w1)
             /\ s = MixSession.mk (MixSession.video_clip s0)
                      (MixSession.audio_clips s0)
                      (replace_override_original (MixSession.config s0) value)
                      (MixSession.target_output s0) (MixSession.session_id s0)).
  { revert Es. unfold MediaStore.get_session, MediaStore.set_override_original,
      MediaStore._audios_by_video.
    cbn [MediaStore._videos MediaStore._configs MediaStore._output_paths
         MediaStore._audios_by_video MediaStore.set_configs].
    rewrite (dict_item_map_values (fun c => replace_override_original c value)).
    unfold bind, lift_option, lift_world, ret.
    destruct (dict_item (MediaStore._videos self) video_id) as [video|];
      [|discriminate].
    destruct (dict_item (MediaStore._configs self) video_id) as [config|];
      [|discriminate].
    cbn [option_map].
    destruct (dict_item (MediaStore._output_paths self) video_id) as [path|];
      [|discriminate].
    destruct (uuid4_hex w) as [session_id w']. intros E.
    inversion E; subst. eexists. split; reflexivity. }
  split; [exact Hs|].
  destruct Hs as (s0 & _ & Es0).
  destruct (build_plan_inv _ _ Ep) as (Hi & _).
  rewrite Hi, Es0. reflexivity.
Qed.
End Removal.

(** ** Editing a clip *)

Section Editing.
Context {F : Type} `{PyFloat F}.

(** The loop stops at an entry of the list, on an object with the id. *)
Lemma first_with_id_found objects audio_id (clips : list nat) address
    (clip : AudioClip.t F) :
  MediaRepository.first_with_id objects audio_id clips = Some (address, clip) ->
  In address clips
  /\ MediaRepository.deref objects address = Some clip
  /\ AudioClip.clip_id clip = audio_id.
Proof.
  induction clips as [|a rest IH]; cbn [MediaRepository.first_with_id];
    [discriminate|].
  destruct (MediaRepository.deref objects a) as [c|] eqn:Ed.
  - destruct (String.eqb_spec (AudioClip.clip_id c) audio_id) as [Ei|N].
    + intros E. inversion E; subst a c.
      split; [left; reflexivity|]. split; [exact Ed | exact Ei].
    + intros E. destruct (IH E) as (Hi & Hd & Hc).
      split; [right; exact Hi|]. split; assumption.
  - intros E. destruct (IH E) as (Hi & Hd & Hc).
    split; [right; exact Hi|]. split; assumption.
Qed.

(** The loop passes over nothing that has the id. *)
Lemma first_with_id_none objects audio_id (clips : list nat) :
  MediaRepository.first_with_id objects audio_id clips = None ->
  forall address (clip : AudioClip.t F),
    In address clips ->
    MediaRepository.deref objects address = Some clip ->
    AudioClip.clip_id clip <> audio_id.
Proof.
  induction clips as [|a rest IH]; cbn [MediaRepository.first_with_id];
    intros E address clip Hi Hd; [destruct Hi|].
  destruct Hi as [-> | Hi].
  - rewrite Hd in E.
    destruct (String.eqb_spec (AudioClip.clip_id clip) audio_id);
      [discriminate E | assumption].
  - destruct (MediaRepository.deref objects a) as [c|].
    + destruct (AudioClip.clip_id c =? audio_id)%string; [discriminate E|].
      exact (IH E address clip Hi Hd).
    + exact (IH E address clip Hi Hd).
Qed.

Lemma deref_assign_same (objects : list (AudioClip.t F)) : forall address old clip,
  MediaRepository.deref objects address = Some old ->
  MediaRepository.deref (MediaRepository.assign objects address clip) address
  = Some clip.
Proof.
  unfold MediaRepository.deref.
  induction objects as [|first rest IH]; intros [|address] old clip E;
    cbn in *; try discriminate; [reflexivity|].
  exact (IH address old clip E).
Qed.

Lemma deref_assign_other (objects : list (AudioClip.t F)) :
  forall address other clip,
    other <> address ->
    MediaRepository.deref (MediaRepository.assign objects address clip) other
    = MediaRepository.deref objects other.
Proof.
  unfold MediaRepository.deref.
  induction objects as [|first rest IH]; intros [|address] [|other] clip N;
    cbn; try reflexivity; [contradiction|].
  apply IH. intros E. apply N. rewrite E. reflexivity.
Qed.

(** A list that holds the address of an object shows the object as it is. *)
Lemma get_audio_clips_shows (self : MediaRepository.t (F := F)) video_id
    address clip :
  In address
     (MediaRepository.dict_get (MediaRepository._audios_by_video self)
        video_id []) ->
  MediaRepository.deref (MediaRepository.objects self) address = Some clip ->
  In clip (MediaRepository.get_audio_clips self video_id).
Proof.
  intros Hi Hd. unfold MediaRepository.get_audio_clips.
  apply in_flat_map. exists address. split; [exact Hi|].
  rewrite Hd. left. reflexivity.
Qed.

(** A list reads the same when the objects it holds are the same. *)
Lemma get_audio_clips_same (self self' : MediaRepository.t (F := F)) video_id :
  MediaRepository._audios_by_video self'
  = MediaRepository._audios_by_video self ->
  (forall address,
     In address
        (MediaRepository.dict_get (MediaRepository._audios_by_video self)
           video_id []) ->
     MediaRepository.deref (MediaRepository.objects self') address
     = MediaRepository.deref (MediaRepository.objects self) address) ->
  MediaRepository.get_audio_clips self' video_id
  = MediaRepository.get_audio_clips self video_id.
Proof.
  intros Ea Hs. unfold MediaRepository.get_audio_clips. rewrite Ea.
  induction (MediaRepository.dict_get (MediaRepository._audios_by_video self)
               video_id []) as [|a rest IH]; [reflexivity|].
  cbn [flat_map]. rewrite (Hs a (or_introl eq_refl)).
  rewrite IH; [reflexivity|].
  intros address Hi. apply Hs. right. exact Hi.
Qed.

(** X18. [update_audio_parameters] assigns to one clip object, the first
    one in the list of the video that has the id, and to nothing else.
    After it the lists hold the same objects in the same places; the object
    has the new start frame ([int(start_seconds * fps)] for a positive
    frame rate, [None] otherwise) and the source offset [max(0.0,
    source_offset)], its other attributes as before; every list that holds
    the object, the list of another video included, shows it with the new
    values; every other object, and every list that does not hold the
    object, is as before.  Without a clip of that id in the list nothing
    changes, and when [int] raises nothing was assigned. *)
Theorem update_audio_parameters_edits_in_place
    (self : MediaRepository.t (F := F)) (video_id audio_id : string)
    (start_seconds source_offset fps : F) :
  let clips :=
    MediaRepository.dict_get (MediaRepository._audios_by_video self)
      video_id [] in
  let found :=
    MediaRepository.first_with_id (MediaRepository.objects self) audio_id
      clips in
  let update :=
    MediaRepository.update_audio_parameters self video_id audio_id
      start_seconds source_offset fps in
  (found = None -> update = Some self)
  /\ (forall address clip,
        found = Some (address, clip) ->
        In address clips
        /\ MediaRepository.deref (MediaRepository.objects self) address
           = Some clip
        /\ AudioClip.clip_id clip = audio_id)
  /\ (found <> None -> stored_frame start_seconds fps = None -> update = None)
  /\ (forall address clip start_frame,
        found = Some (address, clip) ->
        stored_frame start_seconds fps = Some start_frame ->
        exists self',
          update = Some self'
          /\ MediaRepository._audios_by_video self'
             = MediaRepository._audios_by_video self
          /\ MediaRepository.deref (MediaRepository.objects self') address
             = Some (edited clip start_frame source_offset)
          /\ (forall other, other <> address ->
                MediaRepository.deref (MediaRepository.objects self') other
                = MediaRepository.deref (MediaRepository.objects self) other)
          /\ (forall video,
                In address
                   (MediaRepository.dict_get
                      (MediaRepository._audios_by_video self) video []) ->
                In (edited clip start_frame source_offset)
                   (MediaRepository.get_audio_clips self' video))
          /\ (forall video,
                ~ In address
                    (MediaRepository.dict_get
                       (MediaRepository._audios_by_video self) video []) ->
                MediaRepository.get_audio_clips self' video
                = MediaRepository.get_audio_clips self video)).
Proof.
  intros clips found update. subst update.
  unfold MediaRepository.update_audio_parameters. fold clips. fold found.
  fold (stored_frame start_seconds fps).
  split; [intros ->; reflexivity|].
  split; [intros address clip E; exact (first_with_id_found _ _ _ E)|].
  split.
  - intros N E. destruct found as [[address clip]|]; [|contradiction].
    rewrite E. reflexivity.
  - intros address clip start_frame Ef Es. rewrite Ef, Es.
    destruct (first_with_id_found _ _ _ Ef) as (Hi & Hd & _).
    eexists. split; [reflexivity|].
    cbn [MediaRepository._audios_by_video MediaRepository.objects].
    fold (edited clip start_frame source_offset).
    split; [reflexivity|].
    assert (Hsame : MediaRepository.deref
                      (MediaRepository.assign (MediaRepository.objects self)
                         address (edited clip start_frame source_offset))
                      address
                    = Some (edited clip start_frame source_offset))
      by (eapply deref_assign_same; exact Hd).
    split; [exact Hsame|].
    split; [intros other N; apply deref_assign_other; exact N|].
    split.
    + intros video Hv. apply (get_audio_clips_shows _ _ address).
      * exact Hv.
      * exact Hsame.
    + intros video Hv. apply get_audio_clips_same; [reflexivity|].
      intros other Ho. cbn [MediaRepository.objects].
      apply deref_assign_other. intros E. subst other. contradiction.
Qed.
End Editing.

(** ** What a success of the batch script stands for *)

Section ScriptSuccess.
Context {F : Type} `{PyFloat F}.
Variable host : @A3.Host F.

Lemma ends_failed output_file (tr : A3.trace) :
  ends_with_merge host output_file (A3.failed, tr).
Proof. intros E. discriminate E. Qed.

Lemma final_merge_ends abs_video_file combined output_file temp_concat_video
    original_audio_exists (tr : A3.trace) :
  ends_with_merge host output_file
    (A3.final_merge host abs_video_file combined output_file
       temp_concat_video original_audio_exists tr).
Proof.
  unfold A3.final_merge. rewrite run_ffmpeg_command_spec.
  match goal with
  | |- context [run_failed host (A3.ffmpeg_command_line ?c)] =>
      set (command := c)
  end.
  destruct (run_failed host (A3.ffmpeg_command_line command)) eqn:Ef;
    cbn [negb]; [apply ends_failed|].
  destruct (run_ffprobe_spec host output_file "format=duration" "v" 0
              A3.default_format (tr +++ [A3.ffmpeg_command_line command]))
    as (answer & probe & -> & Np).
  intros _. exists tr, command, probe. cbn [snd].
  split; [rewrite <- app_assoc; reflexivity|].
  split; [exact Ef|].
  split; [|split; [|exact Np]];
    subst command; destruct original_audio_exists, temp_concat_video;
    cbn; auto 20.
Qed.

Lemma extend_and_merge_ends video_name abs_mix_dir abs_video_file combined
    output_file duration_diff original_audio_exists (tr : A3.trace) :
  ends_with_merge host output_file
    (A3.extend_and_merge host video_name abs_mix_dir abs_video_file combined
       output_file duration_diff original_audio_exists tr).
Proof.
  unfold A3.extend_and_merge.
  destruct (A3.run_ffprobe host abs_video_file "stream=width" _ _ _ tr)
    as [width tr1].
  destruct (A3.run_ffprobe host abs_video_file "stream=height" _ _ _ tr1)
    as [height tr2].
  destruct (A3.run_ffprobe host abs_video_file "stream=r_frame_rate" _ _ _ tr2)
    as [rate tr3].
  destruct width as [width|]; [|apply ends_failed].
  destruct height as [height|]; [|apply ends_failed].
  destruct rate as [rate|]; [|apply ends_failed].
  destruct (A3.parse_int host width) as [video_width|]; [|apply ends_failed].
  destruct (A3.parse_int host height) as [video_height|]; [|apply ends_failed].
  destruct ((video_width <=? 0)%Z || (video_height <=? 0)%Z);
    [apply ends_failed|].
  destruct (A3.parse_frame_rate host rate) as [video_fps|]; [|apply ends_failed].
  destruct (video_fps <=? f0)%py; [apply ends_failed|].
  destruct (A3.run_ffmpeg_command host _ tr3) as [[|] tr4]; [|apply ends_failed].
  destruct (negb (A3.list_file_writable host)); [apply ends_failed|].
  destruct (A3.run_ffmpeg_command host _ tr4) as [[|] tr5]; [|apply ends_failed].
  apply final_merge_ends.
Qed.

Lemma probe_and_merge_ends video_name abs_mix_dir abs_video_file combined
    output_file (tr : A3.trace) :
  ends_with_merge host output_file
    (A3.probe_and_merge host video_name abs_mix_dir abs_video_file combined
       output_file tr).
Proof.
  unfold A3.probe_and_merge.
  destruct (A3.run_ffprobe host abs_video_file "format=duration" "v" _ _ tr)
    as [video tr1].
  destruct (A3.run_ffprobe host abs_video_file "format=duration" "a" _ _ tr1)
    as [original tr2].
  destruct (A3.run_ffprobe host combined "format=duration" "a" _ _ tr2)
    as [external tr3].
  destruct video as [video|]; [|apply ends_failed].
  destruct external as [external|]; [|apply ends_failed].
  destruct (A3.parse_float host video) as [video_duration|];
    [|apply ends_failed].
  destruct (A3.parse_float host external) as [external_duration|];
    [|apply ends_failed].
  destruct (_ >? _)%py; [apply extend_and_merge_ends | apply final_merge_ends].
Qed.

(** X20. [process_video_task] answers [success] only after the final merge
    ran: the trace then ends with an ffmpeg invocation that exited with 0,
    copies the video stream and writes to the file of the video's name in
    the output directory, followed by the probe of that file; and no
    ffmpeg invocation of the whole job had failed. *)
Theorem success_means_the_merge_ran (video_file : string) (tr : A3.trace) :
  A3.process_video_task host video_file = (A3.success, tr) ->
  (exists pre command probe,
     tr = pre +++ [A3.ffmpeg_command_line command; probe]
     /\ run_failed host (A3.ffmpeg_command_line command) = false
     /\ last command ""
        = A3.os_path_join host (A3.abspath host A3.OUTPUT_MIX_DIR)
            (A3.basename host video_file)
     /\ In "copy" command
     /\ ~ is_ffmpeg probe)
  /\ forall cmd, In cmd tr -> is_ffmpeg cmd -> run_failed host cmd = false.
Proof.
  unfold A3.process_video_task. rewrite find_and_mix_audio_spec.
  set (video_name := A3.splitext_root host (A3.basename host video_file)).
  set (output_file := A3.os_path_join host _ _).
  assert (Hall : forall pre combined,
            (forall cmd, In cmd pre -> run_failed host cmd = false) ->
            A3.probe_and_merge host video_name
              (A3.abspath host A3.OUTPUT_MIX_DIR) (A3.abspath host video_file)
              combined output_file pre = (A3.success, tr) ->
            (exists pre' command probe,
               tr = pre' +++ [A3.ffmpeg_command_line command; probe]
               /\ run_failed host (A3.ffmpeg_command_line command) = false
               /\ last command "" = output_file
               /\ In "copy" command
               /\ ~ is_ffmpeg probe)
            /\ forall cmd, In cmd tr -> is_ffmpeg cmd ->
                 run_failed host cmd = false).
  { intros pre combined Hpre E. split.
    - pose proof (probe_and_merge_ends video_name
                    (A3.abspath host A3.OUTPUT_MIX_DIR)
                    (A3.abspath host video_file) combined output_file pre) as He.
      rewrite E in He. exact (He eq_refl).
    - destruct (probe_and_merge_ok host video_name
                  (A3.abspath host A3.OUTPUT_MIX_DIR)
                  (A3.abspath host video_file) combined output_file pre)
        as (commands & Et & Hb & _).
      rewrite E in Et, Hb. cbn [fst snd] in Et, Hb. subst tr.
      intros cmd Hi Hf. apply in_app_or in Hi. destruct Hi as [Hi | Hi].
      + apply Hpre. exact Hi.
      + destruct (run_failed host cmd) eqn:Er; [|reflexivity].
        specialize (Hb cmd Hi Hf Er). discriminate Hb. }
  destruct (A3.matching_files host _ _) as [[|a [|b rest]]|].
  - intros E. discriminate E.
  - apply Hall. intros cmd [].
  - cbv zeta.
    destruct (run_failed host (A3.ffmpeg_command_line _)) eqn:Ep.
    + intros E. discriminate E.
    + apply Hall. intros cmd [<- | []]. exact Ep.
  - intros E. discriminate E.
Qed.
End ScriptSuccess.

(** ** The repository theorems on examples *)

Section StoreExamples.
#[local] Existing Instance Toy.runtime.

Lemma prefixed_audio_meets_its_video_witness :
  names_meet Library.lower "Demo" "A1_demo" = true.
Proof.
  apply (@prefixed_audio_meets_its_video Q Toy.runtime Library.lower
           "Demo" "A1_demo" "a1_").
  - left. reflexivity.
  - reflexivity.
  - vm_compute. discriminate.
Defined.

Lemma suffixed_audio_meets_its_video_witness :
  names_meet Library.lower "Demo" "demo_MIX" = true.
Proof.
  apply (@suffixed_audio_meets_its_video Q Toy.runtime Library.lower
           "Demo" "demo_MIX" "_mix").
  - right. right. left. reflexivity.
  - reflexivity.
  - vm_compute. discriminate.
Defined.

Lemma shelf_is_well_keyed : well_keyed (@Library.shelf Q exact Toy.runtime).
Proof.
  split.
  - vm_compute. constructor; [intros [] | constructor].
  - intros key video Hi. vm_compute in Hi. destruct Hi as [E | []].
    inversion E. reflexivity.
Qed.

Lemma pairing_follows_registration_order_witness :
  MediaRepository.dict_get
    (fst (MediaStore.pair_audio_with_video Library.lower
            (@Library.shelf Q exact Toy.runtime)
            [Library.stray; Library.effect]))
    "v1" []
  = [Library.effect].
Proof.
  rewrite (proj1 (@pairing_follows_registration_order Q Toy.runtime
                    Library.lower Library.shelf
                    [Library.stray; Library.effect] shelf_is_well_keyed)).
  vm_compute. reflexivity.
Defined.

Lemma empty_is_well_keyed : well_keyed (@Library.empty Q).
Proof. split; [constructor | intros key video []]. Qed.

Lemma register_import_appends_and_keeps_settings_witness :
  exists self',
    MediaStore.register_import Library.lower Library.path_name
      Library.is_absolute Library.resolve Toy.mkdir_ok
      (@Library.empty Q) (@Library.drop_in Q exact)
    = (TaskExecutor.Returned, self')
    /\ MediaStore.get_audio_clips self' "v1" = [Library.effect]
    /\ dict_mem (MediaStore._videos self') "v1" = true.
Proof.
  destruct (@register_import_appends_and_keeps_settings Q exact Toy.runtime
              Library.lower Library.path_name Library.is_absolute
              Library.resolve Toy.mkdir_ok Library.empty Library.drop_in
              empty_is_well_keyed)
    as (Hreturned & _ & Hreturns).
  destruct Hreturns as (self' & E); [reflexivity|].
  exists self'. split; [exact E|].
  destruct (Hreturned self' E) as (_ & _ & Hv & _).
  split.
  - vm_compute in E. inversion E. vm_compute. reflexivity.
  - apply (Hv (Toy.video (of_int 5) (of_int 25))). left. reflexivity.
Defined.

Lemma override_switch_does_not_reach_later_imports_witness :
  let import :=
    MediaStore.register_import Library.lower Library.path_name
      Library.is_absolute Library.resolve Toy.mkdir_ok
      (MediaStore.set_override_original (@Library.empty Q) true)
      (@Library.drop_in Q exact) in
  fst import = TaskExecutor.Returned
  /\ exists config,
       dict_item (MediaStore._configs (snd import)) "v1" = Some config
       /\ TrackConfig.override_original config = false.
Proof.
  cbv zeta.
  destruct (@override_switch_does_not_reach_later_imports Q exact
              Toy.runtime Library.lower Library.path_name
              Library.is_absolute Library.resolve Toy.mkdir_ok Library.empty
              true Library.drop_in (Toy.video (of_int 5) (of_int 25))
              (or_introl eq_refl) eq_refl) as [Hover _].
  destruct (Hover _ _ (surjective_pairing _)) as [Hall Hret].
  assert (R : fst (MediaStore.register_import Library.lower Library.path_name
                     Library.is_absolute Library.resolve Toy.mkdir_ok
                     (MediaStore.set_override_original (@Library.empty Q) true)
                     (@Library.drop_in Q exact))
              = TaskExecutor.Returned) by (vm_compute; reflexivity).
  split; [exact R|].
  destruct (Hret R) as (config & E).
  exists config. split; [exact E | exact (Hall config E)].
Defined.

Lemma shelf_is_reachable :
  reachable Library.lower Library.path_name Library.is_absolute
    Library.resolve Library.expanduser Toy.mkdir_ok
    (@Library.shelf Q exact Toy.runtime).
Proof.
  apply reach_register_import
    with (self := Library.empty) (result := Library.drop_in).
  - apply reach_init.
  - vm_compute. reflexivity.
Qed.

Lemma list_sessions_never_raises_witness :
  exists sessions w',
    MediaStore.list_sessions (@Library.shelf Q exact Toy.runtime) 0%Z
    = (Some sessions, w')
    /\ map (fun s => VideoClip.clip_id (MixSession.video_clip s)) sessions
       = ["v1"].
Proof.
  destruct (@list_sessions_never_raises Q exact Toy.runtime Library.lower
              Library.path_name Library.is_absolute Library.resolve
              Library.expanduser Toy.mkdir_ok Library.shelf 0%Z
              shelf_is_reachable)
    as ((sessions & w' & E & Ek & _) & _).
  exists sessions, w'. split; [exact E | exact Ek].
Defined.

(** The import that [mkdir] interrupts: the video and its configuration are
    stored, its output path is not, and [list_sessions] raises. *)
Example list_sessions_raises_after_interrupted_import :
  let import :=
    MediaStore.register_import Library.lower Library.path_name
      Library.is_absolute Library.resolve Library.read_only
      (@Library.empty Q) (@Library.drop_in Q exact) in
  fst import = TaskExecutor.Escaped
  /\ dict_mem (MediaStore._videos (snd import)) "v1" = true
  /\ dict_mem (MediaStore._configs (snd import)) "v1" = true
  /\ dict_mem (MediaStore._output_paths (snd import)) "v1" = false
  /\ fst (@MediaStore.list_sessions Q Toy.runtime (snd import) 0%Z) = None.
Proof. repeat split; vm_compute; reflexivity. Qed.

Lemma remove_video_forgets_only_that_video_witness :
  MediaStore.get_session
    (MediaStore.remove_video (@Library.shelf Q exact Toy.runtime) "v1")
    "v1" 0%Z
  = (None, 0%Z).
Proof.
  refine (proj1 (@remove_video_forgets_only_that_video Q Toy.runtime
                   Library.shelf "v1" "v2" 0%Z _)).
  discriminate.
Defined.

Lemma remove_audio_drops_that_clip_only_witness :
  MediaStore.get_audio_clips
    (MediaStore.remove_audio (@Library.shelf Q exact Toy.runtime)
       "v1" "A1_Demo") "v1"
  = [].
Proof.
  pose proof (@remove_audio_drops_that_clip_only Q Library.shelf
                "v1" "A1_Demo" "v2") as H0.
  cbv zeta in H0. rewrite (proj1 (H0 ltac:(discriminate))).
  vm_compute. reflexivity.
Defined.

Lemma override_switch_reaches_every_plan_witness :
  exists s w1 p w3,
    MediaStore.get_session
      (MediaStore.set_override_original (@Library.shelf Q exact Toy.runtime)
         true) "v1" 0%Z = (Some s, w1)
    /\ MixPlanner.build_plan s w1 = (Some p, w3)
    /\ MixPlan.include_original_audio p = false.
Proof.
  assert (Es : exists s w1,
             MediaStore.get_session
               (MediaStore.set_override_original
                  (@Library.shelf Q exact Toy.runtime) true) "v1" 0%Z
             = (Some s, w1))
    by (eexists; eexists; vm_compute; reflexivity).
  destruct Es as (s & w1 & Es).
  destruct (build_plan_succeeds s exact_int_total w1) as (p & w3 & Ep).
  exists s, w1, p, w3. split; [exact Es|]. split; [exact Ep|].
  rewrite (proj2 (@override_switch_reaches_every_plan Q exact Toy.runtime
                    Library.shelf true "v1" 0%Z w1 w1 w3 s p Es Ep)).
  reflexivity.
Defined.

Lemma update_audio_parameters_edits_in_place_witness :
  exists self',
    MediaRepository.update_audio_parameters (@shared_voice float binary64)
      "v1" "vo" (of_int 2) f0 (of_int 25) = Some self'
    /\ map (@AudioClip.start_frame float)
           (MediaRepository.get_audio_clips (@shared_voice float binary64) "v2")
       = [Some 3%Z]
    /\ map (@AudioClip.start_frame float)
           (MediaRepository.get_audio_clips self' "v1") = [Some 50%Z]
    /\ map (@AudioClip.start_frame float)
           (MediaRepository.get_audio_clips self' "v2") = [Some 50%Z].
Proof.
  destruct (@update_audio_parameters_edits_in_place float binary64
              shared_voice "v1" "vo" (of_int 2) f0 (of_int 25))
    as (_ & _ & _ & Hedit).
  destruct (Hedit 0%nat (voice_at 3) (Some 50%Z))
    as (self' & E & Ea & Hd & _);
    [vm_compute; reflexivity | vm_compute; reflexivity |].
  exists self'. split; [exact E|].
  split; [vm_compute; reflexivity|].
  unfold MediaRepository.get_audio_clips. rewrite Ea.
  change (MediaRepository.dict_get
            (MediaRepository._audios_by_video (@shared_voice float binary64))
            "v1" []) with [0%nat].
  change (MediaRepository.dict_get
            (MediaRepository._audios_by_video (@shared_voice float binary64))
            "v2" []) with [0%nat].
  cbn [flat_map]. rewrite Hd. split; reflexivity.
Defined.

Lemma success_means_the_merge_ran_witness :
  exists tr,
    A3.process_video_task Hosts.willing_host "demo.mp4" = (A3.success, tr)
    /\ forall cmd, In cmd tr -> is_ffmpeg cmd ->
         run_failed Hosts.willing_host cmd = false.
Proof.
  assert (E : exists tr,
            A3.process_video_task Hosts.willing_host "demo.mp4"
            = (A3.success, tr))
    by (eexists; vm_compute; reflexivity).
  destruct E as (tr & E). exists tr. split; [exact E|].
  exact (proj2 (@success_means_the_merge_ran Q exact Hosts.willing_host
                  "demo.mp4" tr E)).
Defined.
End StoreExamples.

(** ** Collected media *)

Section ProbeFacts.
Context {F : Type} `{PyFloat F}.
Variable host : FFmpegProbe.Host (F := F).

(** The video probe answers [None] or raises. *)
Lemma run_video_probe_gives_nothing (command : list string)
    (answer : option (FFmpegProbe.VideoMetadata F)) :
  FFmpegProbe._run_video_probe host command = Some answer -> answer = None.
Proof.
  unfold FFmpegProbe._run_video_probe.
  destruct (FFmpegProbe.popen host command) as [[returncode stdout]|];
    [|discriminate].
  destruct (negb (returncode =? 0)%Z); [intros E; inversion E; reflexivity|].
  destruct (FFmpegProbe.loads host stdout) as [payload|]; [|discriminate].
  destruct (FFmpegProbe.format_duration_or_zero host payload); [|discriminate].
  destruct (FFmpegProbe.streams host payload) as [found|]; [|discriminate].
  destruct (FFmpegProbe.first_stream host "video" found) as [[video|]|];
    destruct (FFmpegProbe.first_stream host "audio" found) as [audio|];
    try discriminate.
  intros E. inversion E. reflexivity.
Qed.
End ProbeFacts.

Section CollectorFacts.
Context {F : Type} `{PyFloat F} `{PyRuntime F}.
Variable probe : FFmpegProbe.Host (F := F).
Variable lower : string -> string.
Variable path_suffix : Path -> string.
Variable path_name : Path -> string.
Variable is_dir : Path -> bool.
Variable is_file : Path -> bool.
Variable iterdir : Path -> option (list Path).

Lemma collected_add_warning result text :
  collected lower path_suffix path_name result -> collected lower path_suffix path_name
    (FileCollector.add_warning result text).
Proof.
  intros (Hv & Ha & Hn). split; [exact Hv|]. split; [exact Ha|].
  cbn. rewrite List.length_app. cbn. lia.
Qed.

Lemma collect_single_file_collected file_path result w result' w' :
  FileCollector._collect_single_file probe lower path_suffix path_name
    file_path result w = (Some result', w') ->
  collected lower path_suffix path_name result ->
  collected lower path_suffix path_name result'.
Proof.
  unfold FileCollector._collect_single_file. intros E Hc.
  destruct (str_in (lower (path_suffix file_path)) VIDEO_EXTENSIONS) eqn:Ev.
  - apply bind_some in E as (metadata & w1 & Ep & E).
    unfold lift_option in Ep. inversion Ep; subst w1. clear Ep.
    match goal with
    | Hp : FFmpegProbe.probe_video _ _ = Some metadata |- _ =>
        apply run_video_probe_gives_nothing in Hp; subst metadata
    end.
    apply bind_some in E as (clip_id & w2 & _ & E).
    apply ret_some in E as [<- _].
    destruct Hc as (Hv & Ha & Hn). split; [|split].
    + cbn. intros video Hi. apply in_app_or in Hi.
      destruct Hi as [Hi | [<- | []]]; [exact (Hv video Hi)|].
      split; [repeat split|]. split; [reflexivity | exact Ev].
    + exact Ha.
    + cbn. rewrite !List.length_app. cbn. lia.
  - destruct (str_in (lower (path_suffix file_path)) AUDIO_EXTENSIONS).
    + apply bind_some in E as (metadata & w1 & _ & E).
      destruct metadata as [metadata|];
        apply bind_some in E as (clip_id & w2 & _ & E);
        apply ret_some in E as [<- _];
        destruct Hc as (Hv & Ha & Hn); (split; [exact Hv|]); (split;
          [ cbn; intros audio Hi; apply in_app_or in Hi;
            destruct Hi as [Hi | [<- | []]];
            [exact (Ha audio Hi) | split; reflexivity]
          | cbn; try rewrite List.length_app; cbn; lia ]).
    + apply ret_some in E as [<- _]. apply collected_add_warning. exact Hc.
Qed.

Lemma collect_children_collected children state w state' w' :
  FileCollector.collect_children probe lower path_suffix path_name is_file
    children state w = (Some state', w') ->
  collected lower path_suffix path_name (fst state) ->
  collected lower path_suffix path_name (fst state').
Proof.
  revert state w. induction children as [|child rest IH]; intros state w E Hc;
    cbn [FileCollector.collect_children] in E.
  - apply ret_some in E as [<- _]. exact Hc.
  - destruct (is_file child).
    + apply bind_some in E as (result & w1 & Es & E).
      apply (IH _ _ E). cbn [fst].
      eapply collect_single_file_collected; [exact Es | exact Hc].
    + exact (IH _ _ E Hc).
Qed.

Lemma collect_paths_collected paths result w result' w' :
  FileCollector.collect_paths probe lower path_suffix path_name is_dir is_file
    iterdir paths result w = (Some result', w') ->
  collected lower path_suffix path_name result ->
  collected lower path_suffix path_name result'.
Proof.
  revert result w. induction paths as [|path rest IH]; intros result w E Hc;
    cbn [FileCollector.collect_paths] in E.
  - apply ret_some in E as [<- _]. exact Hc.
  - apply bind_some in E as (result1 & w1 & Es & E).
    apply (IH _ _ E). clear E IH.
    destruct (is_dir path).
    + unfold FileCollector._collect_from_directory in Es.
      apply bind_some in Es as (children & w2 & _ & Es).
      apply bind_some in Es as (state & w3 & Ec & Es).
      assert (Hs : collected lower path_suffix path_name (fst state))
        by (eapply collect_children_collected; [exact Ec | exact Hc]).
      destruct (negb (snd state)); apply ret_some in Es as [<- _];
        [apply collected_add_warning; exact Hs | exact Hs].
    + destruct (is_file path).
      * eapply collect_single_file_collected; [exact Es | exact Hc].
      * apply ret_some in Es as [<- _].
        destruct Hc as (Hv & Ha & Hn). split; [exact Hv|].
        split; [exact Ha | exact Hn].
Qed.

Lemma collected_videos_from_paths (paths : list Path) (w w' : World)
    (result : ImportResult.t F) :
  FileCollector.collect_media_from_paths probe lower path_suffix path_name
    is_dir is_file iterdir paths w = (Some result, w') ->
  collected lower path_suffix path_name result.
Proof.
  intros E. eapply collect_paths_collected; [exact E|].
  split; [intros video []|]. split; [intros audio [] | cbn; lia].
Qed.

(** X21. Whatever ffprobe answers, the video probe gives no metadata (it
    returns [None] or raises), so every video that
    [collect_media_from_paths] returns has duration 0.0, frame rate 0.0,
    resolution (0, 0) and no audio, and comes with a warning; every audio
    clip it returns is unplaced, with no source offset. *)
Theorem collected_videos_carry_no_metadata (paths : list Path)
    (w w' : World) (result : ImportResult.t F) :
  FileCollector.collect_media_from_paths probe lower path_suffix path_name
    is_dir is_file iterdir paths w = (Some result, w') ->
  (forall video, In video (ImportResult.videos result) ->
     unprobed video
     /\ VideoClip.display_name video = path_name (VideoClip.file_path video)
     /\ str_in (lower (path_suffix (VideoClip.file_path video)))
          VIDEO_EXTENSIONS = true)
  /\ (forall audio, In audio (ImportResult.audios result) -> unplaced audio)
  /\ (List.length (ImportResult.videos result)
      <= List.length (ImportResult.warnings result))%nat.
Proof.
  intros E. eapply collect_paths_collected; [exact E|].
  split; [intros video []|]. split; [intros audio [] | cbn; lia].
Qed.
End CollectorFacts.

(** ** From a dropped file to its plan *)

Section DropToPlan.
Context {F : Type} `{PyFloat F} `{PyRuntime F}.
Variable probe : FFmpegProbe.Host (F := F).
Variable lower : string -> string.
Variable path_suffix : Path -> string.
Variable path_name : Path -> string.
Variable is_dir : Path -> bool.
Variable is_file : Path -> bool.
Variable iterdir : Path -> option (list Path).
Variable is_absolute : Path -> bool.
Variable resolve : Path -> Path.
Variable expanduser : Path -> Path.
Variable mkdir : Mkdir.

Lemma register_videos_values (videos : list (VideoClip.t F)) self key video :
  In (key, video)
     (MediaStore._videos
        (fold_left (stored_video path_name is_absolute resolve)
           videos self)) ->
  In (key, video) (MediaStore._videos self) \/ In video videos.
Proof.
  revert self. induction videos as [|v rest IH]; intros self Hi;
    cbn [fold_left] in Hi.
  - left. exact Hi.
  - destruct (IH _ Hi) as [Hs | Hr]; [|right; right; exact Hr].
    rewrite register_video_videos in Hs. apply dict_set_In in Hs.
    destruct Hs as [[_ ->] | Hs]; [right; left; reflexivity | left; exact Hs].
Qed.

(** X22. A video that came in through [collect_media_from_paths] and a new
    repository is planned without its soundtrack: its session says the
    video has no audio and a frame rate of 0.0, so the plan leaves the
    original soundtrack out, and every clip is read as starting at 0.0 s
    whatever its start frame.  This holds of every session the repository
    gives after [register_import], whether the import returned or was left
    by the OSError of a [mkdir]. *)
Theorem dropped_videos_are_mixed_without_their_soundtrack
    (paths : list Path) (w w1 w2 w3 w4 w5 : World) (result : ImportResult.t F)
    (limiter : bool) (dir : option Path) (video_id : string)
    (s : MixSession.t F) (p : MixPlan.t F) :
  (@f0 F _ <=? f0)%py = true ->
  FileCollector.collect_media_from_paths probe lower path_suffix path_name
    is_dir is_file iterdir paths w = (Some result, w1) ->
  MediaStore.get_session
    (snd (MediaStore.register_import lower path_name is_absolute resolve
            mkdir (MediaStore.__init__ expanduser limiter dir) result))
    video_id w2 = (Some s, w3) ->
  MixPlanner.build_plan s w4 = (Some p, w5) ->
  unprobed (MixSession.video_clip s)
  /\ MixPlan.include_original_audio p = false
  /\ forall clip : AudioClip.t F,
       AudioClip.start_seconds clip (VideoClip.fps (MixSession.video_clip s))
       = f0.
Proof.
  intros Hz Ec Es Ep.
  assert (Hu : unprobed (MixSession.video_clip s)).
  { unfold MediaStore.get_session in Es.
    apply bind_some in Es as (video & w6 & Ev & Es).
    apply bind_some in Es as (config & w7 & _ & Es).
    apply bind_some in Es as (output_path & w8 & _ & Es).
    apply bind_some in Es as (session_id & w9 & _ & Es).
    apply ret_some in Es as [<- _]. cbn [MixSession.video_clip].
    unfold lift_option in Ev. inversion Ev as [[Ei Ew]]. clear Ev Ew.
    apply dict_item_In in Ei.
    destruct (register_import_fields lower path_name is_absolute resolve
                mkdir (MediaStore.__init__ expanduser limiter dir) result)
      as (done & rest & Es' & Hv' & _).
    rewrite Hv' in Ei.
    apply register_videos_values in Ei. destruct Ei as [[] | Ei].
    assert (Ei' : In video (ImportResult.videos result))
      by (rewrite Es'; apply in_or_app; left; exact Ei).
    clear Ei. rename Ei' into Ei.
    assert (Hcol : collected lower path_suffix path_name result)
      by (eapply collected_videos_from_paths; exact Ec).
    destruct Hcol as (Hv & _).
    exact (proj1 (Hv video Ei)). }
  split; [exact Hu|]. destruct Hu as (_ & Ef & _ & Ea). split.
  - destruct (build_plan_inv _ _ Ep) as (Hi & _). rewrite Hi, Ea.
    apply Bool.andb_false_r.
  - intros clip. unfold AudioClip.start_seconds. rewrite Ef, Hz. reflexivity.
Qed.
End DropToPlan.


Section DeskExamples.
#[local] Existing Instance Toy.runtime.

Lemma collected_videos_carry_no_metadata_witness :
  exists result w',
    FileCollector.collect_media_from_paths Desk.ffprobe Library.lower
      Desk.path_suffix Library.path_name Desk.is_dir Desk.is_file Desk.iterdir
      ["Demo.MP4"; "a1_demo.wav"] 0%Z = (Some result, w')
    /\ List.length (ImportResult.videos result) = 1%nat
    /\ forall video, In video (ImportResult.videos result) -> unprobed video.
Proof.
  assert (E : exists result w',
            FileCollector.collect_media_from_paths Desk.ffprobe Library.lower
              Desk.path_suffix Library.path_name Desk.is_dir Desk.is_file
              Desk.iterdir ["Demo.MP4"; "a1_demo.wav"] 0%Z
            = (Some result, w')
            /\ List.length (ImportResult.videos result) = 1%nat)
    by (eexists; eexists; split; [vm_compute; reflexivity|];
        vm_compute; reflexivity).
  destruct E as (result & w' & E & En). exists result, w'.
  split; [exact E|]. split; [exact En|].
  intros video Hi.
  exact (proj1 (proj1 (@collected_videos_carry_no_metadata Q exact Toy.runtime
                         Desk.ffprobe Library.lower Desk.path_suffix
                         Library.path_name Desk.is_dir Desk.is_file
                         Desk.iterdir _ _ _ _ E) video Hi)).
Defined.

Lemma dropped_videos_are_mixed_without_their_soundtrack_witness :
  exists result w1 s w3 p w5,
    FileCollector.collect_media_from_paths Desk.ffprobe Library.lower
      Desk.path_suffix Library.path_name Desk.is_dir Desk.is_file Desk.iterdir
      ["Demo.MP4"; "a1_demo.wav"] 0%Z = (Some result, w1)
    /\ MediaStore.get_session
         (snd (MediaStore.register_import Library.lower Library.path_name
                 Library.is_absolute Library.resolve Toy.mkdir_ok
                 (MediaStore.__init__ Library.expanduser true None) result))
         "0" w1 = (Some s, w3)
    /\ MixPlanner.build_plan s w3 = (Some p, w5)
    /\ MixPlan.include_original_audio p = false.
Proof.
  assert (E : exists result w1 s w3,
            FileCollector.collect_media_from_paths Desk.ffprobe Library.lower
              Desk.path_suffix Library.path_name Desk.is_dir Desk.is_file
              Desk.iterdir ["Demo.MP4"; "a1_demo.wav"] 0%Z
            = (Some result, w1)
            /\ MediaStore.get_session
                 (snd (MediaStore.register_import Library.lower
                         Library.path_name Library.is_absolute Library.resolve
                         Toy.mkdir_ok
                         (MediaStore.__init__ Library.expanduser true None)
                         result))
                 "0" w1 = (Some s, w3)).
  { eexists. eexists. eexists. eexists.
    split; [vm_compute; reflexivity|]. vm_compute. reflexivity. }
  destruct E as (result & w1 & s & w3 & Ec & Es).
  destruct (build_plan_succeeds s exact_int_total w3) as (p & w5 & Ep).
  exists result, w1, s, w3, p, w5.
  split; [exact Ec|]. split; [exact Es|]. split; [exact Ep|].
  exact (proj1 (proj2
           (@dropped_videos_are_mixed_without_their_soundtrack Q exact
              Toy.runtime Desk.ffprobe Library.lower Desk.path_suffix
              Library.path_name Desk.is_dir Desk.is_file Desk.iterdir
              Library.is_absolute Library.resolve Library.expanduser
              Toy.mkdir_ok
              ["Demo.MP4"; "a1_demo.wav"] 0%Z w1 w1 w3 w3 w5 result true None
              "0" s p eq_refl Ec Es Ep))).
Defined.
End DeskExamples.
